(** * GURT Python client: message codec, URL resolver and handshake

    A shallow embedding of [gurt/protocol.py], [gurt/errors.py],
    [gurt/message.py] and [gurt/client.py], followed by the properties of
    the codec, of the URL resolver and of the handshake phase.

    Text ([str]) is a list of Unicode code points, binary data ([bytes]) a
    list of byte values, both carried by [N]; Python integers are [Z].
    A function that can raise returns [result], a value of [exn + A]. *)

From Stdlib Require Import String Ascii DecimalString.
From Stdlib Require Import NArith ZArith List Bool Lia.
Import ListNotations.

(* ================================================================== *)
(** * Python built-ins used by the client *)
(* ================================================================== *)

Module Py.

Abbreviation char := N (only parsing).
Abbreviation str := (list N) (only parsing).
Abbreviation bytes := (list N) (only parsing).

(** An ASCII literal, as text or as binary data. *)
Definition lit (s : string) : list N :=
  map N_of_ascii (list_ascii_of_string s).

Definition null {A} (l : list A) : bool :=
  match l with [] => true | _ :: _ => false end.

Fixpoint eqb (a b : list N) : bool :=
  match a, b with
  | [], [] => true
  | x :: a', y :: b' => (x =? y)%N && eqb a' b'
  | _, _ => false
  end.

(** [len(x)] *)
Definition len {A} (l : list A) : Z := Z.of_nat (length l).

(** ** Character classes *)

(** [str.isspace] on one code point: the white space of the Unicode
    database, which [str.split()] and [str.strip()] use. *)
Definition isspace (c : char) : bool :=
  ((9 <=? c) && (c <=? 13) || (28 <=? c) && (c <=? 32)
   || (c =? 133) || (c =? 160) || (c =? 5760)
   || (8192 <=? c) && (c <=? 8202)
   || (c =? 8232) || (c =? 8233) || (c =? 8239) || (c =? 8287)
   || (c =? 12288))%N.

Definition isascii (s : str) : bool := forallb (fun c => (c <? 128)%N) s.

Definition is_ascii_upper (c : char) : bool := ((65 <=? c) && (c <=? 90))%N.
Definition is_ascii_lower (c : char) : bool := ((97 <=? c) && (c <=? 122))%N.
Definition is_ascii_digit (c : char) : bool := ((48 <=? c) && (c <=? 57))%N.
Definition is_ascii_alpha (c : char) : bool :=
  is_ascii_upper c || is_ascii_lower c.

Definition ascii_lower_char (c : char) : char :=
  if is_ascii_upper c then (c + 32)%N else c.

(** ** Searching and splitting *)

(** [s.startswith(p)] *)
Fixpoint startswith (s p : list N) {struct p} : bool :=
  match p, s with
  | [], _ => true
  | a :: p', b :: s' => (a =? b)%N && startswith s' p'
  | _ :: _, [] => false
  end.

(** The first occurrence of [sep] in [s]: what is before it and what is
    after it.  It gives [s.split(sep, 1)] and [s.partition(sep)] when
    [sep in s]; [None] is [sep not in s]. *)
Fixpoint split_once (s sep : list N) : option (list N * list N) :=
  if startswith s sep then Some ([], skipn (length sep) s)
  else match s with
       | [] => None
       | c :: s' =>
         match split_once s' sep with
         | Some (a, b) => Some (c :: a, b)
         | None => None
         end
       end.

(** [sep in s] *)
Definition contains (s sep : list N) : bool :=
  match split_once s sep with Some _ => true | None => false end.

(** [s.split(sep, maxsplit)] *)
Fixpoint split_max (s sep : list N) (maxsplit : nat) : list (list N) :=
  match maxsplit with
  | O => [s]
  | S n =>
    match split_once s sep with
    | Some (a, b) => a :: split_max b sep n
    | None => [s]
    end
  end.

(** [s.split(sep)]: a non-empty separator occurs at most [len(s)] times. *)
Definition split (s sep : list N) : list (list N) :=
  split_max s sep (length s).

(** [s.partition(sep)], as (head, found, tail). *)
Definition partition (s sep : list N) : list N * bool * list N :=
  match split_once s sep with
  | Some (a, b) => (a, true, b)
  | None => (s, false, [])
  end.

(** [s.rpartition(sep)], as (head, found, tail). *)
Definition rpartition (s sep : list N) : list N * bool * list N :=
  match split_once (rev s) (rev sep) with
  | Some (a, b) => (rev b, true, rev a)
  | None => ([], false, s)
  end.

(** [s.replace(c, "")] for a one-character [c]. *)
Definition remove_char (c : char) (s : str) : str :=
  filter (fun x => negb (x =? c)%N) s.

(** [s.lstrip()], [s.rstrip()], [s.strip()] *)
Fixpoint lstrip (s : str) : str :=
  match s with
  | [] => []
  | c :: s' => if isspace c then lstrip s' else s
  end.

Definition rstrip (s : str) : str := rev (lstrip (rev s)).

Definition strip (s : str) : str := rstrip (lstrip s).

(** [s.lstrip(chars)] *)
Fixpoint lstrip_chars (p : char -> bool) (s : str) : str :=
  match s with
  | [] => []
  | c :: s' => if p c then lstrip_chars p s' else s
  end.

(** [s.split()]: the maximal runs of characters that are not white space.
    [cur] is the run being read, last character first. *)
Fixpoint split_ws_from (s : str) (cur : str) : list str :=
  match s with
  | [] => if null cur then [] else [rev cur]
  | c :: s' =>
    if isspace c
    then (if null cur then split_ws_from s' [] else rev cur :: split_ws_from s' [])
    else split_ws_from s' (c :: cur)
  end.

Definition split_ws (s : str) : list str := split_ws_from s [].

(** ** Integers and text *)

(** [str(n)] for an [int].  The client formats lengths, status values and
    port numbers, none of which comes near the limit that Python puts on
    this conversion. *)
Definition str_of_int (n : Z) : str :=
  lit (NilZero.string_of_int (Z.to_int n)).

Definition digit_value (c : char) : option Z :=
  if is_ascii_digit c then Some (Z.of_N (c - 48)) else None.

(** The digits of a decimal literal, where one underscore may stand
    between two digits. *)
Fixpoint int_digits (s : str) (acc : Z) (after_digit : bool) : option Z :=
  match s with
  | [] => if after_digit then Some acc else None
  | c :: s' =>
    if (c =? 95)%N then (if after_digit then int_digits s' acc false else None)
    else match digit_value c with
         | Some d => int_digits s' (10 * acc + d) true
         | None => None
         end
  end.

Definition is_c_space (c : char) : bool :=
  ((9 <=? c) && (c <=? 13) || (c =? 32))%N.

(** The most digits [int] converts: [sys.get_int_max_str_digits()], which
    the repository leaves at the interpreter's default. *)
Definition MAX_STR_DIGITS : Z := 4300.

(** The digits of a literal: what [int] counts against the limit, the
    leading zeros among them and the underscores not. *)
Definition count_digits (s : str) : Z := len (filter is_ascii_digit s).

(** The text of the [ValueError] of [int] on a literal of too many
    digits. *)
Definition int_limit_error (digits : Z) : str :=
  lit "Exceeds the limit (4300 digits) for integer string conversion: value has "
  ++ str_of_int digits
  ++ lit " digits; use sys.set_int_max_str_digits() to increase the limit".

(** [int(s)] on ASCII text; [None] is [ValueError], which a literal of
    more than [MAX_STR_DIGITS] digits raises as a malformed one does. *)
Definition int_ascii (s : str) : option Z :=
  let literal := rev (lstrip_chars is_c_space (rev (lstrip_chars is_c_space s))) in
  if (MAX_STR_DIGITS <? count_digits literal)%Z then None
  else
    match literal with
    | 43%N :: t => int_digits t 0 false
    | 45%N :: t => option_map Z.opp (int_digits t 0 false)
    | t => int_digits t 0 false
    end.

(** ** UTF-8 *)

Definition is_surrogate (c : char) : bool := ((55296 <=? c) && (c <=? 57343))%N.

(** A code point that [str.encode('utf-8')] accepts. *)
Definition is_scalar (c : char) : bool :=
  negb (is_surrogate c) && (c <? 1114112)%N.

Definition utf8_char (c : char) : bytes :=
  (if c <? 128 then [c]
   else if c <? 2048 then [192 + c / 64; 128 + c mod 64]
   else if c <? 65536 then [224 + c / 4096; 128 + (c / 64) mod 64; 128 + c mod 64]
   else [240 + c / 262144; 128 + (c / 4096) mod 64; 128 + (c / 64) mod 64;
         128 + c mod 64])%N.

Definition utf8 (s : str) : bytes := flat_map utf8_char s.

(** [s.encode('utf-8')]; [None] is [UnicodeEncodeError]. *)
Definition encode (s : str) : option bytes :=
  if forallb is_scalar s then Some (utf8 s) else None.

Definition is_cont (b : N) : bool := ((128 <=? b) && (b <=? 191))%N.

(** [data.decode('utf-8')]; [None] is [UnicodeDecodeError]. *)
Fixpoint decode (data : bytes) : option str :=
  match data with
  | [] => Some []
  | b0 :: t0 =>
    if (b0 <? 128)%N then option_map (cons b0) (decode t0)
    else if ((194 <=? b0) && (b0 <=? 223))%N then
      match t0 with
      | b1 :: t1 =>
        if is_cont b1
        then option_map (cons ((b0 - 192) * 64 + (b1 - 128))%N) (decode t1)
        else None
      | _ => None
      end
    else if ((224 <=? b0) && (b0 <=? 239))%N then
      match t0 with
      | b1 :: b2 :: t2 =>
        let c := ((b0 - 224) * 4096 + (b1 - 128) * 64 + (b2 - 128))%N in
        if is_cont b1 && is_cont b2 && (2048 <=? c)%N && negb (is_surrogate c)
        then option_map (cons c) (decode t2)
        else None
      | _ => None
      end
    else if ((240 <=? b0) && (b0 <=? 244))%N then
      match t0 with
      | b1 :: b2 :: b3 :: t3 =>
        let c := ((b0 - 240) * 262144 + (b1 - 128) * 4096 + (b2 - 128) * 64
                  + (b3 - 128))%N in
        if is_cont b1 && is_cont b2 && is_cont b3
           && (65536 <=? c)%N && (c <? 1114112)%N
        then option_map (cons c) (decode t3)
        else None
      | _ => None
      end
    else None
  end.

(** ** Dictionaries

    A [dict] of text keeps its keys in insertion order, which is the order
    [items()] yields them in. *)

Definition dict := list (str * str).

Fixpoint get (d : dict) (k : str) : option str :=
  match d with
  | [] => None
  | (k', v) :: d' => if eqb k' k then Some v else get d' k
  end.

(** [k in d] *)
Definition has (d : dict) (k : str) : bool :=
  match get d k with Some _ => true | None => false end.

(** [d[k] = v]: a key already there keeps its place. *)
Fixpoint set (d : dict) (k v : str) : dict :=
  match d with
  | [] => [(k, v)]
  | (k', v') :: d' => if eqb k' k then (k, v) :: d' else (k', v') :: set d' k v
  end.

Definition keys (d : dict) : list str := map fst d.

(** ** The parts of the interpreter the repository does not contain

    Case mapping, decimal digits and printable characters outside ASCII
    and the normalisation used by [urllib.parse] come from the
    interpreter's Unicode database; the check of a bracketed host, with the
    text of its [ValueError], comes from [ipaddress]; the wording of a codec
    error comes from the codec.  On ASCII text the built-ins below are
    fixed by the definitions above, whatever these components are. *)
Class Runtime := {
  unicode_lower : str -> str;
  unicode_int : str -> option Z;
  unicode_isprintable : char -> bool;
  nfkc_rejects : str -> bool;
  bracketed_host_error : str -> option str;
  codec_error_text : list N -> str
}.

Section Builtins.
Context {rt : Runtime}.

(** [s.lower()] *)
Definition lower (s : str) : str :=
  if isascii s then map ascii_lower_char s else unicode_lower s.

(** [int(s)]; [None] is [ValueError]. *)
Definition int (s : str) : option Z :=
  if isascii s then int_ascii s else unicode_int s.

(** One hexadecimal digit, in lower case, and the [width] last ones of a
    number. *)
Definition hex_digit (n : N) : char :=
  (if n <? 10 then 48 + n else 87 + n)%N.

Fixpoint hex_fixed (width : nat) (n : N) : str :=
  match width with
  | O => []
  | S width' => hex_fixed width' (n / 16)%N ++ [hex_digit (n mod 16)%N]
  end.

(** What [repr] writes for one character between the quotes [quote]. *)
Definition repr_char (quote : char) (c : char) : str :=
  if ((c =? quote) || (c =? 92))%N then [92%N; c]
  else if (c =? 9)%N then lit "\t"
  else if (c =? 10)%N then lit "\n"
  else if (c =? 13)%N then lit "\r"
  else if ((c <? 32) || (c =? 127))%N then lit "\x" ++ hex_fixed 2 c
  else if (c <? 127)%N then [c]
  else if unicode_isprintable c then [c]
  else if (c <? 256)%N then lit "\x" ++ hex_fixed 2 c
  else if (c <? 65536)%N then lit "\u" ++ hex_fixed 4 c
  else lit "\U" ++ hex_fixed 8 c.

(** [repr(s)] for a [str]: between apostrophes, or between double quotes
    when the text holds an apostrophe and no double quote. *)
Definition repr (s : str) : str :=
  let quote :=
    if existsb (N.eqb 39) s && negb (existsb (N.eqb 34) s) then 34%N else 39%N in
  [quote] ++ flat_map (repr_char quote) s ++ [quote].

End Builtins.

End Py.

Import Py.

(* ================================================================== *)
(** * gurt/errors.py *)
(* ================================================================== *)

(** The six exception classes of the package, and the classes of the
    interpreter and of its socket and TLS libraries that reach the
    handlers of the client. *)
Inductive exn_class : Set :=
| GurtError
| GurtProtocolError
| GurtConnectionError
| GurtTimeoutError
| GurtTLSError
| GurtHandshakeError
| socket_timeout
| ssl_SSLError
| OSError
| ValueError
| UnicodeEncodeError
| UnicodeDecodeError
| IndexError.

(** The base class, [None] when it is [Exception] itself. *)
Definition base_class (c : exn_class) : option exn_class :=
  match c with
  | GurtError => None
  | GurtProtocolError | GurtConnectionError | GurtTimeoutError
  | GurtTLSError | GurtHandshakeError => Some GurtError
  | socket_timeout | ssl_SSLError => Some OSError
  | OSError => None
  | ValueError => None
  | UnicodeEncodeError | UnicodeDecodeError => Some ValueError
  | IndexError => None
  end.

Definition exn_class_eqb (c d : exn_class) : bool :=
  match c, d with
  | GurtError, GurtError | GurtProtocolError, GurtProtocolError
  | GurtConnectionError, GurtConnectionError
  | GurtTimeoutError, GurtTimeoutError | GurtTLSError, GurtTLSError
  | GurtHandshakeError, GurtHandshakeError
  | socket_timeout, socket_timeout | ssl_SSLError, ssl_SSLError
  | OSError, OSError | ValueError, ValueError
  | UnicodeEncodeError, UnicodeEncodeError
  | UnicodeDecodeError, UnicodeDecodeError
  | IndexError, IndexError => true
  | _, _ => false
  end.

(** An exception: its class and the text [str(e)] gives. *)
Record exn : Set := Exn { exn_type : exn_class; exn_str : str }.

(** [isinstance(e, c)] *)
Definition isinstance (e : exn) (c : exn_class) : bool :=
  exn_class_eqb (exn_type e) c
  || match base_class (exn_type e) with
     | Some b => exn_class_eqb b c
     | None => false
     end.

(** A computation that returns a value or raises. *)
Definition result (A : Type) : Type := exn + A.

Definition ret {A} (a : A) : result A := inr a.
Definition raise {A} (c : exn_class) (msg : str) : result A := inl (Exn c msg).

Definition bind {A B} (m : result A) (k : A -> result B) : result B :=
  match m with
  | inl e => inl e
  | inr a => k a
  end.

Notation "x <- m ;; k" := (bind m (fun x => k))
  (at level 61, m at next level, right associativity).

Section Codec.
Context {rt : Runtime}.

(** [s.encode('utf-8')] and [data.decode('utf-8')] as calls that raise. *)
Definition encode_utf8 (s : str) : result bytes :=
  match encode s with
  | Some b => ret b
  | None => raise UnicodeEncodeError (codec_error_text s)
  end.

Definition decode_utf8 (data : bytes) : result str :=
  match decode data with
  | Some s => ret s
  | None => raise UnicodeDecodeError (codec_error_text data)
  end.

End Codec.

(** An argument typed [Union[str, bytes]]. *)
Inductive str_or_bytes : Set :=
| Str (s : str)
| Bytes (b : bytes).

(* ================================================================== *)
(** * gurt/protocol.py *)
(* ================================================================== *)

Definition GURT_VERSION : str := lit "1.0.0".
Definition DEFAULT_PORT : Z := 4878.
Definition PROTOCOL_PREFIX : str := lit "GURT/".

Definition HEADER_SEPARATOR : str := [13; 10]%N.
Definition BODY_SEPARATOR : str := [13; 10; 13; 10]%N.

Definition DEFAULT_HANDSHAKE_TIMEOUT : Z := 5.
Definition DEFAULT_REQUEST_TIMEOUT : Z := 30.
Definition DEFAULT_CONNECTION_TIMEOUT : Z := 10.

Definition MAX_MESSAGE_SIZE : Z := 10 * 1024 * 1024.

Definition GURT_ALPN : bytes := lit "GURT/1.0".
Definition TLS_VERSION : str := lit "TLS/1.3".

Module GurtStatusCode.

Inductive t : Set :=
| OK | CREATED | ACCEPTED | NO_CONTENT
| SWITCHING_PROTOCOLS
| BAD_REQUEST | UNAUTHORIZED | FORBIDDEN | NOT_FOUND | METHOD_NOT_ALLOWED
| TIMEOUT | TOO_LARGE | UNSUPPORTED_MEDIA_TYPE | TOO_MANY_REQUESTS
| INTERNAL_SERVER_ERROR | NOT_IMPLEMENTED | BAD_GATEWAY
| SERVICE_UNAVAILABLE | GATEWAY_TIMEOUT.

Definition value (c : t) : Z :=
  match c with
  | OK => 200 | CREATED => 201 | ACCEPTED => 202 | NO_CONTENT => 204
  | SWITCHING_PROTOCOLS => 101
  | BAD_REQUEST => 400 | UNAUTHORIZED => 401 | FORBIDDEN => 403
  | NOT_FOUND => 404 | METHOD_NOT_ALLOWED => 405 | TIMEOUT => 408
  | TOO_LARGE => 413 | UNSUPPORTED_MEDIA_TYPE => 415
  | TOO_MANY_REQUESTS => 429
  | INTERNAL_SERVER_ERROR => 500 | NOT_IMPLEMENTED => 501
  | BAD_GATEWAY => 502 | SERVICE_UNAVAILABLE => 503
  | GATEWAY_TIMEOUT => 504
  end.

(** The members, in the order the class body lists them. *)
Definition members : list t :=
  [OK; CREATED; ACCEPTED; NO_CONTENT; SWITCHING_PROTOCOLS;
   BAD_REQUEST; UNAUTHORIZED; FORBIDDEN; NOT_FOUND; METHOD_NOT_ALLOWED;
   TIMEOUT; TOO_LARGE; UNSUPPORTED_MEDIA_TYPE; TOO_MANY_REQUESTS;
   INTERNAL_SERVER_ERROR; NOT_IMPLEMENTED; BAD_GATEWAY;
   SERVICE_UNAVAILABLE; GATEWAY_TIMEOUT].

(** An [IntEnum] member compares as its integer. *)
Definition eqb (a b : t) : bool := (value a =? value b)%Z.

(** [GurtStatusCode(n)]; [None] is [ValueError]. *)
Definition of_value (n : Z) : option t :=
  find (fun c => (value c =? n)%Z) members.

Definition STATUS_MESSAGES : list (t * str) :=
  [(OK, lit "OK");
   (CREATED, lit "CREATED");
   (ACCEPTED, lit "ACCEPTED");
   (NO_CONTENT, lit "NO_CONTENT");
   (SWITCHING_PROTOCOLS, lit "SWITCHING_PROTOCOLS");
   (BAD_REQUEST, lit "BAD_REQUEST");
   (UNAUTHORIZED, lit "UNAUTHORIZED");
   (FORBIDDEN, lit "FORBIDDEN");
   (NOT_FOUND, lit "NOT_FOUND");
   (METHOD_NOT_ALLOWED, lit "METHOD_NOT_ALLOWED");
   (TIMEOUT, lit "TIMEOUT");
   (TOO_LARGE, lit "TOO_LARGE");
   (UNSUPPORTED_MEDIA_TYPE, lit "UNSUPPORTED_MEDIA_TYPE");
   (TOO_MANY_REQUESTS, lit "TOO_MANY_REQUESTS");
   (INTERNAL_SERVER_ERROR, lit "INTERNAL_SERVER_ERROR");
   (NOT_IMPLEMENTED, lit "NOT_IMPLEMENTED");
   (BAD_GATEWAY, lit "BAD_GATEWAY");
   (SERVICE_UNAVAILABLE, lit "SERVICE_UNAVAILABLE");
   (GATEWAY_TIMEOUT, lit "GATEWAY_TIMEOUT")].

(** [STATUS_MESSAGES.get(self, "UNKNOWN")] *)
Definition message (self : t) : str :=
  match find (fun kv => eqb (fst kv) self) STATUS_MESSAGES with
  | Some kv => snd kv
  | None => lit "UNKNOWN"
  end.

Definition is_success (self : t) : bool :=
  existsb (eqb self) [OK; CREATED; ACCEPTED; NO_CONTENT].

Definition is_client_error (self : t) : bool :=
  ((400 <=? value self) && (value self <? 500))%Z.

Definition is_server_error (self : t) : bool :=
  (value self >=? 500)%Z.

End GurtStatusCode.

(* ================================================================== *)
(** * gurt/message.py *)
(* ================================================================== *)

Module GurtMethod.

Inductive t : Set :=
| GET | POST | PUT | DELETE | HEAD | OPTIONS | PATCH | HANDSHAKE.

Definition value (m : t) : str :=
  match m with
  | GET => lit "GET"
  | POST => lit "POST"
  | PUT => lit "PUT"
  | DELETE => lit "DELETE"
  | HEAD => lit "HEAD"
  | OPTIONS => lit "OPTIONS"
  | PATCH => lit "PATCH"
  | HANDSHAKE => lit "HANDSHAKE"
  end.

Definition members : list t :=
  [GET; POST; PUT; DELETE; HEAD; OPTIONS; PATCH; HANDSHAKE].

(** [GurtMethod(token)]; [None] is [ValueError]. *)
Definition of_value (token : str) : option t :=
  find (fun m => Py.eqb (value m) token) members.

End GurtMethod.

Section Message.
Context {rt : Runtime}.

(** The header loop shared by both [parse] methods:
[[
    for line in lines[1:]:
        if not line.strip():
            break
        if ':' in line:
            key, value = line.split(':', 1)
            headers[key.strip().lower()] = value.strip()
]] *)
Fixpoint parse_header_lines (lines : list str) (headers : dict) : dict :=
  match lines with
  | [] => headers
  | line :: rest =>
    if null (strip line) then headers
    else match split_once line (lit ":") with
         | Some (key, value) =>
           parse_header_lines rest
             (Py.set headers (lower (strip key)) (strip value))
         | None => parse_header_lines rest headers
         end
  end.

(** The loop of both [to_bytes] methods:
[[
    for key, value in headers.items():
        message += f"{key}: {value}{HEADER_SEPARATOR}"
]] *)
Definition emit_headers (message : str) (headers : dict) : str :=
  fold_left
    (fun message kv =>
       message ++ fst kv ++ lit ": " ++ snd kv ++ HEADER_SEPARATOR)
    headers message.

(** The first lines of both [parse] methods: the data as bytes, cut at
    the first [BODY_SEPARATOR]. *)
Definition to_data (data : str_or_bytes) : result bytes :=
  match data with
  | Str s => encode_utf8 s
  | Bytes b => ret b
  end.

Definition split_body (data : bytes) : bytes * bytes :=
  match split_once data BODY_SEPARATOR with
  | Some (headers_part, body_part) => (headers_part, body_part)
  | None => (data, [])
  end.

End Message.

Module GurtRequest.

Record t : Set := Build {
  method : GurtMethod.t;
  path : str;
  version : str;
  headers : dict;
  body : bytes
}.

Section Methods.
Context {rt : Runtime}.

(** [GurtRequest(method, path, version)] *)
Definition init (method : GurtMethod.t) (path version : str) : t :=
  Build method path version [] [].

Definition with_header (self : t) (key value : str) : t :=
  Build (method self) (path self) (version self)
        (Py.set (headers self) (lower key) value) (body self).

Definition with_body (self : t) (body : str_or_bytes) : result t :=
  b <- to_data body ;;
  ret (Build (method self) (path self) (version self) (headers self) b).

Definition get_header (self : t) (key : str) : option str :=
  Py.get (headers self) (lower key).

Definition text (self : t) : result str := decode_utf8 (body self).

(** The headers [to_bytes] emits: a copy with the defaults filled in. *)
Definition default_headers (self : t) : dict :=
  let headers := headers self in
  let headers :=
    if has headers (lit "content-length") then headers
    else Py.set headers (lit "content-length") (str_of_int (len (body self))) in
  let headers :=
    if has headers (lit "user-agent") then headers
    else Py.set headers (lit "user-agent")
                (lit "GURT-Python-Client/" ++ GURT_VERSION) in
  headers.

Definition to_bytes (self : t) : result bytes :=
  let message :=
    GurtMethod.value (method self) ++ lit " " ++ path self ++ lit " "
    ++ PROTOCOL_PREFIX ++ version self ++ HEADER_SEPARATOR in
  let headers := default_headers self in
  let message := emit_headers message headers in
  let message := message ++ HEADER_SEPARATOR in
  message_bytes <- encode_utf8 message ;;
  ret (message_bytes ++ body self).

Definition parse (data : str_or_bytes) : result t :=
  data <- to_data data ;;
  let (headers_part, body_part) := split_body data in
  headers_str <- decode_utf8 headers_part ;;
  let lines := split headers_str HEADER_SEPARATOR in
  match lines with
  | [] => raise GurtProtocolError (lit "Empty request")
  | request_line :: header_lines =>
    let parts := split_ws request_line in
    match parts with
    | [token; path; proto] =>
      match GurtMethod.of_value token with
      | None => raise GurtProtocolError (lit "Unsupported method: " ++ token)
      | Some method =>
        if negb (startswith proto PROTOCOL_PREFIX)
        then raise GurtProtocolError (lit "Invalid protocol identifier")
        else
          let version := skipn (length PROTOCOL_PREFIX) proto in
          ret (Build method path version
                     (parse_header_lines header_lines []) body_part)
      end
    | _ => raise GurtProtocolError (lit "Invalid request line format")
    end
  end.

End Methods.
End GurtRequest.

Module GurtResponse.

Record t : Set := Build {
  version : str;
  status_code : GurtStatusCode.t;
  status_message : str;
  headers : dict;
  body : bytes
}.

Section Methods.
Context {rt : Runtime}.

(** [GurtResponse(status_code, version)] *)
Definition init (status_code : GurtStatusCode.t) (version : str) : t :=
  Build version status_code (GurtStatusCode.message status_code) [] [].

Definition ok : t := init GurtStatusCode.OK GURT_VERSION.
Definition not_found : t := init GurtStatusCode.NOT_FOUND GURT_VERSION.
Definition bad_request : t := init GurtStatusCode.BAD_REQUEST GURT_VERSION.
Definition internal_server_error : t :=
  init GurtStatusCode.INTERNAL_SERVER_ERROR GURT_VERSION.

Definition with_header (self : t) (key value : str) : t :=
  Build (version self) (status_code self) (status_message self)
        (Py.set (headers self) (lower key) value) (body self).

Definition with_body (self : t) (body : str_or_bytes) : result t :=
  b <- to_data body ;;
  ret (Build (version self) (status_code self) (status_message self)
             (headers self) b).

Definition get_header (self : t) (key : str) : option str :=
  Py.get (headers self) (lower key).

Definition text (self : t) : result str := decode_utf8 (body self).

Definition is_success (self : t) : bool :=
  GurtStatusCode.is_success (status_code self).
Definition is_client_error (self : t) : bool :=
  GurtStatusCode.is_client_error (status_code self).
Definition is_server_error (self : t) : bool :=
  GurtStatusCode.is_server_error (status_code self).

(** The headers [to_bytes] emits; [now] is the text
    [datetime.now(timezone.utc).strftime('%a, %d %b %Y %H:%M:%S GMT')]
    gives when the method runs. *)
Definition default_headers (self : t) (now : str) : dict :=
  let headers := headers self in
  let headers :=
    if has headers (lit "content-length") then headers
    else Py.set headers (lit "content-length") (str_of_int (len (body self))) in
  let headers :=
    if has headers (lit "server") then headers
    else Py.set headers (lit "server") (lit "GURT/" ++ GURT_VERSION) in
  let headers :=
    if has headers (lit "date") then headers
    else Py.set headers (lit "date") now in
  headers.

Definition to_bytes (self : t) (now : str) : result bytes :=
  let message :=
    PROTOCOL_PREFIX ++ version self ++ lit " "
    ++ str_of_int (GurtStatusCode.value (status_code self)) ++ lit " "
    ++ status_message self ++ HEADER_SEPARATOR in
  let headers := default_headers self now in
  let message := emit_headers message headers in
  let message := message ++ HEADER_SEPARATOR in
  message_bytes <- encode_utf8 message ;;
  ret (message_bytes ++ body self).

(** [GurtStatusCode(int(token))] under [except (ValueError, KeyError)]. *)
Definition status_of_token (token : str) : option GurtStatusCode.t :=
  match int token with
  | Some n => GurtStatusCode.of_value n
  | None => None
  end.

Definition parse (data : str_or_bytes) : result t :=
  data <- to_data data ;;
  let (headers_part, body_part) := split_body data in
  headers_str <- decode_utf8 headers_part ;;
  let lines := split headers_str HEADER_SEPARATOR in
  match lines with
  | [] => raise GurtProtocolError (lit "Empty response")
  | status_line :: header_lines =>
    let parts := split_max status_line (lit " ") 2 in
    match parts with
    | proto :: token :: rest =>
      if negb (startswith proto PROTOCOL_PREFIX)
      then raise GurtProtocolError (lit "Invalid protocol identifier")
      else
        let version := skipn (length PROTOCOL_PREFIX) proto in
        match status_of_token token with
        | None => raise GurtProtocolError (lit "Invalid status code: " ++ token)
        | Some status_code =>
          let status_message :=
            match rest with
            | [] => GurtStatusCode.message status_code
            | m :: _ => m
            end in
          ret (Build version status_code status_message
                     (parse_header_lines header_lines []) body_part)
        end
    | _ => raise GurtProtocolError (lit "Invalid status line format")
    end
  end.

End Methods.
End GurtResponse.

(* ================================================================== *)
(** * urllib.parse, as far as the client uses it *)
(* ================================================================== *)

Module urllib.

Record ParseResult : Set := Build {
  scheme : str;
  netloc : str;
  path : str;
  params : str;
  query : str;
  fragment : str
}.

(** The characters [urlsplit] strips from the left of the URL. *)
Definition is_c0_control_or_space (c : char) : bool := (c <=? 32)%N.

Definition is_scheme_char (c : char) : bool :=
  is_ascii_alpha c || is_ascii_digit c
  || (c =? 43)%N || (c =? 45)%N || (c =? 46)%N.

Definition uses_params : list str :=
  map lit [""; "ftp"; "hdl"; "prospero"; "http"; "imap"; "https"; "shttp";
           "rtsp"; "rtspu"; "sip"; "sips"; "mms"; "sftp"; "tel"]%string.

Definition is_netloc_end (c : char) : bool :=
  ((c =? 47) || (c =? 63) || (c =? 35))%N.

(** [_splitnetloc(url, 2)] on what follows the two slashes: the text up to
    the first of '/', '?' and '#', and the text from there on. *)
Fixpoint _splitnetloc (s : str) : str * str :=
  match s with
  | [] => ([], [])
  | c :: s' =>
    if is_netloc_end c then ([], s)
    else let (domain, rest) := _splitnetloc s' in (c :: domain, rest)
  end.

(** [_hostinfo]: the host name and the port text, [None] for an empty
    port. *)
Definition _hostinfo (netloc : str) : str * option str :=
  let '(_, _, hostinfo) := rpartition netloc (lit "@") in
  let '(_, have_open_br, bracketed) := partition hostinfo (lit "[") in
  let '(hostname, port) :=
    if have_open_br then
      let '(hostname, _, port) := partition bracketed (lit "]") in
      let '(_, _, port) := partition port (lit ":") in
      (hostname, port)
    else
      let '(hostname, _, port) := partition hostinfo (lit ":") in
      (hostname, port) in
  (hostname, if null port then None else Some port).

(** [_splitparams(url)] *)
Definition _splitparams (url : str) : str * str :=
  if contains url (lit "/") then
    let '(head, _, last) := rpartition url (lit "/") in
    match split_once last (lit ";") with
    | Some (a, b) => (head ++ lit "/" ++ a, b)
    | None => (url, [])
    end
  else
    match split_once url (lit ";") with
    | Some (a, b) => (a, b)
    | None => (url, [])
    end.

Section Functions.
Context {rt : Runtime}.

Definition _check_bracketed_netloc (netloc : str) : result unit :=
  let '(_, _, hostname_and_port) := rpartition netloc (lit "@") in
  let '(before_bracket, have_open_br, bracketed) :=
    partition hostname_and_port (lit "[") in
  hostname <-
    (if have_open_br then
       if negb (null before_bracket)
       then raise ValueError (lit "Invalid IPv6 URL")
       else
         let '(hostname, _, port) := partition bracketed (lit "]") in
         if negb (null port) && negb (startswith port (lit ":"))
         then raise ValueError (lit "Invalid IPv6 URL")
         else ret hostname
     else
       let '(hostname, _, _) := partition hostname_and_port (lit ":") in
       ret hostname) ;;
  match bracketed_host_error hostname with
  | None => ret tt
  | Some msg => raise ValueError msg
  end.

Definition _checknetloc (netloc : str) : result unit :=
  if null netloc || isascii netloc then ret tt
  else if nfkc_rejects netloc
       then raise ValueError
              (lit "netloc '" ++ netloc
               ++ lit "' contains invalid characters under NFKC normalization")
       else ret tt.

(** [urlsplit(url)], with the scheme, the network location, the path, the
    query and the fragment it finds. *)
Definition urlsplit (url : str) : result (str * str * str * str * str) :=
  let url := lstrip_chars is_c0_control_or_space url in
  let url := remove_char 10%N (remove_char 13%N (remove_char 9%N url)) in
  let '(scheme, url) :=
    match split_once url (lit ":") with
    | Some (c :: before, after) =>
      if (c <? 128)%N && is_ascii_alpha c && forallb is_scheme_char (c :: before)
      then (lower (c :: before), after)
      else ([], url)
    | _ => ([], url)
    end in
  split_netloc <-
    (if startswith url (lit "//") then
       let '(netloc, url) := _splitnetloc (skipn 2 url) in
       let open_br := contains netloc (lit "[") in
       let close_br := contains netloc (lit "]") in
       if open_br && negb close_br || close_br && negb open_br
       then raise ValueError (lit "Invalid IPv6 URL")
       else
         _ <- (if open_br && close_br then _check_bracketed_netloc netloc
               else ret tt) ;;
         ret (netloc, url)
     else ret ([], url)) ;;
  let '(netloc, url) := split_netloc in
  let '(url, fragment) :=
    match split_once url (lit "#") with
    | Some (a, b) => (a, b)
    | None => (url, [])
    end in
  let '(url, query) :=
    match split_once url (lit "?") with
    | Some (a, b) => (a, b)
    | None => (url, [])
    end in
  _ <- _checknetloc netloc ;;
  ret (scheme, netloc, url, query, fragment).

Definition urlparse (url : str) : result ParseResult :=
  splitresult <- urlsplit url ;;
  let '(scheme, netloc, url, query, fragment) := splitresult in
  let '(url, params) :=
    if existsb (Py.eqb scheme) uses_params && contains url (lit ";")
    then _splitparams url
    else (url, []) in
  ret (Build scheme netloc url params query fragment).

(** The [hostname] property; [None] is Python's [None]. *)
Definition hostname (self : ParseResult) : option str :=
  let hostname := fst (_hostinfo (netloc self)) in
  if null hostname then None
  else
    let '(hostname, percent, zone) := partition hostname (lit "%") in
    Some (lower hostname ++ (if percent then lit "%" else []) ++ zone).

(** [f"Port could not be cast to integer value as {port!r}"] *)
Definition port_error (port : str) : str :=
  lit "Port could not be cast to integer value as " ++ repr port.

(** The [port] property:
[[
    port = self._hostinfo[1]
    if port is not None:
        if port.isdigit() and port.isascii():
            port = int(port)
        else:
            raise ValueError(f"Port could not be cast to integer value as {port!r}")
        if not (0 <= port <= 65535):
            raise ValueError("Port out of range 0-65535")
    return port
]]
    [int] refuses ASCII digits only when they are too many, with the
    [ValueError] of the conversion limit. *)
Definition port (self : ParseResult) : result (option Z) :=
  match snd (_hostinfo (netloc self)) with
  | None => ret None
  | Some port =>
    if forallb is_ascii_digit port then
      match int port with
      | Some n =>
        if (0 <=? n)%Z && (n <=? 65535)%Z then ret (Some n)
        else raise ValueError (lit "Port out of range 0-65535")
      | None => raise ValueError (int_limit_error (len port))
      end
    else raise ValueError (port_error port)
  end.

End Functions.
End urllib.

(* ================================================================== *)
(** * The socket and ssl libraries, as the client drives them *)
(* ================================================================== *)

Module ssl.

Inductive TLSVersion : Set :=
| MINIMUM_SUPPORTED | TLSv1_2 | TLSv1_3 | MAXIMUM_SUPPORTED.

Inductive VerifyMode : Set := CERT_NONE | CERT_OPTIONAL | CERT_REQUIRED.

Record SSLContext : Set := Build {
  minimum_version : TLSVersion;
  maximum_version : TLSVersion;
  alpn_protocols : list str;
  check_hostname : bool;
  verify_mode : VerifyMode
}.

(** [ssl.create_default_context()]: a client context that verifies the
    certificate of the server and its host name. *)
Definition create_default_context : SSLContext :=
  Build MINIMUM_SUPPORTED MAXIMUM_SUPPORTED [] true CERT_REQUIRED.

End ssl.

Module Net.

(** The plain connection and the same connection once wrapped. *)
Inductive socket : Set := Plain | Tls.

(** What one read of the connection finds. *)
Inductive arrival : Set :=
| Data (chunk : bytes)
| Fails (e : exn).

(** What the client does to the network, in the order it does it. *)
Inductive action : Set :=
| Connect (host : str) (port : Z) (timeout : Z)
| Sendall (s : socket) (data : bytes)
| Settimeout (s : socket) (timeout : Z)
| Recv (s : socket) (bufsize : Z)
| WrapSocket (context : ssl.SSLContext) (server_hostname : str)
| Close (s : socket).

(** The network around one call: how the peer and the libraries will
    answer, and what the client has done so far. *)
Record world : Set := Build {
  connect_error : option exn;
  send_errors : list (option exn);
  incoming : list arrival;
  wrap_result : exn + option str;
  trace : list action
}.

(** A computation on the network. *)
Definition io (A : Type) : Type := world -> result A * world.

Definition pure {A} (a : A) : io A := fun w => (inr a, w).
Definition throw {A} (c : exn_class) (msg : str) : io A :=
  fun w => (inl (Exn c msg), w).
Definition reraise {A} (e : exn) : io A := fun w => (inl e, w).
Definition lift {A} (r : result A) : io A := fun w => (r, w).

Definition and_then {A B} (m : io A) (k : A -> io B) : io B :=
  fun w =>
    match m w with
    | (inl e, w') => (inl e, w')
    | (inr a, w') => k a w'
    end.

(** [try: body except Exception as e: handler(e)] *)
Definition try_except {A} (body : io A) (handler : exn -> io A) : io A :=
  fun w =>
    match body w with
    | (inl e, w') => handler e w'
    | (inr a, w') => (inr a, w')
    end.

Definition log (a : action) (w : world) : world :=
  Build (connect_error w) (send_errors w) (incoming w) (wrap_result w)
        (trace w ++ [a]).

(** [socket.create_connection((host, port), timeout=timeout)] *)
Definition create_connection (host : str) (port timeout : Z) : io socket :=
  fun w =>
    let w := log (Connect host port timeout) w in
    match connect_error w with
    | Some e => (inl e, w)
    | None => (inr Plain, w)
    end.

(** [s.sendall(data)] *)
Definition sendall (s : socket) (data : bytes) : io unit :=
  fun w =>
    let w := log (Sendall s data) w in
    match send_errors w with
    | Some e :: rest =>
      (inl e, Build (connect_error w) rest (incoming w) (wrap_result w) (trace w))
    | None :: rest =>
      (inr tt, Build (connect_error w) rest (incoming w) (wrap_result w) (trace w))
    | [] => (inr tt, w)
    end.

(** [s.settimeout(t)] *)
Definition settimeout (s : socket) (timeout : Z) : io unit :=
  fun w => (inr tt, log (Settimeout s timeout) w).

(** [s.recv(bufsize)]: at most [bufsize] bytes of what has arrived; the
    empty result is the peer having closed the connection. *)
Definition recv (s : socket) (bufsize : Z) : io bytes :=
  fun w =>
    let w := log (Recv s bufsize) w in
    let rest_of r :=
      Build (connect_error w) (send_errors w) r (wrap_result w) (trace w) in
    match incoming w with
    | [] => (inr [], w)
    | Fails e :: rest => (inl e, rest_of rest)
    | Data chunk :: rest =>
      if (len chunk <=? bufsize)%Z then (inr chunk, rest_of rest)
      else (inr (firstn (Z.to_nat bufsize) chunk),
            rest_of (Data (skipn (Z.to_nat bufsize) chunk) :: rest))
    end.

(** [context.wrap_socket(sock, server_hostname=host)], giving the wrapped
    socket and what [selected_alpn_protocol()] will answer on it. *)
Definition wrap_socket (context : ssl.SSLContext) (server_hostname : str)
  : io (socket * option str) :=
  fun w =>
    let w := log (WrapSocket context server_hostname) w in
    match wrap_result w with
    | inl e => (inl e, w)
    | inr alpn => (inr (Tls, alpn), w)
    end.

(** [s.close()] *)
Definition close (s : socket) : io unit :=
  fun w => (inr tt, log (Close s) w).

(** The bytes still to arrive, counting one more for each arrival: no
    loop of reads runs longer. *)
Fixpoint pending (l : list arrival) : nat :=
  match l with
  | [] => O
  | Data chunk :: rest => S (length chunk + pending rest)
  | Fails _ :: rest => S (pending rest)
  end.

End Net.

Notation "x <<- m ;; k" := (Net.and_then m (fun x => k))
  (at level 61, m at next level, right associativity).

(* ================================================================== *)
(** * gurt/client.py *)
(* ================================================================== *)

Module GurtClientConfig.

Record t : Set := Build {
  handshake_timeout : Z;
  request_timeout : Z;
  connection_timeout : Z;
  user_agent : str;
  verify_tls : bool
}.

(** [GurtClientConfig()]: every argument left at its default. *)
Definition default : t :=
  Build DEFAULT_HANDSHAKE_TIMEOUT DEFAULT_REQUEST_TIMEOUT
        DEFAULT_CONNECTION_TIMEOUT (lit "GURT-Python-Client/1.0.0") false.

End GurtClientConfig.

Module GurtClient.

Import Net.

Record t : Set := Build {
  config : GurtClientConfig.t;
  _ssl_context : ssl.SSLContext
}.

Section Methods.
Context {rt : Runtime}.

(** The context is built by assignments to a fresh default context, none
    of which raises here; the handler of the source that turns a failure
    of the ssl library into [GurtTLSError] has nothing to catch. *)
Definition _create_ssl_context (config : GurtClientConfig.t) : ssl.SSLContext :=
  let context := ssl.create_default_context in
  let context :=
    ssl.Build ssl.TLSv1_3 (ssl.maximum_version context)
              (ssl.alpn_protocols context) (ssl.check_hostname context)
              (ssl.verify_mode context) in
  let context :=
    ssl.Build (ssl.minimum_version context) ssl.TLSv1_3
              (ssl.alpn_protocols context) (ssl.check_hostname context)
              (ssl.verify_mode context) in
  let context :=
    ssl.Build (ssl.minimum_version context) (ssl.maximum_version context)
              [GURT_ALPN] (ssl.check_hostname context)
              (ssl.verify_mode context) in
  if negb (GurtClientConfig.verify_tls config) then
    let context :=
      ssl.Build (ssl.minimum_version context) (ssl.maximum_version context)
                (ssl.alpn_protocols context) false (ssl.verify_mode context) in
    let context :=
      ssl.Build (ssl.minimum_version context) (ssl.maximum_version context)
                (ssl.alpn_protocols context) (ssl.check_hostname context)
                ssl.CERT_NONE in
    context
  else context.

(** [GurtClient(config)], with [None] for the argument left out. *)
Definition init (config : option GurtClientConfig.t) : t :=
  let config :=
    match config with
    | Some c => c
    | None => GurtClientConfig.default
    end in
  Build config (_create_ssl_context config).

Definition _parse_gurt_url (url : str) : result (str * Z * str) :=
  if negb (startswith url (lit "gurt://"))
  then raise GurtError (lit "URL must use gurt:// scheme: " ++ url)
  else
    parsed <- urllib.urlparse url ;;
    match urllib.hostname parsed with
    | None => raise GurtError (lit "URL must have a hostname: " ++ url)
    | Some host =>
      if null host
      then raise GurtError (lit "URL must have a hostname: " ++ url)
      else
        parsed_port <- urllib.port parsed ;;
        let port :=
          match parsed_port with
          | Some n => if (n =? 0)%Z then DEFAULT_PORT else n
          | None => DEFAULT_PORT
          end in
        let path :=
          if null (urllib.path parsed) then lit "/" else urllib.path parsed in
        let path :=
          if negb (null (urllib.query parsed))
          then path ++ lit "?" ++ urllib.query parsed
          else path in
        ret (host, port, path)
    end.

Definition _create_connection (self : t) (host : str) (port : Z) : io socket :=
  try_except
    (create_connection host port
       (GurtClientConfig.connection_timeout (config self)))
    (fun e =>
       if isinstance e socket_timeout
       then throw GurtTimeoutError
              (lit "Connection timeout to " ++ host ++ lit ":" ++ str_of_int port)
       else if isinstance e OSError
       then throw GurtConnectionError
              (lit "Failed to connect to " ++ host ++ lit ":" ++ str_of_int port
               ++ lit ": " ++ exn_str e)
       else reraise e).

Definition header_end : bytes := [13; 10; 13; 10]%N.

(** [data.find(sub)], with -1 for no occurrence. *)
Definition find (data sub : bytes) : Z :=
  match split_once data sub with
  | Some (before, _) => len before
  | None => -1
  end.

(** The first loop of [_read_response_data]:
[[
    while header_end not in data:
        chunk = sock.recv(4096)
        if not chunk:
            raise GurtConnectionError("Connection closed while reading headers")
        data += chunk
        if len(data) > MAX_MESSAGE_SIZE:
            raise GurtProtocolError("Response too large")
]]
    [fuel] bounds the number of turns; [None] is the bound being reached. *)
Fixpoint read_headers (fuel : nat) (sock : socket) (data : bytes) (w : world)
  : option (result bytes * world) :=
  if negb (contains data header_end) then
    match fuel with
    | O => None
    | S fuel =>
      match recv sock 4096 w with
      | (inl e, w) => Some (inl e, w)
      | (inr chunk, w) =>
        if null chunk
        then Some (raise GurtConnectionError
                     (lit "Connection closed while reading headers"), w)
        else
          let data := data ++ chunk in
          if (len data >? MAX_MESSAGE_SIZE)%Z
          then Some (raise GurtProtocolError (lit "Response too large"), w)
          else read_headers fuel sock data w
      end
    end
  else Some (inr data, w).

(** The scan for the declared length:
[[
    for line in headers_str.split('\r\n'):
        if line.lower().startswith('content-length:'):
            try:
                content_length = int(line.split(':', 1)[1].strip())
            except ValueError:
                pass
            break
]] *)
Fixpoint scan_content_length (lines : list str) (content_length : Z)
  : result Z :=
  match lines with
  | [] => ret content_length
  | line :: rest =>
    if startswith (lower line) (lit "content-length:") then
      match split_max line (lit ":") 1 with
      | [_; value] =>
        match int (strip value) with
        | Some n => ret n
        | None => ret content_length
        end
      | _ => raise IndexError (lit "list index out of range")
      end
    else scan_content_length rest content_length
  end.

(** The second loop of [_read_response_data]:
[[
    while len(body_data) < content_length:
        chunk = sock.recv(min(4096, content_length - len(body_data)))
        if not chunk:
            raise GurtConnectionError("Connection closed while reading body")
        body_data += chunk
]] *)
Fixpoint read_body (fuel : nat) (sock : socket) (body_data : bytes)
  (content_length : Z) (w : world) : option (result bytes * world) :=
  if (len body_data <? content_length)%Z then
    match fuel with
    | O => None
    | S fuel =>
      match recv sock (Z.min 4096 (content_length - len body_data)) w with
      | (inl e, w) => Some (inl e, w)
      | (inr chunk, w) =>
        if null chunk
        then Some (raise GurtConnectionError
                     (lit "Connection closed while reading body"), w)
        else read_body fuel sock (body_data ++ chunk) content_length w
      end
    end
  else Some (inr body_data, w).

(** A loop of reads run with more turns than the connection has bytes to
    give; the bound is never reached ([read_headers_total],
    [read_body_total]), so the second branch is never taken. *)
Definition run_reads {A} (loop : nat -> world -> option (result A * world))
  : io A :=
  fun w =>
    match loop (S (pending (incoming w))) w with
    | Some r => r
    | None => (inl (Exn OSError []), w)
    end.

Definition _read_response_data (sock : socket) : io bytes :=
  data <<- run_reads (fun fuel => read_headers fuel sock []) ;;
  let headers_end := (find data header_end + len header_end)%Z in
  let headers_data := firstn (Z.to_nat headers_end) data in
  let body_data := skipn (Z.to_nat headers_end) data in
  headers_str <<- lift (decode_utf8 headers_data) ;;
  content_length <<-
    lift (scan_content_length (split headers_str (lit "" ++ [13; 10]%N)) 0) ;;
  body_data <<-
    run_reads (fun fuel => read_body fuel sock body_data content_length) ;;
  pure (headers_data ++ body_data).

(** The handlers that close the [try] of [_perform_handshake]:
[[
    except socket.timeout:
        raise GurtTimeoutError("Handshake timeout")
    except ssl.SSLError as e:
        raise GurtTLSError(f"TLS handshake failed: {e}")
    except Exception as e:
        if isinstance(e, (GurtHandshakeError, GurtTLSError, GurtTimeoutError)):
            raise
        raise GurtHandshakeError(f"Handshake failed: {e}")
]] *)
Definition handshake_except (e : exn) : exn :=
  if isinstance e socket_timeout
  then Exn GurtTimeoutError (lit "Handshake timeout")
  else if isinstance e ssl_SSLError
  then Exn GurtTLSError (lit "TLS handshake failed: " ++ exn_str e)
  else if isinstance e GurtHandshakeError || isinstance e GurtTLSError
          || isinstance e GurtTimeoutError
  then e
  else Exn GurtHandshakeError (lit "Handshake failed: " ++ exn_str e).

(** The [try] of [_perform_handshake], first half: the handshake request
    is sent on the plain socket and the response is read and parsed. *)
Definition handshake_exchange (self : t) (sock : socket) (host : str)
  : io GurtResponse.t :=
  let handshake_request :=
    GurtRequest.init GurtMethod.HANDSHAKE (lit "/") GURT_VERSION in
  let handshake_request :=
    GurtRequest.with_header handshake_request (lit "Host") host in
  let handshake_request :=
    GurtRequest.with_header handshake_request (lit "User-Agent")
      (GurtClientConfig.user_agent (config self)) in
  handshake_data <<- lift (GurtRequest.to_bytes handshake_request) ;;
  _ <<- sendall sock handshake_data ;;
  _ <<- settimeout sock (GurtClientConfig.handshake_timeout (config self)) ;;
  response_data <<- _read_response_data sock ;;
  lift (GurtResponse.parse (Bytes response_data)).

(** Second half: the status is checked, the socket is wrapped and the
    protocol the peer selected is checked. *)
Definition handshake_upgrade (self : t) (host : str)
  (handshake_response : GurtResponse.t) : io socket :=
  if negb (GurtStatusCode.value (GurtResponse.status_code handshake_response)
           =? 101)%Z
  then throw GurtHandshakeError
         (lit "Handshake failed: "
          ++ str_of_int
               (GurtStatusCode.value (GurtResponse.status_code handshake_response))
          ++ lit " " ++ GurtResponse.status_message handshake_response)
  else
    wrapped <<- wrap_socket (_ssl_context self) host ;;
    let '(tls_sock, selected_alpn) := wrapped in
    let matches :=
      match selected_alpn with
      | Some p => Py.eqb p GURT_ALPN
      | None => false
      end in
    if negb matches
    then throw GurtTLSError
           (lit "ALPN negotiation failed. Expected b'" ++ GURT_ALPN
            ++ lit "', got "
            ++ match selected_alpn with Some p => p | None => lit "None" end)
    else pure tls_sock.

Definition handshake_steps (self : t) (sock : socket) (host : str)
  : io socket :=
  handshake_response <<- handshake_exchange self sock host ;;
  handshake_upgrade self host handshake_response.

Definition _perform_handshake (self : t) (sock : socket) (host : str)
  : io socket :=
  try_except (handshake_steps self sock host)
             (fun e => reraise (handshake_except e)).

(** The handlers that close the [try] of [_send_request_internal]. *)
Definition request_except (e : exn) : exn :=
  if isinstance e socket_timeout
  then Exn GurtTimeoutError (lit "Request timeout")
  else if isinstance e GurtError then e
  else Exn GurtConnectionError (lit "Request failed: " ++ exn_str e).

(** [_send_request_internal]: the [finally] clause closes the wrapped
    socket when there is one, else the plain one when there is one. *)
Definition _send_request_internal (self : t) (host : str) (port : Z)
  (request : GurtRequest.t) : io GurtResponse.t :=
  fun w =>
    match _create_connection self host port w with
    | (inl e, w) => (inl (request_except e), w)
    | (inr sock, w) =>
      match _perform_handshake self sock host w with
      | (inl e, w) => (inl (request_except e), snd (close sock w))
      | (inr tls_sock, w) =>
        let exchange :=
          request_data <<- lift (GurtRequest.to_bytes request) ;;
          _ <<- sendall tls_sock request_data ;;
          _ <<- settimeout tls_sock
                  (GurtClientConfig.request_timeout (config self)) ;;
          response_data <<- _read_response_data tls_sock ;;
          lift (GurtResponse.parse (Bytes response_data)) in
        match exchange w with
        | (inl e, w) => (inl (request_except e), snd (close tls_sock w))
        | (inr response, w) => (inr response, snd (close tls_sock w))
        end
      end
    end.

(** [get(url)] *)
Definition get (self : t) (url : str) : io GurtResponse.t :=
  target <<- lift (_parse_gurt_url url) ;;
  let '(host, port, path) := target in
  let request := GurtRequest.init GurtMethod.GET path GURT_VERSION in
  let request := GurtRequest.with_header request (lit "Host") host in
  let request :=
    GurtRequest.with_header request (lit "User-Agent")
      (GurtClientConfig.user_agent (config self)) in
  _send_request_internal self host port request.

(** [post(url, body, content_type)] *)
Definition post (self : t) (url body content_type : str) : io GurtResponse.t :=
  target <<- lift (_parse_gurt_url url) ;;
  let '(host, port, path) := target in
  let request := GurtRequest.init GurtMethod.POST path GURT_VERSION in
  let request := GurtRequest.with_header request (lit "Host") host in
  let request :=
    GurtRequest.with_header request (lit "User-Agent")
      (GurtClientConfig.user_agent (config self)) in
  let request :=
    GurtRequest.with_header request (lit "Content-Type") content_type in
  request <<- lift (GurtRequest.with_body request (Str body)) ;;
  _send_request_internal self host port request.

(** [put(url, body, content_type)] *)
Definition put (self : t) (url body content_type : str) : io GurtResponse.t :=
  target <<- lift (_parse_gurt_url url) ;;
  let '(host, port, path) := target in
  let request := GurtRequest.init GurtMethod.PUT path GURT_VERSION in
  let request := GurtRequest.with_header request (lit "Host") host in
  let request :=
    GurtRequest.with_header request (lit "User-Agent")
      (GurtClientConfig.user_agent (config self)) in
  let request :=
    GurtRequest.with_header request (lit "Content-Type") content_type in
  request <<- lift (GurtRequest.with_body request (Str body)) ;;
  _send_request_internal self host port request.

(** [delete(url)] *)
Definition delete (self : t) (url : str) : io GurtResponse.t :=
  target <<- lift (_parse_gurt_url url) ;;
  let '(host, port, path) := target in
  let request := GurtRequest.init GurtMethod.DELETE path GURT_VERSION in
  let request := GurtRequest.with_header request (lit "Host") host in
  let request :=
    GurtRequest.with_header request (lit "User-Agent")
      (GurtClientConfig.user_agent (config self)) in
  _send_request_internal self host port request.

(** [head(url)] *)
Definition head (self : t) (url : str) : io GurtResponse.t :=
  target <<- lift (_parse_gurt_url url) ;;
  let '(host, port, path) := target in
  let request := GurtRequest.init GurtMethod.HEAD path GURT_VERSION in
  let request := GurtRequest.with_header request (lit "Host") host in
  let request :=
    GurtRequest.with_header request (lit "User-Agent")
      (GurtClientConfig.user_agent (config self)) in
  _send_request_internal self host port request.

(** [options(url)] *)
Definition options (self : t) (url : str) : io GurtResponse.t :=
  target <<- lift (_parse_gurt_url url) ;;
  let '(host, port, path) := target in
  let request := GurtRequest.init GurtMethod.OPTIONS path GURT_VERSION in
  let request := GurtRequest.with_header request (lit "Host") host in
  let request :=
    GurtRequest.with_header request (lit "User-Agent")
      (GurtClientConfig.user_agent (config self)) in
  _send_request_internal self host port request.

End Methods.
End GurtClient.

(* ================================================================== *)
(** * Vocabulary of the properties *)
(* ================================================================== *)

Definition no_space (s : str) : bool := forallb (fun c => negb (isspace c)) s.

Definition CRLF : str := [13; 10]%N.

(** The header text the two [to_bytes] write, cut where [parse] cuts
    it: a first line, then each further line behind a line break. *)
Definition lines_text (l0 : str) (ls : list str) : str :=
  l0 ++ concat (map (fun l => CRLF ++ l) ls).

Definition has_char (c : char) (s : str) : bool := existsb (N.eqb c) s.

(** Text that can stand inside one line of a message: UTF-8 encodes it
    and it holds neither a carriage return nor a line feed. *)
Definition line_text (s : str) : bool :=
  forallb is_scalar s && negb (has_char 13%N s) && negb (has_char 10%N s).

(** Text with no white space at either end. *)
Definition trimmed (s : str) : bool := Py.eqb (strip s) s.

(** A header the wire format carries unchanged: name and value are line
    text with no white space at either end, and the name has no colon. *)
Definition header_ok (kv : str * str) : bool :=
  line_text (fst kv) && line_text (snd kv)
  && trimmed (fst kv) && trimmed (snd kv)
  && negb (has_char 58%N (fst kv)).

(** The line [to_bytes] writes for a header, without its line break. *)
Definition header_line (kv : str * str) : str :=
  fst kv ++ lit ": " ++ snd kv.

Fixpoint all_distinct (l : list str) : bool :=
  match l with
  | [] => true
  | x :: l' => negb (existsb (Py.eqb x) l') && all_distinct l'
  end.

Section Names.
Context {rt : Runtime}.

(** A header as [parse] stores it. *)
Definition lower_key (kv : str * str) : str * str :=
  (lower (fst kv), snd kv).

(** No two names of the dictionary agree once in lower case. *)
Definition distinct_names (d : dict) : bool :=
  all_distinct (map lower (keys d)).

End Names.

Section Store.
Context {rt : Runtime}.

(** One turn of the header loop of [parse] on a well-formed line. *)
Definition store (headers : dict) (kv : str * str) : dict :=
  Py.set headers (lower (fst kv)) (snd kv).

End Store.

(** A character of the decimal text of an integer. *)
Definition is_int_char (c : char) : bool := is_ascii_digit c || (c =? 45)%N.

(** The condition the specification puts on a header: neither name nor
    value holds a carriage return or a line feed or has white space at
    either end. *)
Definition header_clean (kv : str * str) : bool :=
  negb (has_char 13%N (fst kv)) && negb (has_char 10%N (fst kv))
  && trimmed (fst kv)
  && negb (has_char 13%N (snd kv)) && negb (has_char 10%N (snd kv))
  && trimmed (snd kv).

(** The condition the specification puts on a request: a path that is
    not empty and holds no white space, and clean headers. *)
Definition request_clean (r : GurtRequest.t) : bool :=
  negb (null (GurtRequest.path r)) && no_space (GurtRequest.path r)
  && forallb header_clean (GurtRequest.headers r).

(** The condition the specification puts on a response: a status message
    and headers that hold neither a carriage return nor a line feed. *)
Definition no_line_break (s : str) : bool :=
  negb (has_char 13%N s) && negb (has_char 10%N s).

Definition response_clean (s : GurtResponse.t) : bool :=
  no_line_break (GurtResponse.status_message s)
  && forallb (fun kv => no_line_break (fst kv) && no_line_break (snd kv))
             (GurtResponse.headers s).

(** The actions of the network by kind. *)
Definition is_wrap (a : Net.action) : bool :=
  match a with Net.WrapSocket _ _ => true | _ => false end.

Definition is_recv (a : Net.action) : bool :=
  match a with Net.Recv _ _ => true | _ => false end.

(** [w'] is [w] after more actions, all of them in [allowed]. *)
Definition continues (allowed : Net.action -> bool) (w w' : Net.world) : Prop :=
  exists actions,
    Net.trace w' = Net.trace w ++ actions /\ forallb allowed actions = true.

(** The index at which [_read_response_data] cuts the data it has read
    into [headers_data] and [body_data]. *)
Definition headers_end (data : bytes) : nat :=
  Z.to_nat (GurtClient.find data GurtClient.header_end
            + len GurtClient.header_end).

(** An address of the form gurt://host[:port][path][?query]. *)
Definition port_part (port : option str) : str :=
  match port with Some p => lit ":" ++ p | None => [] end.

Definition query_part (query : option str) : str :=
  match query with Some q => lit "?" ++ q | None => [] end.

Definition gurt_url (host : str) (port : option str) (path : str)
  (query : option str) : str :=
  lit "gurt://" ++ host ++ port_part port ++ path ++ query_part query.

Definition among (c : char) (l : list N) : bool := existsb (N.eqb c) l.

(** A character of a host name: ASCII, and none of tab, LF, CR and
    # % / : ? @ [ ] *)
Definition host_char (c : char) : bool :=
  (c <? 128)%N && negb (among c [9; 10; 13; 35; 37; 47; 58; 63; 64; 91; 93]%N).

(** A character of a path: none of tab, LF, CR, # and ? *)
Definition path_char (c : char) : bool :=
  negb (among c [9; 10; 13; 35; 63]%N).

(** A character of a query: none of tab, LF, CR and # *)
Definition query_char (c : char) : bool :=
  negb (among c [9; 10; 13; 35]%N).

(** The port text is decimal digits, at most 4300 of them, that name a
    port from 0 to 65535. *)
Definition port_ok (port : option str) : bool :=
  match port with
  | Some p =>
    negb (null p) && forallb is_ascii_digit p
    && (len p <=? MAX_STR_DIGITS)%Z
    && match int_ascii p with
       | Some n => (0 <=? n)%Z && (n <=? 65535)%Z
       | None => false
       end
  | None => true
  end.

(** The path is empty or begins with a slash. *)
Definition path_ok (path : str) : bool :=
  (null path || startswith path (lit "/")) && forallb path_char path.

(** The query, when there is one, is not empty. *)
Definition query_ok (query : option str) : bool :=
  match query with
  | Some q => negb (null q) && forallb query_char q
  | None => true
  end.

(** The port [_parse_gurt_url] answers for a port text. *)
Definition port_number (port : option str) : Z :=
  match port with
  | Some p =>
    match int_ascii p with
    | Some n => if (n =? 0)%Z then DEFAULT_PORT else n
    | None => DEFAULT_PORT
    end
  | None => DEFAULT_PORT
  end.

(** The request target [_parse_gurt_url] answers. *)
Definition request_target (path : str) (query : option str) : str :=
  (if null path then lit "/" else path) ++ query_part query.

(** A character [urlsplit] does not remove: none of tab, LF and CR. *)
Definition url_free (c : char) : bool := negb (among c [9; 10; 13]%N).

(** The network location and what follows it in [gurt_url]. *)
Definition netloc_of (host : str) (port : option str) : str :=
  host ++ port_part port.

Definition tail_of (path : str) (query : option str) : str :=
  path ++ query_part query.

Definition port_chars_ok (port : option str) : bool :=
  match port with Some p => forallb is_ascii_digit p | None => true end.

Definition socket_eqb (a b : Net.socket) : bool :=
  match a, b with
  | Net.Plain, Net.Plain | Net.Tls, Net.Tls => true
  | _, _ => false
  end.

(** A read on [sock] that asks for at least one byte and at most 4096. *)
Definition reads_on (sock : Net.socket) (a : Net.action) : bool :=
  match a with
  | Net.Recv s n => socket_eqb s sock && (1 <=? n)%Z && (n <=? 4096)%Z
  | _ => false
  end.

(** The network answers in [w'] as in [w] to a connection, to what is
    sent and to a TLS upgrade. *)
Definition same_answers (w w' : Net.world) : Prop :=
  Net.connect_error w' = Net.connect_error w /\
  Net.send_errors w' = Net.send_errors w /\
  Net.wrap_result w' = Net.wrap_result w.



Section HandshakeRequest.
Context {rt : Runtime}.

(** The request [_perform_handshake] builds for [host]. *)
Definition handshake_request (self : GurtClient.t) (host : str) : GurtRequest.t :=
  GurtRequest.with_header
    (GurtRequest.with_header
       (GurtRequest.init GurtMethod.HANDSHAKE (lit "/") GURT_VERSION)
       (lit "Host") host)
    (lit "User-Agent") (GurtClientConfig.user_agent (GurtClient.config self)).

End HandshakeRequest.

(** A runtime to run the client on given inputs.  Every input given below
    is ASCII, on which no built-in consults it. *)
Definition plain_runtime : Runtime := {|
  unicode_lower := fun s => s;
  unicode_int := fun _ => None;
  unicode_isprintable := fun _ => true;
  nfkc_rejects := fun _ => false;
  bracketed_host_error := fun _ => None;
  codec_error_text := fun _ => lit "codec error"
|}.


(** ** Sample inputs *)

Definition sample_request : GurtRequest.t :=
  GurtRequest.Build GurtMethod.POST (lit "/api/data") GURT_VERSION
    [(lit "host", lit "localhost"); (lit "content-type", lit "application/json")]
    (lit "{}").

Definition sample_date : str := lit "Thu, 01 Jan 2026 00:00:00 GMT".

Definition sample_response : GurtResponse.t :=
  GurtResponse.Build GURT_VERSION GurtStatusCode.CREATED (lit "Created here")
    [(lit "location", lit "/api/resource/123")] (lit "Resource created").

(** A network that connects, accepts what is sent, delivers [arrivals]
    and would select the protocol of the client on a TLS upgrade. *)
Definition sample_world (arrivals : list Net.arrival) : Net.world :=
  Net.Build None [] arrivals (inr (Some GURT_ALPN)) [].

Definition sample_client : GurtClient.t :=
  GurtClient.Build GurtClientConfig.default
    (GurtClient._create_ssl_context GurtClientConfig.default).

(** What a peer sends to accept the handshake, and a response with a
    body of two bytes. *)
Definition sample_handshake_reply : bytes :=
  lit "GURT/1.0.0 101 SWITCHING_PROTOCOLS" ++ CRLF ++ CRLF.

Definition sample_reply : bytes :=
  lit "GURT/1.0.0 200 OK" ++ CRLF ++ lit "content-length: 2" ++ CRLF ++ CRLF
  ++ lit "hi".
(* ================================================================== *)
(** * Properties *)
(* ================================================================== *)

(** ** Facts about the built-ins *)

Section BuiltinFacts.

Lemma eqb_refl (a : list N) : Py.eqb a a = true.
Proof.
  induction a as [|x a IH]; simpl; [reflexivity|].
  now rewrite N.eqb_refl.
Qed.

Lemma eqb_eq (a b : list N) : Py.eqb a b = true <-> a = b.
Proof.
  split.
  - revert b. induction a as [|x a IH]; intros [|y b] H; simpl in H;
      try discriminate; [reflexivity|].
    apply andb_true_iff in H. destruct H as [Hxy Hab].
    apply N.eqb_eq in Hxy. apply IH in Hab. now subst.
  - intros ->. apply eqb_refl.
Qed.

Lemma eqb_neq (a b : list N) : Py.eqb a b = false <-> a <> b.
Proof.
  split.
  - intros H ->. rewrite eqb_refl in H. discriminate.
  - intros H. destruct (Py.eqb a b) eqn:E; [|reflexivity].
    apply eqb_eq in E. contradiction.
Qed.

Lemma startswith_app (p t : list N) : startswith (p ++ t) p = true.
Proof.
  induction p as [|a p IH]; simpl; [reflexivity|].
  now rewrite N.eqb_refl.
Qed.

Lemma startswith_inv (s p : list N) :
  startswith s p = true -> s = p ++ skipn (length p) s.
Proof.
  revert s. induction p as [|a p IH]; intros s H; simpl in *; [reflexivity|].
  destruct s as [|b s]; [discriminate|].
  apply andb_true_iff in H. destruct H as [Hab Hs].
  apply N.eqb_eq in Hab. subst b. simpl. f_equal. now apply IH.
Qed.

Lemma startswith_head (c x : N) (s p : list N) :
  c <> x -> startswith (c :: s) (x :: p) = false.
Proof.
  intros H. simpl. destruct (N.eqb_spec x c); [congruence|reflexivity].
Qed.

Lemma split_once_sound (s sep a b : list N) :
  split_once s sep = Some (a, b) -> s = a ++ sep ++ b.
Proof.
  revert a b. induction s as [|c s IH]; intros a b H.
  - simpl in H. destruct (startswith [] sep) eqn:E; [|discriminate].
    inversion H; subst. apply startswith_inv in E. exact E.
  - simpl in H. destruct (startswith (c :: s) sep) eqn:E.
    + inversion H; subst. apply startswith_inv in E. exact E.
    + destruct (split_once s sep) as [[a' b']|] eqn:E'; [|discriminate].
      inversion H; subst. simpl. f_equal. now apply IH.
Qed.

Lemma split_once_unfold (s sep : list N) :
  split_once s sep =
  if startswith s sep then Some ([], skipn (length sep) s)
  else match s with
       | [] => None
       | c :: s' =>
         match split_once s' sep with
         | Some (a, b) => Some (c :: a, b)
         | None => None
         end
       end.
Proof. destruct s; reflexivity. Qed.

Lemma split_once_here (sep t : list N) :
  split_once (sep ++ t) sep = Some ([], t).
Proof.
  rewrite split_once_unfold, startswith_app.
  now rewrite skipn_app, skipn_all, Nat.sub_diag.
Qed.

(** A character that does not begin the separator is stepped over. *)
Lemma split_once_step (c x : N) (s p : list N) :
  c <> x ->
  split_once (c :: s) (x :: p) =
  match split_once s (x :: p) with
  | Some (a, b) => Some (c :: a, b)
  | None => None
  end.
Proof.
  intros H. rewrite split_once_unfold.
  now rewrite startswith_head.
Qed.

Lemma split_once_skip (l s p : list N) (x : N) :
  ~ In x l ->
  split_once (l ++ s) (x :: p) =
  match split_once s (x :: p) with
  | Some (a, b) => Some (l ++ a, b)
  | None => None
  end.
Proof.
  induction l as [|c l IH]; intros H.
  - simpl. destruct (split_once s (x :: p)) as [[a b]|]; reflexivity.
  - rewrite <- app_comm_cons, split_once_step.
    + rewrite IH by (intros Hin; apply H; now right).
      destruct (split_once s (x :: p)) as [[a b]|]; reflexivity.
    + intros ->. apply H. now left.
Qed.

(** The text before the first occurrence of a character. *)
Lemma split_once_char (l t : list N) (x : N) :
  ~ In x l -> split_once (l ++ x :: t) [x] = Some (l, t).
Proof.
  intros H. rewrite split_once_skip by exact H.
  change (x :: t) with ([x] ++ t). rewrite split_once_here.
  now rewrite app_nil_r.
Qed.

Lemma split_once_none (l p : list N) (x : N) :
  ~ In x l -> split_once l (x :: p) = None.
Proof.
  intros H. rewrite <- (app_nil_r l), split_once_skip by exact H.
  reflexivity.
Qed.

(** *** UTF-8 *)

Ltac dlia := zify; Z.to_euclidean_division_equations; lia.

Ltac istrue := symmetry; unfold is_cont, is_surrogate; 
  repeat (apply andb_true_iff; split); 
  first [ apply N.leb_le; dlia | apply N.ltb_lt; dlia | apply negb_true_iff; apply andb_false_iff; first [left; apply N.leb_gt; dlia | right; apply N.leb_gt; dlia ] ].

Lemma decode_of_utf8_char (c : char) (t : bytes) :
  is_scalar c = true ->
  decode (utf8_char c ++ t) = option_map (cons c) (decode t).
Proof.
  unfold is_scalar, is_surrogate, utf8_char. intros H.
  apply andb_true_iff in H. destruct H as [Hs Hm].
  pose proof Hs as Hs0. apply negb_true_iff in Hs. apply N.ltb_lt in Hm.
  apply andb_false_iff in Hs. rewrite !N.leb_gt in Hs.
  destruct (N.ltb_spec c 128) as [H1|H1].
  - cbn [app decode]. destruct (N.ltb_spec c 128); [reflexivity|lia].
  - destruct (N.ltb_spec c 2048) as [H2|H2]; [|destruct (N.ltb_spec c 65536) as [H3|H3]].
    + cbn [app decode].
      replace (192 + c / 64 <? 128)%N with false by (symmetry; apply N.ltb_ge; dlia).
      replace ((194 <=? 192 + c / 64) && (192 + c / 64 <=? 223))%N with true by istrue.
      replace (is_cont (128 + c mod 64)) with true by istrue.
      replace ((192 + c / 64 - 192) * 64 + (128 + c mod 64 - 128))%N with c by dlia.
      reflexivity.
    + cbn [app decode].
      replace (224 + c / 4096 <? 128)%N with false by (symmetry; apply N.ltb_ge; dlia).
      replace ((194 <=? 224 + c / 4096) && (224 + c / 4096 <=? 223))%N with false
        by (symmetry; apply andb_false_iff; right; apply N.leb_gt; dlia).
      replace ((224 <=? 224 + c / 4096) && (224 + c / 4096 <=? 239))%N with true by istrue.
      replace ((224 + c / 4096 - 224) * 4096 + (128 + (c / 64) mod 64 - 128) * 64
               + (128 + c mod 64 - 128))%N with c by dlia.
      replace (is_cont (128 + (c / 64) mod 64)) with true by istrue.
      replace (is_cont (128 + c mod 64)) with true by istrue.
      replace (2048 <=? c)%N with true by istrue.
      replace (negb (is_surrogate c)) with true by (symmetry; exact Hs0).
      reflexivity.
    + cbn [app decode].
      replace (240 + c / 262144 <? 128)%N with false by (symmetry; apply N.ltb_ge; dlia).
      replace ((194 <=? 240 + c / 262144) && (240 + c / 262144 <=? 223))%N with false
        by (symmetry; apply andb_false_iff; right; apply N.leb_gt; dlia).
      replace ((224 <=? 240 + c / 262144) && (240 + c / 262144 <=? 239))%N with false
        by (symmetry; apply andb_false_iff; right; apply N.leb_gt; dlia).
      replace ((240 <=? 240 + c / 262144) && (240 + c / 262144 <=? 244))%N with true by istrue.
      replace ((240 + c / 262144 - 240) * 262144 + (128 + (c / 4096) mod 64 - 128) * 4096
               + (128 + (c / 64) mod 64 - 128) * 64 + (128 + c mod 64 - 128))%N with c by dlia.
      replace (is_cont (128 + (c / 4096) mod 64)) with true by istrue.
      replace (is_cont (128 + (c / 64) mod 64)) with true by istrue.
      replace (is_cont (128 + c mod 64)) with true by istrue.
      replace (65536 <=? c)%N with true by istrue.
      replace (c <? 1114112)%N with true by istrue.
      reflexivity.
Qed.

Lemma decode_of_utf8 (s : str) :
  forallb is_scalar s = true -> decode (utf8 s) = Some s.
Proof.
  induction s as [|c s IH]; intros H; [reflexivity|].
  simpl in H. apply andb_true_iff in H. destruct H as [Hc Hs].
  change (utf8 (c :: s)) with (utf8_char c ++ utf8 s).
  rewrite decode_of_utf8_char by exact Hc. now rewrite IH.
Qed.

Lemma utf8_app (a b : str) : utf8 (a ++ b) = utf8 a ++ utf8 b.
Proof. apply flat_map_app. Qed.

Lemma utf8_ascii (s : str) : isascii s = true -> utf8 s = s.
Proof.
  induction s as [|c s IH]; intros H; [reflexivity|].
  simpl in H. apply andb_true_iff in H. destruct H as [Hc Hs].
  change (utf8 (c :: s)) with (utf8_char c ++ utf8 s).
  unfold utf8_char. rewrite Hc. simpl. now rewrite IH.
Qed.

(** A byte below 128 occurs in the encoding only as the character it
    is. *)
Lemma utf8_char_low (c : char) (b : N) :
  In b (utf8_char c) -> (b < 128)%N -> b = c.
Proof.
  unfold utf8_char. intros Hin Hb.
  destruct (c <? 128)%N; [|destruct (c <? 2048)%N; [|destruct (c <? 65536)%N]];
    cbn [In] in Hin; intuition (subst; try reflexivity; try dlia).
Qed.

Lemma utf8_low_in (s : str) (b : N) :
  (b < 128)%N -> In b (utf8 s) -> In b s.
Proof.
  intros Hb. induction s as [|c s IH]; intros Hin; [exact Hin|].
  change (utf8 (c :: s)) with (utf8_char c ++ utf8 s) in Hin.
  apply in_app_or in Hin. destruct Hin as [Hin|Hin].
  - left. symmetry. now apply utf8_char_low.
  - right. now apply IH.
Qed.

Lemma encode_utf8_ok `{Runtime} (s : str) :
  forallb is_scalar s = true -> encode_utf8 s = inr (utf8 s).
Proof. intros Hs. unfold encode_utf8, encode. now rewrite Hs. Qed.

Lemma decode_utf8_ok `{Runtime} (s : str) :
  forallb is_scalar s = true -> decode_utf8 (utf8 s) = inr s.
Proof. intros Hs. unfold decode_utf8. now rewrite decode_of_utf8. Qed.

(** *** White space *)

Lemma lstrip_keeps (s : str) (c : char) :
  In c s -> isspace c = false -> In c (lstrip s).
Proof.
  induction s as [|x s IH]; intros Hin Hc; [contradiction|].
  simpl. destruct (isspace x) eqn:Hx.
  - destruct Hin as [->|Hin]; [congruence|]. now apply IH.
  - exact Hin.
Qed.

Lemma strip_keeps (s : str) (c : char) :
  In c s -> isspace c = false -> In c (strip s).
Proof.
  intros Hin Hc. unfold strip, rstrip.
  apply (proj1 (in_rev _ _)). apply lstrip_keeps; [|exact Hc].
  apply (proj1 (in_rev _ _)). now apply lstrip_keeps.
Qed.

Lemma strip_not_null (s : str) (c : char) :
  In c s -> isspace c = false -> null (strip s) = false.
Proof.
  intros Hin Hc. pose proof (strip_keeps s c Hin Hc) as H.
  destruct (strip s); [contradiction|reflexivity].
Qed.

Lemma strip_space_cons (c : char) (s : str) :
  isspace c = true -> strip (c :: s) = strip s.
Proof. intros H. unfold strip. simpl. now rewrite H. Qed.

Lemma lstrip_no_space (s : str) : no_space s = true -> lstrip s = s.
Proof.
  destruct s as [|c s]; [reflexivity|]. simpl. intros H.
  apply andb_true_iff in H. destruct H as [Hc _].
  apply negb_true_iff in Hc. now rewrite Hc.
Qed.

Lemma no_space_rev (s : str) : no_space s = true -> no_space (rev s) = true.
Proof.
  unfold no_space. rewrite !forallb_forall. intros H c Hc.
  apply H. now apply in_rev.
Qed.

Lemma strip_no_space (s : str) : no_space s = true -> strip s = s.
Proof.
  intros H. unfold strip, rstrip. rewrite (lstrip_no_space s H).
  rewrite lstrip_no_space by now apply no_space_rev.
  apply rev_involutive.
Qed.

Lemma no_space_not_in (s : str) (c : char) :
  no_space s = true -> isspace c = true -> ~ In c s.
Proof.
  unfold no_space. rewrite forallb_forall. intros H Hc Hin.
  apply H in Hin. rewrite Hc in Hin. discriminate.
Qed.

(** A run without white space is read into the current token. *)
Lemma split_ws_from_token (tok rest cur : str) :
  no_space tok = true ->
  split_ws_from (tok ++ rest) cur = split_ws_from rest (rev tok ++ cur).
Proof.
  revert cur. induction tok as [|c tok IH]; intros cur H; [reflexivity|].
  simpl in H. apply andb_true_iff in H. destruct H as [Hc Htok].
  apply negb_true_iff in Hc. simpl. rewrite Hc, IH by exact Htok.
  now rewrite <- app_assoc.
Qed.

Lemma null_rev (tok : str) : tok <> [] -> null (rev tok) = false.
Proof.
  intros H. destruct (rev tok) eqn:E; [|reflexivity].
  apply (f_equal (@rev N)) in E. rewrite rev_involutive in E. contradiction.
Qed.

Lemma split_ws_from_space (tok rest : str) :
  tok <> [] ->
  split_ws_from (32%N :: rest) (rev tok) = tok :: split_ws_from rest [].
Proof.
  intros H. cbn [split_ws_from]. change (isspace 32%N) with true. cbv iota.
  now rewrite null_rev, rev_involutive.
Qed.

(** Three tokens with one space between them split into themselves. *)
Lemma split_ws_three (a b c : str) :
  a <> [] -> b <> [] -> c <> [] ->
  no_space a = true -> no_space b = true -> no_space c = true ->
  split_ws (a ++ lit " " ++ b ++ lit " " ++ c) = [a; b; c].
Proof.
  intros Ha Hb Hc Sa Sb Sc. unfold split_ws. change (lit " ") with [32%N].
  rewrite split_ws_from_token by exact Sa. rewrite app_nil_r.
  simpl app. rewrite split_ws_from_space by exact Ha.
  rewrite split_ws_from_token by exact Sb. rewrite app_nil_r.
  simpl app. rewrite split_ws_from_space by exact Hb.
  rewrite <- (app_nil_r c), split_ws_from_token by exact Sc.
  rewrite app_nil_r. cbn [split_ws_from].
  rewrite null_rev by exact Hc. now rewrite rev_involutive, app_nil_r.
Qed.

(** *** Lines *)

Lemma split_max_line (l rest : str) (n : nat) :
  ~ In 13%N l ->
  split_max (l ++ CRLF ++ rest) CRLF (S n) = l :: split_max rest CRLF n.
Proof.
  intros H. cbn [split_max]. unfold CRLF.
  rewrite split_once_skip by exact H.
  rewrite split_once_here. now rewrite app_nil_r.
Qed.

Lemma split_max_last (l : str) (n : nat) :
  ~ In 13%N l -> split_max l CRLF n = [l].
Proof.
  intros H. destruct n; [reflexivity|]. cbn [split_max]. unfold CRLF.
  now rewrite split_once_none.
Qed.

Lemma split_max_lines (l0 : str) (ls : list str) (n : nat) :
  ~ In 13%N l0 -> Forall (fun l => ~ In 13%N l) ls -> (length ls <= n)%nat ->
  split_max (lines_text l0 ls) CRLF n = l0 :: ls.
Proof.
  revert l0 n. induction ls as [|l ls IH]; intros l0 n H0 Hls Hn.
  - unfold lines_text. simpl. rewrite app_nil_r. now apply split_max_last.
  - destruct n as [|n]; [simpl in Hn; lia|].
    inversion Hls as [|? ? Hl Hls']; subst.
    unfold lines_text. cbn [concat map]. rewrite <- app_assoc.
    rewrite split_max_line by exact H0. f_equal.
    apply (IH l n); [exact Hl|exact Hls'|simpl in Hn; lia].
Qed.

Lemma lines_text_length (l0 : str) (ls : list str) :
  (length ls <= length (lines_text l0 ls))%nat.
Proof.
  unfold lines_text. rewrite length_app.
  induction ls as [|l ls IH]; cbn [concat map length]; [lia|].
  rewrite !length_app. change (length CRLF) with 2%nat. lia.
Qed.

Lemma split_lines (l0 : str) (ls : list str) :
  ~ In 13%N l0 -> Forall (fun l => ~ In 13%N l) ls ->
  split (lines_text l0 ls) HEADER_SEPARATOR = l0 :: ls.
Proof.
  intros H0 Hls. unfold split. change HEADER_SEPARATOR with CRLF.
  apply split_max_lines; [exact H0|exact Hls|apply lines_text_length].
Qed.

(** The first blank line of a message is the one behind its last header
    line, when no line holds a carriage return and no line but the first
    is empty. *)
Lemma split_once_blank_line (l0 : bytes) (ls : list bytes) (body : bytes) :
  ~ In 13%N l0 ->
  Forall (fun l => ~ In 13%N l /\ l <> []) ls ->
  split_once (lines_text l0 ls ++ BODY_SEPARATOR ++ body) BODY_SEPARATOR
  = Some (lines_text l0 ls, body).
Proof.
  revert l0. induction ls as [|l ls IH]; intros l0 H0 Hls.
  - unfold lines_text. simpl concat. rewrite app_nil_r.
    unfold BODY_SEPARATOR. rewrite split_once_skip by exact H0.
    rewrite split_once_here. now rewrite app_nil_r.
  - inversion Hls as [|? ? [Hl Hne] Hls']; subst.
    destruct l as [|c l]; [contradiction|].
    assert (Hc : c <> 13%N) by (intros ->; apply Hl; now left).
    specialize (IH (c :: l) Hl Hls').
    unfold lines_text, BODY_SEPARATOR, CRLF in *.
    cbn [concat map]. rewrite <- !app_assoc.
    rewrite split_once_skip by exact H0.
    cbn [app]. cbn [app] in IH. rewrite <- !app_assoc in IH.
    rewrite split_once_unfold.
    replace (startswith (13%N :: 10%N :: c :: _) [13; 10; 13; 10]%N) with false.
    2:{ cbn [startswith]. rewrite !N.eqb_refl.
        destruct (N.eqb_spec 13 c); [congruence|reflexivity]. }
    rewrite split_once_step by discriminate.
    cbn [app] in IH. rewrite IH. reflexivity.
Qed.

(** *** Dictionaries *)

Lemma has_char_false (c : char) (s : str) :
  has_char c s = false -> ~ In c s.
Proof.
  unfold has_char. intros H Hin.
  assert (E : existsb (N.eqb c) s = true).
  { apply existsb_exists. exists c. split; [exact Hin|apply N.eqb_refl]. }
  congruence.
Qed.

Lemma all_distinct_NoDup (l : list str) : all_distinct l = true -> NoDup l.
Proof.
  induction l as [|x l IH]; intros H; [constructor|].
  simpl in H. apply andb_true_iff in H. destruct H as [Hx Hl].
  constructor; [|now apply IH].
  intros Hin. apply negb_true_iff in Hx.
  assert (E : existsb (Py.eqb x) l = true).
  { apply existsb_exists. exists x. split; [exact Hin|apply eqb_refl]. }
  congruence.
Qed.

Lemma get_none (d : dict) (k : str) : ~ In k (keys d) -> Py.get d k = None.
Proof.
  induction d as [|[k' v'] d IH]; intros H; [reflexivity|].
  simpl. destruct (Py.eqb k' k) eqn:E.
  - apply eqb_eq in E. subst. exfalso. apply H. now left.
  - apply IH. intros Hin. apply H. now right.
Qed.

Lemma get_some_in (d : dict) (k v : str) :
  Py.get d k = Some v -> In (k, v) d.
Proof.
  induction d as [|[k' v'] d IH]; intros H; [discriminate|].
  simpl in H. destruct (Py.eqb k' k) eqn:E.
  - apply eqb_eq in E. inversion H; subst. now left.
  - right. now apply IH.
Qed.

Lemma set_fresh (d : dict) (k v : str) :
  ~ In k (keys d) -> Py.set d k v = d ++ [(k, v)].
Proof.
  induction d as [|[k' v'] d IH]; intros H; [reflexivity|].
  simpl. destruct (Py.eqb k' k) eqn:E.
  - apply eqb_eq in E. subst. exfalso. apply H. now left.
  - f_equal. apply IH. intros Hin. apply H. now right.
Qed.

Lemma has_false_fresh (d : dict) (k : str) :
  has d k = false -> ~ In k (keys d).
Proof.
  unfold has. induction d as [|[k' v'] d IH]; intros H Hin; [contradiction|].
  simpl in H. destruct (Py.eqb k' k) eqn:E; [discriminate|].
  destruct Hin as [Hk|Hin].
  - simpl in Hk. subst. rewrite eqb_refl in E. discriminate.
  - now apply IH.
Qed.

Lemma get_in_nodup (d : dict) (k v : str) :
  NoDup (keys d) -> In (k, v) d -> Py.get d k = Some v.
Proof.
  induction d as [|[k' v'] d IH]; intros Hnd Hin; [contradiction|].
  inversion Hnd as [|? ? Hnotin Hnd']; subst. simpl.
  destruct Hin as [Heq|Hin].
  - inversion Heq; subst. now rewrite eqb_refl.
  - destruct (Py.eqb k' k) eqn:E.
    + apply eqb_eq in E. subst. exfalso. apply Hnotin.
      change k with (fst (k, v)). now apply in_map.
    + now apply IH.
Qed.

End BuiltinFacts.

(** ** Facts about the wire format *)

Section WireFacts.
Context {rt : Runtime}.

Lemma line_text_spec (s : str) :
  line_text s = true ->
  forallb is_scalar s = true /\ ~ In 13%N s /\ ~ In 10%N s.
Proof.
  unfold line_text. intros H.
  apply andb_true_iff in H. destruct H as [H H10].
  apply andb_true_iff in H. destruct H as [Hs H13].
  apply negb_true_iff in H10, H13.
  repeat split; [exact Hs|now apply has_char_false|now apply has_char_false].
Qed.

Lemma header_ok_spec (kv : str * str) :
  header_ok kv = true ->
  line_text (fst kv) = true /\ line_text (snd kv) = true /\
  strip (fst kv) = fst kv /\ strip (snd kv) = snd kv /\ ~ In 58%N (fst kv).
Proof.
  unfold header_ok, trimmed. intros H.
  apply andb_true_iff in H. destruct H as [H Hc].
  apply andb_true_iff in H. destruct H as [H Hv].
  apply andb_true_iff in H. destruct H as [H Hk].
  apply andb_true_iff in H. destruct H as [Hlk Hlv].
  repeat split; try assumption; try (now apply eqb_eq).
  apply has_char_false. now apply negb_true_iff.
Qed.

Lemma header_line_scalar (kv : str * str) :
  header_ok kv = true -> forallb is_scalar (header_line kv) = true.
Proof.
  intros H. apply header_ok_spec in H. destruct H as (Hk & Hv & _).
  apply line_text_spec in Hk, Hv. unfold header_line.
  destruct Hk as [Hk _], Hv as [Hv _].
  rewrite !forallb_app, Hk, Hv. reflexivity.
Qed.

Lemma header_line_no_cr (kv : str * str) :
  header_ok kv = true -> ~ In 13%N (header_line kv).
Proof.
  intros H. apply header_ok_spec in H. destruct H as (Hk & Hv & _).
  apply line_text_spec in Hk, Hv. unfold header_line. intros Hin.
  apply in_app_or in Hin. destruct Hin as [Hin|Hin]; [tauto|].
  apply in_app_or in Hin. destruct Hin as [Hin|Hin]; [|tauto].
  simpl in Hin. intuition discriminate.
Qed.

Lemma emit_headers_eq (message : str) (headers : dict) :
  emit_headers message headers
  = message ++ concat (map (fun kv => header_line kv ++ CRLF) headers).
Proof.
  unfold emit_headers. revert message.
  induction headers as [|kv headers IH]; intros message.
  - simpl. now rewrite app_nil_r.
  - cbn [fold_left map concat]. rewrite IH. unfold header_line.
    change HEADER_SEPARATOR with CRLF. now rewrite <- !app_assoc.
Qed.

(** What both [to_bytes] encode: the lines, then the blank line. *)
Lemma message_shape (l0 : str) (headers : dict) :
  emit_headers (l0 ++ HEADER_SEPARATOR) headers ++ HEADER_SEPARATOR
  = lines_text l0 (map header_line headers) ++ BODY_SEPARATOR.
Proof.
  rewrite emit_headers_eq. change HEADER_SEPARATOR with CRLF.
  change BODY_SEPARATOR with (CRLF ++ CRLF). unfold lines_text.
  revert l0. induction headers as [|kv headers IH]; intros l0.
  - simpl concat. now rewrite !app_nil_r, <- app_assoc.
  - cbn [map concat]. specialize (IH (l0 ++ CRLF ++ header_line kv)).
    rewrite <- !app_assoc in *. exact IH.
Qed.

Lemma utf8_lines_text (l0 : str) (ls : list str) :
  utf8 (lines_text l0 ls) = lines_text (utf8 l0) (map utf8 ls).
Proof.
  unfold lines_text. rewrite utf8_app. f_equal.
  induction ls as [|l ls IH]; [reflexivity|].
  cbn [map concat]. rewrite !utf8_app, IH. reflexivity.
Qed.

Lemma lines_text_scalar (l0 : str) (headers : dict) :
  forallb is_scalar l0 = true -> forallb header_ok headers = true ->
  forallb is_scalar (lines_text l0 (map header_line headers)) = true.
Proof.
  intros H0 Hh. unfold lines_text. rewrite forallb_app, H0. simpl.
  induction headers as [|kv headers IH]; [reflexivity|].
  simpl in Hh. apply andb_true_iff in Hh. destruct Hh as [Hkv Hh].
  cbn [map concat]. rewrite !forallb_app. cbn [forallb].
  rewrite (header_line_scalar kv Hkv), IH by exact Hh.
  reflexivity.
Qed.

(** [to_bytes] then the first steps of [parse]: the message comes back in
    lines. *)
Lemma wire_lines (l0 : str) (headers : dict) (body : bytes) :
  line_text l0 = true -> forallb header_ok headers = true ->
  let text := lines_text l0 (map header_line headers) in
  encode_utf8 (emit_headers (l0 ++ HEADER_SEPARATOR) headers ++ HEADER_SEPARATOR)
  = inr (utf8 text ++ BODY_SEPARATOR) /\
  split_body ((utf8 text ++ BODY_SEPARATOR) ++ body) = (utf8 text, body) /\
  decode_utf8 (utf8 text) = inr text /\
  split text HEADER_SEPARATOR = l0 :: map header_line headers.
Proof.
  intros H0 Hh text. pose proof (line_text_spec l0 H0) as (Hs0 & Hcr0 & _).
  assert (Hst : forallb is_scalar text = true) by now apply lines_text_scalar.
  assert (Hcr : Forall (fun l => ~ In 13%N l) (map header_line headers)).
  { apply Forall_forall. intros l Hl. apply in_map_iff in Hl.
    destruct Hl as (kv & <- & Hkv). apply header_line_no_cr.
    rewrite forallb_forall in Hh. now apply Hh. }
  repeat split.
  - rewrite message_shape. rewrite encode_utf8_ok.
    + now rewrite utf8_app.
    + rewrite forallb_app. fold text. now rewrite Hst.
  - unfold split_body. rewrite <- app_assoc. unfold text.
    rewrite utf8_lines_text, split_once_blank_line; [reflexivity| |].
    + intros Hin. apply Hcr0. apply utf8_low_in in Hin; [exact Hin|lia].
    + rewrite !Forall_map. rewrite Forall_map in Hcr.
      apply Forall_forall. intros kv Hkv. rewrite Forall_forall in Hcr.
      split.
      * intros Hin. apply (Hcr kv Hkv). apply utf8_low_in in Hin; [exact Hin|lia].
      * unfold header_line. rewrite !utf8_app. change (utf8 (lit ": ")) with [58; 32]%N.
        intros E. apply app_eq_nil in E. destruct E as [_ E]. discriminate.
  - now apply decode_utf8_ok.
  - now apply split_lines.
Qed.

Lemma parse_header_lines_ok (headers acc : dict) :
  forallb header_ok headers = true ->
  parse_header_lines (map header_line headers) acc = fold_left store headers acc.
Proof.
  revert acc. induction headers as [|[k v] headers IH]; intros acc H; [reflexivity|].
  simpl in H. apply andb_true_iff in H. destruct H as [Hkv Hh].
  apply header_ok_spec in Hkv. simpl fst in Hkv. simpl snd in Hkv.
  destruct Hkv as (_ & _ & Hk & Hv & Hcolon).
  cbn [map parse_header_lines fold_left]. unfold header_line at 1 2. cbn [fst snd].
  rewrite strip_not_null with (c := 58%N).
  2:{ apply in_or_app. right. now left. }
  2:{ reflexivity. }
  change (lit ": ") with [58; 32]%N. change (lit ":") with [58%N].
  cbn [app]. rewrite split_once_char by exact Hcolon.
  rewrite strip_space_cons by reflexivity. rewrite Hk, Hv.
  now rewrite IH.
Qed.

Lemma fold_store_distinct (headers acc : dict) :
  NoDup (keys acc ++ map lower (keys headers)) ->
  fold_left store headers acc = acc ++ map lower_key headers.
Proof.
  revert acc. induction headers as [|[k v] headers IH]; intros acc H.
  - simpl. now rewrite app_nil_r.
  - cbn [fold_left]. unfold store at 2. cbn [fst snd].
    cbn [keys map fst] in H. pose proof (NoDup_remove_2 _ _ _ H) as Hfresh.
    rewrite set_fresh.
    2:{ intros Hin. apply Hfresh. apply in_or_app. now left. }
    rewrite IH.
    + rewrite <- app_assoc. reflexivity.
    + unfold keys in *. rewrite map_app. cbn [map fst]. rewrite <- app_assoc. exact H.
Qed.

(** The header loop stores the headers written by [to_bytes], each under
    its name in lower case. *)
Lemma parse_header_lines_emitted (headers : dict) :
  forallb header_ok headers = true -> distinct_names headers = true ->
  parse_header_lines (map header_line headers) [] = map lower_key headers.
Proof.
  intros Hok Hd. rewrite parse_header_lines_ok by exact Hok.
  rewrite fold_store_distinct; [reflexivity|].
  simpl. now apply all_distinct_NoDup.
Qed.

Lemma get_lower_key (headers : dict) (k v : str) :
  distinct_names headers = true -> In (k, v) headers ->
  Py.get (map lower_key headers) (lower k) = Some v.
Proof.
  intros Hd Hin. apply get_in_nodup.
  - unfold keys. rewrite map_map. cbn [lower_key fst].
    apply all_distinct_NoDup in Hd. unfold keys in Hd. now rewrite map_map in Hd.
  - change (lower k, v) with (lower_key (k, v)). now apply in_map.
Qed.

End WireFacts.

(** ** Facts about the codec *)

Section CodecFacts.
Context {rt : Runtime}.

Lemma uint_text_int_chars (d : Decimal.uint) :
  forallb is_int_char (lit (NilEmpty.string_of_uint d)) = true.
Proof. induction d; simpl; try assumption; reflexivity. Qed.

Lemma str_of_int_chars (n : Z) : forallb is_int_char (str_of_int n) = true.
Proof.
  unfold str_of_int, NilZero.string_of_int.
  destruct (Z.to_int n) as [d|d]; unfold NilZero.string_of_uint.
  - destruct d; try apply uint_text_int_chars; reflexivity.
  - change (lit (String "-" ?s)) with (45%N :: lit s). cbn [forallb].
    destruct d; try (rewrite uint_text_int_chars; reflexivity); reflexivity.
Qed.

Lemma int_char_facts (c : char) :
  is_int_char c = true ->
  is_scalar c = true /\ isspace c = false /\ c <> 13%N /\ c <> 10%N /\ c <> 32%N.
Proof.
  unfold is_int_char, is_ascii_digit, is_scalar, is_surrogate, isspace.
  intros H. apply orb_true_iff in H.
  assert (Hc : (48 <= c <= 57)%N \/ c = 45%N).
  { destruct H as [H|H].
    - apply andb_true_iff in H. destruct H as [H1 H2].
      apply N.leb_le in H1, H2. left. lia.
    - apply N.eqb_eq in H. now right. }
  clear H.
  repeat split; try lia.
  - apply andb_true_iff. split.
    + apply negb_true_iff. apply andb_false_iff. left. apply N.leb_gt. lia.
    + apply N.ltb_lt. lia.
  - repeat (apply orb_false_iff; split);
      try (apply N.eqb_neq; lia);
      apply andb_false_iff;
      first [ left; apply N.leb_gt; lia | right; apply N.leb_gt; lia ].
Qed.

Lemma int_chars_scalar (s : str) :
  forallb is_int_char s = true -> forallb is_scalar s = true.
Proof.
  rewrite !forallb_forall. intros H c Hc. now apply int_char_facts, H.
Qed.

Lemma int_chars_no_space (s : str) :
  forallb is_int_char s = true -> no_space s = true.
Proof.
  unfold no_space. rewrite !forallb_forall. intros H c Hc.
  apply negb_true_iff. now apply int_char_facts, H.
Qed.

Lemma int_chars_not_in (s : str) (c : char) :
  forallb is_int_char s = true -> is_int_char c = false -> ~ In c s.
Proof.
  rewrite forallb_forall. intros H Hc Hin. apply H in Hin. congruence.
Qed.

Lemma not_in_has_char (c : char) (s : str) : ~ In c s -> has_char c s = false.
Proof.
  intros H. unfold has_char. destruct (existsb (N.eqb c) s) eqn:E; [|reflexivity].
  apply existsb_exists in E. destruct E as (x & Hx & Ex).
  apply N.eqb_eq in Ex. subst. contradiction.
Qed.

Lemma no_space_line_text (s : str) :
  no_space s = true -> forallb is_scalar s = true -> line_text s = true.
Proof.
  intros Hn Hs. unfold line_text. rewrite Hs.
  rewrite !not_in_has_char; [reflexivity| |];
    apply no_space_not_in; auto.
Qed.

Lemma no_space_trimmed (s : str) : no_space s = true -> trimmed s = true.
Proof. intros H. unfold trimmed. rewrite strip_no_space by exact H. apply eqb_refl. Qed.

Lemma line_text_app (a b : str) :
  line_text a = true -> line_text b = true -> line_text (a ++ b) = true.
Proof.
  unfold line_text, has_char. intros Ha Hb.
  rewrite forallb_app, !existsb_app.
  apply andb_true_iff in Ha. destruct Ha as [Ha Ha10].
  apply andb_true_iff in Ha. destruct Ha as [Has Ha13].
  apply andb_true_iff in Hb. destruct Hb as [Hb Hb10].
  apply andb_true_iff in Hb. destruct Hb as [Hbs Hb13].
  apply negb_true_iff in Ha10, Ha13, Hb10, Hb13.
  now rewrite Has, Hbs, Ha10, Ha13, Hb10, Hb13.
Qed.

Lemma no_space_app (a b : str) :
  no_space a = true -> no_space b = true -> no_space (a ++ b) = true.
Proof. unfold no_space. intros Ha Hb. now rewrite forallb_app, Ha, Hb. Qed.

(** The header [to_bytes] adds for the length of the body is well
    formed. *)
Lemma content_length_ok (n : Z) :
  header_ok (lit "content-length", str_of_int n) = true.
Proof.
  pose proof (str_of_int_chars n) as H.
  unfold header_ok. cbn [fst snd].
  rewrite (no_space_line_text (str_of_int n))
    by (auto using int_chars_no_space, int_chars_scalar).
  rewrite (no_space_trimmed (str_of_int n)) by now apply int_chars_no_space.
  reflexivity.
Qed.

Lemma header_ok_default (d : dict) (k v : str) :
  forallb header_ok d = true -> header_ok (k, v) = true ->
  forallb header_ok (if has d k then d else Py.set d k v) = true.
Proof.
  intros Hd Hkv. destruct (has d k) eqn:E; [exact Hd|].
  rewrite set_fresh by now apply has_false_fresh.
  rewrite forallb_app, Hd. simpl. now rewrite Hkv.
Qed.

Lemma in_default (d : dict) (k v : str) (kv : str * str) :
  In kv d -> In kv (if has d k then d else Py.set d k v).
Proof.
  intros H. destruct (has d k) eqn:E; [exact H|].
  rewrite set_fresh by now apply has_false_fresh.
  apply in_or_app. now left.
Qed.

Lemma method_token (m : GurtMethod.t) :
  GurtMethod.of_value (GurtMethod.value m) = Some m /\
  GurtMethod.value m <> [] /\
  no_space (GurtMethod.value m) = true /\
  forallb is_scalar (GurtMethod.value m) = true.
Proof. destruct m; repeat split; discriminate. Qed.

Lemma status_token (c : GurtStatusCode.t) :
  GurtResponse.status_of_token (str_of_int (GurtStatusCode.value c)) = Some c.
Proof. destruct c; reflexivity. Qed.

End CodecFacts.
(** ** Status classification *)

(** C8: for every code [n] of the closed set, [n] names a member [c] of
    [GurtStatusCode], and [is_success c] holds exactly when [n] is 200,
    201, 202 or 204, [is_client_error c] exactly when 400 <= n < 500 and
    [is_server_error c] exactly when 500 <= n < 600. *)
Theorem status_classification (n : Z) :
  In n [101; 200; 201; 202; 204; 400; 401; 403; 404; 405; 408; 413; 415;
        429; 500; 501; 502; 503; 504]%Z ->
  exists c,
    GurtStatusCode.of_value n = Some c /\
    GurtStatusCode.value c = n /\
    (GurtStatusCode.is_success c = true <-> In n [200; 201; 202; 204]%Z) /\
    (GurtStatusCode.is_client_error c = true <-> (400 <= n < 500)%Z) /\
    (GurtStatusCode.is_server_error c = true <-> (500 <= n < 600)%Z).
Proof.
  intros Hn. simpl in Hn.
  repeat (destruct Hn as [<- | Hn];
          [ eexists; split; [ reflexivity | ];
            split; [ reflexivity | ];
            cbn; repeat split; intros; try lia; try discriminate;
            intuition (try discriminate; try lia)
          | ]).
  contradiction.
Qed.

Lemma status_classification_witness :
  exists c,
    GurtStatusCode.of_value 404 = Some c /\
    GurtStatusCode.value c = 404%Z /\
    (GurtStatusCode.is_success c = true <-> In 404%Z [200; 201; 202; 204]%Z) /\
    (GurtStatusCode.is_client_error c = true <-> (400 <= 404 < 500)%Z) /\
    (GurtStatusCode.is_server_error c = true <-> (500 <= 404 < 600)%Z).
Proof.
  apply (status_classification 404). simpl. intuition.
Defined.


(** ** Round trips *)

Section RoundTrip.
Context {rt : Runtime}.

Lemma request_headers_ok (r : GurtRequest.t) :
  forallb header_ok (GurtRequest.headers r) = true ->
  forallb header_ok (GurtRequest.default_headers r) = true.
Proof.
  intros H. unfold GurtRequest.default_headers.
  apply header_ok_default; [|reflexivity].
  apply header_ok_default; [exact H|apply content_length_ok].
Qed.

(** C1, as amended: a request whose path is not empty, whose path and
    version hold no white space and are text UTF-8 encodes, whose headers
    have names and values that UTF-8 encodes, free of CR and LF and of
    white space at either end, with no colon in a name, and whose header
    names, the [content-length] and [user-agent] that [to_bytes] adds when
    they are missing included, stay distinct in lower case, is encoded by
    [to_bytes], and [parse] of the bytes gives back its method, path,
    version and body, with the headers of the request and the added ones
    under their names in lower case; [get_header] on the parsed request
    gives the value of every header of the request. *)
Theorem request_round_trip (r : GurtRequest.t) :
  GurtRequest.path r <> [] ->
  no_space (GurtRequest.path r) = true ->
  no_space (GurtRequest.version r) = true ->
  forallb is_scalar (GurtRequest.path r) = true ->
  forallb is_scalar (GurtRequest.version r) = true ->
  forallb header_ok (GurtRequest.headers r) = true ->
  distinct_names (GurtRequest.default_headers r) = true ->
  exists data r',
    GurtRequest.to_bytes r = inr data /\
    GurtRequest.parse (Bytes data) = inr r' /\
    GurtRequest.method r' = GurtRequest.method r /\
    GurtRequest.path r' = GurtRequest.path r /\
    GurtRequest.version r' = GurtRequest.version r /\
    GurtRequest.body r' = GurtRequest.body r /\
    GurtRequest.headers r' = map lower_key (GurtRequest.default_headers r) /\
    (forall k v, In (k, v) (GurtRequest.headers r) ->
                 GurtRequest.get_header r' k = Some v).
Proof.
  intros Hne Hps Hvs Hpe Hve Hh Hd.
  destruct (method_token (GurtRequest.method r)) as (Hm & Hmne & Hms & Hme).
  pose proof (request_headers_ok r Hh) as Hdh.
  set (proto := PROTOCOL_PREFIX ++ GurtRequest.version r).
  set (l0 := GurtMethod.value (GurtRequest.method r) ++ lit " "
             ++ GurtRequest.path r ++ lit " " ++ proto).
  assert (Hproto : no_space proto = true) by (apply no_space_app; auto).
  assert (Hl0 : line_text l0 = true).
  { unfold l0, proto.
    repeat apply line_text_app;
      try (apply no_space_line_text; assumption); reflexivity. }
  destruct (wire_lines l0 (GurtRequest.default_headers r) (GurtRequest.body r)
              Hl0 Hdh) as (Henc & Hsplit & Hdec & Hlines).
  set (text := lines_text l0 (map header_line (GurtRequest.default_headers r))) in *.
  exists ((utf8 text ++ BODY_SEPARATOR) ++ GurtRequest.body r).
  exists (GurtRequest.Build (GurtRequest.method r) (GurtRequest.path r)
            (GurtRequest.version r)
            (map lower_key (GurtRequest.default_headers r))
            (GurtRequest.body r)).
  split; [|split].
  - unfold GurtRequest.to_bytes.
    replace (GurtMethod.value (GurtRequest.method r) ++ lit " "
             ++ GurtRequest.path r ++ lit " " ++ PROTOCOL_PREFIX
             ++ GurtRequest.version r ++ HEADER_SEPARATOR)
      with (l0 ++ HEADER_SEPARATOR)
      by (unfold l0, proto; now rewrite <- !app_assoc).
    rewrite Henc. reflexivity.
  - unfold GurtRequest.parse. cbn [to_data ret bind].
    rewrite Hsplit, Hdec. cbn [bind]. rewrite Hlines.
    unfold l0 at 1. rewrite split_ws_three; auto.
    2:{ unfold proto. discriminate. }
    rewrite Hm. unfold proto at 1. rewrite startswith_app. cbn [negb].
    unfold proto. rewrite skipn_app, skipn_all, Nat.sub_diag. cbn [skipn app].
    rewrite parse_header_lines_emitted by assumption. reflexivity.
  - cbn [GurtRequest.method GurtRequest.path GurtRequest.version
         GurtRequest.body GurtRequest.headers].
    repeat split; try reflexivity.
    intros k v Hin. unfold GurtRequest.get_header. cbn [GurtRequest.headers].
    apply get_lower_key; [exact Hd|].
    unfold GurtRequest.default_headers. now repeat apply in_default.
Qed.

Lemma response_headers_ok (s : GurtResponse.t) (now : str) :
  forallb header_ok (GurtResponse.headers s) = true ->
  header_ok (lit "date", now) = true ->
  forallb header_ok (GurtResponse.default_headers s now) = true.
Proof.
  intros H Hnow. unfold GurtResponse.default_headers.
  apply header_ok_default; [|exact Hnow].
  apply header_ok_default; [|reflexivity].
  apply header_ok_default; [exact H|apply content_length_ok].
Qed.

Lemma split_status_line (proto code msg : str) :
  ~ In 32%N proto -> ~ In 32%N code ->
  split_max (proto ++ lit " " ++ code ++ lit " " ++ msg) (lit " ") 2
  = [proto; code; msg].
Proof.
  intros Hp Hc. change (lit " ") with [32%N]. cbn [split_max app].
  rewrite split_once_char by exact Hp.
  rewrite split_once_char by exact Hc. reflexivity.
Qed.

(** C4, as amended: a response whose version is text UTF-8 encodes, free
    of space, CR and LF, whose status message is text UTF-8 encodes, free
    of CR and LF, whose headers have names and values that UTF-8 encodes,
    free of CR and LF and of white space at either end, with no colon in a
    name, and whose header names, the [content-length], [server] and
    [date] that [to_bytes] adds when they are missing included, stay
    distinct in lower case, is encoded by [to_bytes], and [parse] of the
    bytes gives back its status code, its status message in place of the
    message of the registry, its version and its body, with the headers of
    the response and the added ones under their names in lower case.  And
    whenever [parse] accepts a message whose status line has two tokens
    only, the status message is the message of the registry for the
    code. *)
Theorem response_round_trip (s : GurtResponse.t) (now : str) :
  line_text (GurtResponse.version s) = true ->
  has_char 32%N (GurtResponse.version s) = false ->
  line_text (GurtResponse.status_message s) = true ->
  forallb header_ok (GurtResponse.headers s) = true ->
  header_ok (lit "date", now) = true ->
  distinct_names (GurtResponse.default_headers s now) = true ->
  (exists data s',
     GurtResponse.to_bytes s now = inr data /\
     GurtResponse.parse (Bytes data) = inr s' /\
     GurtResponse.status_code s' = GurtResponse.status_code s /\
     GurtResponse.status_message s' = GurtResponse.status_message s /\
     GurtResponse.version s' = GurtResponse.version s /\
     GurtResponse.body s' = GurtResponse.body s /\
     GurtResponse.headers s' = map lower_key (GurtResponse.default_headers s now) /\
     (forall k v, In (k, v) (GurtResponse.headers s) ->
                  GurtResponse.get_header s' k = Some v))
  /\
  (forall data raw text status_line rest s',
     to_data data = inr raw ->
     decode (fst (split_body raw)) = Some text ->
     split text HEADER_SEPARATOR = status_line :: rest ->
     length (split_max status_line (lit " ") 2) = 2%nat ->
     GurtResponse.parse data = inr s' ->
     GurtResponse.status_message s'
     = GurtStatusCode.message (GurtResponse.status_code s')).
Proof.
  intros Hv Hv32 Hmsg Hh Hnow Hd. split.
  - pose proof (response_headers_ok s now Hh Hnow) as Hdh.
    set (code := str_of_int (GurtStatusCode.value (GurtResponse.status_code s))).
    pose proof (str_of_int_chars (GurtStatusCode.value (GurtResponse.status_code s)))
      as Hcode. fold code in Hcode.
    set (proto := PROTOCOL_PREFIX ++ GurtResponse.version s).
    set (l0 := proto ++ lit " " ++ code ++ lit " " ++ GurtResponse.status_message s).
    assert (Hl0 : line_text l0 = true).
    { unfold l0, proto. repeat apply line_text_app; try assumption; try reflexivity.
      apply no_space_line_text;
        auto using int_chars_no_space, int_chars_scalar. }
    destruct (wire_lines l0 (GurtResponse.default_headers s now)
                (GurtResponse.body s) Hl0 Hdh) as (Henc & Hsplit & Hdec & Hlines).
    set (text := lines_text l0
                   (map header_line (GurtResponse.default_headers s now))) in *.
    exists ((utf8 text ++ BODY_SEPARATOR) ++ GurtResponse.body s).
    exists (GurtResponse.Build (GurtResponse.version s) (GurtResponse.status_code s)
              (GurtResponse.status_message s)
              (map lower_key (GurtResponse.default_headers s now))
              (GurtResponse.body s)).
    split; [|split].
    + unfold GurtResponse.to_bytes. fold code.
      replace (PROTOCOL_PREFIX ++ GurtResponse.version s ++ lit " " ++ code
               ++ lit " " ++ GurtResponse.status_message s ++ HEADER_SEPARATOR)
        with (l0 ++ HEADER_SEPARATOR)
        by (unfold l0, proto; now rewrite <- !app_assoc).
      rewrite Henc. reflexivity.
    + unfold GurtResponse.parse. cbn [to_data ret bind].
      rewrite Hsplit, Hdec. cbn [bind]. rewrite Hlines.
      unfold l0 at 1. rewrite split_status_line.
      2:{ unfold proto. intros Hin. apply in_app_or in Hin.
          destruct Hin as [Hin|Hin].
          - simpl in Hin. intuition discriminate.
          - revert Hin. now apply has_char_false. }
      2:{ now apply int_chars_not_in. }
      unfold proto at 1. rewrite startswith_app. cbn [negb].
      unfold code at 1. rewrite status_token.
      unfold proto. rewrite skipn_app, skipn_all, Nat.sub_diag. cbn [skipn app].
      rewrite parse_header_lines_emitted by assumption. reflexivity.
    + cbn [GurtResponse.version GurtResponse.status_code
           GurtResponse.status_message GurtResponse.body GurtResponse.headers].
      repeat split; try reflexivity.
      intros k v Hin. unfold GurtResponse.get_header. cbn [GurtResponse.headers].
      apply get_lower_key; [exact Hd|].
      unfold GurtResponse.default_headers. now repeat apply in_default.
  - intros data raw text status_line rest s' Hraw Hdec Hlines Hlen Hparse.
    unfold GurtResponse.parse in Hparse. rewrite Hraw in Hparse.
    cbn [bind] in Hparse. destruct (split_body raw) as [headers_part body_part].
    cbn [fst] in Hdec. unfold decode_utf8 in Hparse. rewrite Hdec in Hparse.
    cbn [ret bind] in Hparse. rewrite Hlines in Hparse.
    destruct (split_max status_line (lit " ") 2) as [|proto [|token [|m more]]];
      try discriminate.
    destruct (negb (startswith proto PROTOCOL_PREFIX)); [discriminate|].
    destruct (GurtResponse.status_of_token token); [|discriminate].
    inversion Hparse; subst. reflexivity.
Qed.

End RoundTrip.

(** ** Rejected messages *)

Section Rejection.
Context {rt : Runtime}.




End Rejection.

(** ** The network *)

Section NetworkFacts.
Context {rt : Runtime}.

Import Net.

Lemma continues_refl (p : action -> bool) (w : world) : continues p w w.
Proof. exists []. now rewrite app_nil_r. Qed.

Lemma continues_trans (p : action -> bool) (w1 w2 w3 : world) :
  continues p w1 w2 -> continues p w2 w3 -> continues p w1 w3.
Proof.
  intros (a1 & E1 & H1) (a2 & E2 & H2). exists (a1 ++ a2). split.
  - now rewrite E2, E1, app_assoc.
  - now rewrite forallb_app, H1, H2.
Qed.

Lemma continues_weaken (p q : action -> bool) (w1 w2 : world) :
  (forall a, p a = true -> q a = true) ->
  continues p w1 w2 -> continues q w1 w2.
Proof.
  intros Hpq (a & E & H). exists a. split; [exact E|].
  rewrite forallb_forall in *. auto.
Qed.

Lemma continues_log (p : action -> bool) (a : action) (w : world) :
  p a = true -> continues p w (log a w).
Proof. intros H. exists [a]. simpl. now rewrite H. Qed.

Lemma recv_continues (s : socket) (n : Z) (w w' : world) (r : result (list N)) :
  recv s n w = (r, w') -> continues is_recv w w'.
Proof.
  unfold recv. intros H.
  destruct (incoming (log (Recv s n) w)) as [|[chunk|e] rest];
    [|destruct (len chunk <=? n)%Z|]; inversion H; subst;
    exists [Recv s n]; split; reflexivity.
Qed.

(** A read that gives bytes leaves fewer of them to arrive. *)
Lemma recv_progress (s : socket) (n : Z) (w w' : world) (chunk : list N) :
  recv s n w = (inr chunk, w') -> null chunk = false ->
  (pending (incoming w') < pending (incoming w))%nat.
Proof.
  unfold recv. cbn [log incoming]. intros H Hc.
  destruct (incoming w) as [|[c|e] rest].
  - inversion H; subst. discriminate.
  - destruct (len c <=? n)%Z.
    + inversion H; subst. cbn [incoming pending]. lia.
    + inversion H; subst. cbn [incoming pending].
      rewrite length_skipn.
      destruct (Z.to_nat n) as [|k]; [discriminate|].
      destruct c as [|x c]; [discriminate|]. simpl. lia.
  - discriminate.
Qed.

Lemma read_headers_total (fuel : nat) (sock : socket) (data : list N) (w : world) :
  (pending (incoming w) < fuel)%nat ->
  GurtClient.read_headers fuel sock data w <> None.
Proof.
  revert data w. induction fuel as [|fuel IH]; intros data w Hf; [lia|].
  cbn [GurtClient.read_headers].
  destruct (negb (contains data GurtClient.header_end)); [|discriminate].
  destruct (recv sock 4096 w) as [[e|chunk] w'] eqn:E; [discriminate|].
  destruct (null chunk) eqn:Hc; [discriminate|].
  destruct (len (data ++ chunk) >? MAX_MESSAGE_SIZE)%Z; [discriminate|].
  apply IH. pose proof (recv_progress _ _ _ _ _ E Hc). lia.
Qed.

Lemma read_body_total (fuel : nat) (sock : socket) (body_data : list N)
  (content_length : Z) (w : world) :
  (pending (incoming w) < fuel)%nat ->
  GurtClient.read_body fuel sock body_data content_length w <> None.
Proof.
  revert body_data w. induction fuel as [|fuel IH]; intros body_data w Hf; [lia|].
  cbn [GurtClient.read_body].
  destruct (len body_data <? content_length)%Z; [|discriminate].
  destruct (recv sock _ w) as [[e|chunk] w'] eqn:E; [discriminate|].
  destruct (null chunk) eqn:Hc; [discriminate|].
  apply IH. pose proof (recv_progress _ _ _ _ _ E Hc). lia.
Qed.

Lemma read_headers_continues (fuel : nat) (sock : socket) (data : list N)
  (w w' : world) (r : result (list N)) :
  GurtClient.read_headers fuel sock data w = Some (r, w') ->
  continues is_recv w w'.
Proof.
  revert data w. induction fuel as [|fuel IH]; intros data w H;
    cbn [GurtClient.read_headers] in H;
    destruct (negb (contains data GurtClient.header_end));
    try discriminate;
    try (inversion H; subst; apply continues_refl).
  destruct (recv sock 4096 w) as [[e|chunk] w1] eqn:E.
  - inversion H; subst. eapply recv_continues; eauto.
  - apply recv_continues in E.
    destruct (null chunk); [inversion H; subst; exact E|].
    destruct (len (data ++ chunk) >? MAX_MESSAGE_SIZE)%Z;
      [inversion H; subst; exact E|].
    eapply continues_trans; [exact E|]. eapply IH; eauto.
Qed.

Lemma read_body_continues (fuel : nat) (sock : socket) (body_data : list N)
  (content_length : Z) (w w' : world) (r : result (list N)) :
  GurtClient.read_body fuel sock body_data content_length w = Some (r, w') ->
  continues is_recv w w'.
Proof.
  revert body_data w. induction fuel as [|fuel IH]; intros body_data w H;
    cbn [GurtClient.read_body] in H;
    destruct (len body_data <? content_length)%Z;
    try discriminate;
    try (inversion H; subst; apply continues_refl).
  destruct (recv sock _ w) as [[e|chunk] w1] eqn:E.
  - inversion H; subst. eapply recv_continues; eauto.
  - apply recv_continues in E.
    destruct (null chunk); [inversion H; subst; exact E|].
    eapply continues_trans; [exact E|]. eapply IH; eauto.
Qed.

(** The loops of reads end within the turns [run_reads] gives them. *)
Lemma run_reads_headers (sock : socket) (w : world) :
  exists r w',
    GurtClient.read_headers (S (pending (incoming w))) sock [] w = Some (r, w') /\
    GurtClient.run_reads (fun fuel => GurtClient.read_headers fuel sock []) w
    = (r, w').
Proof.
  unfold GurtClient.run_reads.
  destruct (GurtClient.read_headers (S (pending (incoming w))) sock [] w)
    as [[r w']|] eqn:E.
  - now exists r, w'.
  - exfalso. revert E. apply read_headers_total. lia.
Qed.

Lemma run_reads_body (sock : socket) (body_data : list N) (content_length : Z)
  (w : world) :
  exists r w',
    GurtClient.read_body (S (pending (incoming w))) sock body_data
      content_length w = Some (r, w') /\
    GurtClient.run_reads
      (fun fuel => GurtClient.read_body fuel sock body_data content_length) w
    = (r, w').
Proof.
  unfold GurtClient.run_reads.
  destruct (GurtClient.read_body (S (pending (incoming w))) sock body_data
              content_length w) as [[r w']|] eqn:E.
  - now exists r, w'.
  - exfalso. revert E. apply read_body_total. lia.
Qed.

Lemma read_response_data_continues (sock : socket) (w w' : world)
  (r : result (list N)) :
  GurtClient._read_response_data sock w = (r, w') -> continues is_recv w w'.
Proof.
  unfold GurtClient._read_response_data, and_then, lift, pure. intros H.
  destruct (run_reads_headers sock w) as (r1 & w1 & Hloop1 & Hrun1).
  rewrite Hrun1 in H. apply read_headers_continues in Hloop1.
  destruct r1 as [e|data]; [inversion H; subst; exact Hloop1|].
  destruct (decode_utf8 _) as [e|headers_str];
    [inversion H; subst; exact Hloop1|].
  destruct (GurtClient.scan_content_length _ 0) as [e|content_length];
    [inversion H; subst; exact Hloop1|].
  match type of H with
  | context [GurtClient.run_reads
               (fun fuel => GurtClient.read_body fuel sock ?b ?c) w1] =>
    destruct (run_reads_body sock b c w1) as (r2 & w2 & Hloop2 & Hrun2)
  end.
  rewrite Hrun2 in H. apply read_body_continues in Hloop2.
  assert (Hc : continues is_recv w w2) by (eapply continues_trans; eauto).
  destruct r2 as [e|body_data]; inversion H; subst; exact Hc.
Qed.

End NetworkFacts.

(** ** The handshake *)

Section Handshake.
Context {rt : Runtime}.

Import Net.

Lemma sendall_continues (p : action -> bool) (s : socket) (data : list N)
  (w w' : world) (r : result unit) :
  p (Sendall s data) = true ->
  sendall s data w = (r, w') -> continues p w w'.
Proof.
  intros Hp H. unfold sendall in H. cbn [log send_errors] in H.
  destruct (send_errors w) as [|[e|] rest]; inversion H; subst;
    exists [Sendall s data]; cbn [trace log forallb]; now rewrite Hp.
Qed.

(** The first half of the handshake sends, sets the timeout and reads:
    it does not wrap the socket. *)
Lemma handshake_exchange_continues (self : GurtClient.t) (sock : socket)
  (host : list N) (w w' : world) (r : result GurtResponse.t) :
  GurtClient.handshake_exchange self sock host w = (r, w') ->
  continues (fun a => negb (is_wrap a)) w w'.
Proof.
  unfold GurtClient.handshake_exchange, and_then, lift. intros H.
  destruct (GurtRequest.to_bytes _) as [e|handshake_data];
    [inversion H; subst; apply continues_refl|].
  destruct (sendall sock handshake_data w) as [[e|[]] w1] eqn:E1;
    apply sendall_continues with (p := fun a => negb (is_wrap a)) in E1;
    try reflexivity;
    [inversion H; subst; exact E1|].
  unfold settimeout in H.
  set (w2 := log (Settimeout sock _) w1) in H.
  assert (E2 : continues (fun a => negb (is_wrap a)) w1 w2)
    by (apply continues_log; reflexivity).
  destruct (GurtClient._read_response_data sock w2) as [[e|response_data] w3] eqn:E3;
    apply read_response_data_continues in E3;
    apply continues_weaken with (q := fun a => negb (is_wrap a)) in E3;
    try (intros [] Ha; try discriminate; reflexivity);
    assert (E : continues (fun a => negb (is_wrap a)) w w3)
      by (eapply continues_trans; [exact E1|];
          eapply continues_trans; [exact E2|exact E3]);
    inversion H; subst; exact E.
Qed.

(** C2: when the handshake exchange gives a response whose status code
    is not 101, [_perform_handshake] raises [GurtHandshakeError] with the
    message "Handshake failed: ", the code and the status message, and
    leaves the network as the exchange left it: since the call began, no
    action on the network was a [wrap_socket]. *)
Theorem handshake_refused (self : GurtClient.t) (sock : socket) (host : list N)
  (w w1 : world) (response : GurtResponse.t) :
  GurtClient.handshake_exchange self sock host w = (inr response, w1) ->
  GurtStatusCode.value (GurtResponse.status_code response) <> 101%Z ->
  GurtClient._perform_handshake self sock host w
  = (inl (Exn GurtHandshakeError
            (lit "Handshake failed: "
             ++ str_of_int (GurtStatusCode.value (GurtResponse.status_code response))
             ++ lit " " ++ GurtResponse.status_message response)),
     w1)
  /\ continues (fun a => negb (is_wrap a)) w w1.
Proof.
  intros Hex Hcode. split.
  - unfold GurtClient._perform_handshake, try_except,
      GurtClient.handshake_steps, and_then.
    rewrite Hex. unfold GurtClient.handshake_upgrade.
    destruct (Z.eqb_spec
                (GurtStatusCode.value (GurtResponse.status_code response)) 101)
      as [E|E]; [contradiction|].
    cbn [negb]. unfold throw, reraise. reflexivity.
  - eapply handshake_exchange_continues. exact Hex.
Qed.

(** C3, as amended: an exception raised inside the handshake phase
    reaches the caller of [_perform_handshake] unchanged only when it is a
    [GurtHandshakeError], a [GurtTLSError] or a [GurtTimeoutError];
    [socket.timeout] becomes [GurtTimeoutError] and [ssl.SSLError] becomes
    [GurtTLSError]; every other exception, [GurtProtocolError] from
    decoding the handshake response and [GurtConnectionError] from the
    stream closing included, is wrapped into [GurtHandshakeError] with the
    message "Handshake failed: " and the text of the exception. *)
Theorem handshake_error_kinds (self : GurtClient.t) (sock : socket)
  (host : list N) (w w1 : world) (e : exn) :
  GurtClient.handshake_steps self sock host w = (inl e, w1) ->
  GurtClient._perform_handshake self sock host w
  = (inl (GurtClient.handshake_except e), w1)
  /\
  (exn_type e = GurtHandshakeError \/ exn_type e = GurtTLSError
   \/ exn_type e = GurtTimeoutError ->
   GurtClient.handshake_except e = e)
  /\
  (exn_type e = socket_timeout ->
   GurtClient.handshake_except e
   = Exn GurtTimeoutError (lit "Handshake timeout"))
  /\
  (exn_type e = ssl_SSLError ->
   GurtClient.handshake_except e
   = Exn GurtTLSError (lit "TLS handshake failed: " ++ exn_str e))
  /\
  (exn_type e = GurtProtocolError \/ exn_type e = GurtConnectionError
   \/ exn_type e = GurtError \/ exn_type e = OSError
   \/ exn_type e = ValueError \/ exn_type e = UnicodeEncodeError
   \/ exn_type e = UnicodeDecodeError \/ exn_type e = IndexError ->
   GurtClient.handshake_except e
   = Exn GurtHandshakeError (lit "Handshake failed: " ++ exn_str e)).
Proof.
  intros H. split.
  - unfold GurtClient._perform_handshake, try_except, reraise.
    now rewrite H.
  - destruct e as [c msg]. unfold GurtClient.handshake_except, isinstance.
    cbn [exn_type exn_str].
    repeat split; intros Hc; repeat (destruct Hc as [Hc|Hc]); subst c;
      reflexivity.
Qed.

Lemma scan_content_length_first (before after : list (list N))
  (line name value : list N) (content_length : Z) :
  Forall (fun l => startswith (lower l) (lit "content-length:") = false) before ->
  startswith (lower line) (lit "content-length:") = true ->
  split_max line (lit ":") 1 = [name; value] ->
  GurtClient.scan_content_length (before ++ line :: after) content_length
  = ret match int (strip value) with
        | Some n => n
        | None => content_length
        end.
Proof.
  intros Hb Hl Hs. induction Hb as [|l before Hl0 Hb IH].
  - cbn [app GurtClient.scan_content_length]. rewrite Hl, Hs.
    destruct (int (strip value)); reflexivity.
  - cbn [app GurtClient.scan_content_length]. rewrite Hl0. exact IH.
Qed.

(** C9, as amended: let the first loop of [_read_response_data] end with
    [data], let the header bytes of [data] decode as UTF-8 to text, and let
    the first line of that text that begins with "content-length:" in lower
    case, the one line the scan reads, carry a value [int] does not accept.  Then [_read_response_data] raises
    nothing and reads nothing more: it returns [data] itself, which is the
    header bytes followed by the body bytes read along with them. *)
Theorem content_length_lenient (sock : socket) (w w1 : world) (data : list N)
  (text : list N) (before after : list (list N)) (line name value : list N) :
  GurtClient.run_reads (fun fuel => GurtClient.read_headers fuel sock []) w
  = (inr data, w1) ->
  decode (firstn (headers_end data) data) = Some text ->
  split text CRLF = before ++ line :: after ->
  Forall (fun l => startswith (lower l) (lit "content-length:") = false) before ->
  startswith (lower line) (lit "content-length:") = true ->
  split_max line (lit ":") 1 = [name; value] ->
  int (strip value) = None ->
  GurtClient._read_response_data sock w = (inr data, w1)
  /\ data = firstn (headers_end data) data ++ skipn (headers_end data) data.
Proof.
  intros Hloop Hdec Hlines Hb Hl Hs Hint. split; [|now rewrite firstn_skipn].
  unfold GurtClient._read_response_data, and_then, lift, pure.
  rewrite Hloop. fold (headers_end data).
  unfold decode_utf8. rewrite Hdec. cbn [ret].
  change (lit "" ++ [13; 10]%N) with CRLF. rewrite Hlines.
  rewrite (scan_content_length_first before after line name value 0 Hb Hl Hs).
  rewrite Hint. cbn [ret].
  unfold GurtClient.run_reads. cbn [GurtClient.read_body].
  replace (len (skipn (headers_end data) data) <? 0)%Z with false
    by (symmetry; apply Z.ltb_ge; unfold len; lia).
  now rewrite firstn_skipn.
Qed.

(** C10: the configuration built with no argument has [verify_tls] false;
    the client built on it holds a context that checks neither the host
    name nor the certificate, and so does every client whose
    configuration has [verify_tls] false, while one with [verify_tls] true
    keeps the checks of the default context. *)
Theorem default_is_insecure :
  GurtClientConfig.verify_tls GurtClientConfig.default = false /\
  GurtClient.config (GurtClient.init None) = GurtClientConfig.default /\
  ssl.check_hostname (GurtClient._ssl_context (GurtClient.init None)) = false /\
  ssl.verify_mode (GurtClient._ssl_context (GurtClient.init None)) = ssl.CERT_NONE /\
  (forall config,
     ssl.check_hostname (GurtClient._create_ssl_context config)
     = GurtClientConfig.verify_tls config /\
     ssl.verify_mode (GurtClient._create_ssl_context config)
     = if GurtClientConfig.verify_tls config then ssl.CERT_REQUIRED
       else ssl.CERT_NONE).
Proof.
  repeat split; try reflexivity;
    unfold GurtClient._create_ssl_context;
    destruct (GurtClientConfig.verify_tls config); reflexivity.
Qed.

End Handshake.

(** ** URL resolution *)

Section UrlFacts.
Context {rt : Runtime}.

Lemma forallb_imp {A} (p q : A -> bool) (l : list A) :
  (forall x, p x = true -> q x = true) ->
  forallb p l = true -> forallb q l = true.
Proof. intros H. rewrite !forallb_forall. auto. Qed.

Lemma not_among (c : N) (l : list N) (k : N) :
  negb (among c l) = true -> In k l -> c <> k.
Proof.
  intros H Hin ->. apply negb_true_iff in H.
  assert (E : among k l = true).
  { apply existsb_exists. exists k. split; [exact Hin|apply N.eqb_refl]. }
  congruence.
Qed.

Lemma forallb_not_in (p : N -> bool) (s : list N) (k : N) :
  forallb p s = true -> p k = false -> ~ In k s.
Proof.
  rewrite forallb_forall. intros H Hk Hin. apply H in Hin. congruence.
Qed.

Lemma remove_char_id (c : N) (s : list N) : ~ In c s -> remove_char c s = s.
Proof.
  intros H. unfold remove_char. induction s as [|x s IH]; [reflexivity|].
  simpl. destruct (N.eqb_spec x c) as [->|Hx].
  - exfalso. apply H. now left.
  - simpl. f_equal. apply IH. intros Hin. apply H. now right.
Qed.

Lemma contains_char_false (s : list N) (c : N) :
  ~ In c s -> contains s [c] = false.
Proof. intros H. unfold contains. now rewrite split_once_none. Qed.

Lemma partition_none (s : list N) (c : N) :
  ~ In c s -> partition s [c] = (s, false, []).
Proof. intros H. unfold partition. now rewrite split_once_none. Qed.

Lemma partition_char (a b : list N) (c : N) :
  ~ In c a -> partition (a ++ c :: b) [c] = (a, true, b).
Proof. intros H. unfold partition. now rewrite split_once_char. Qed.

Lemma rpartition_none (s : list N) (c : N) :
  ~ In c s -> rpartition s [c] = ([], false, s).
Proof.
  intros H. unfold rpartition. cbn [rev app].
  rewrite split_once_none; [reflexivity|].
  intros Hin. apply H. now apply in_rev.
Qed.

Lemma splitnetloc_app (a b : list N) :
  forallb (fun c => negb (urllib.is_netloc_end c)) a = true ->
  urllib.is_netloc_end (hd 47%N b) = true ->
  urllib._splitnetloc (a ++ b) = (a, b).
Proof.
  intros Ha Hb. induction a as [|c a IH].
  - destruct b as [|x b]; [reflexivity|]. cbn [app urllib._splitnetloc].
    cbn [hd] in Hb. now rewrite Hb.
  - cbn [forallb] in Ha. apply andb_true_iff in Ha. destruct Ha as [Hc Ha].
    apply negb_true_iff in Hc. cbn [app urllib._splitnetloc].
    now rewrite Hc, IH.
Qed.

Lemma host_char_facts (c : N) :
  host_char c = true ->
  (c <? 128)%N = true /\ url_free c = true /\
  negb (urllib.is_netloc_end c) = true /\
  c <> 58%N /\ c <> 64%N /\ c <> 91%N /\ c <> 93%N /\ c <> 37%N.
Proof.
  unfold host_char. intros H. apply andb_true_iff in H. destruct H as [Ha H].
  pose proof (fun k => not_among c _ k H) as N.
  assert (c <> 9 /\ c <> 10 /\ c <> 13 /\ c <> 35 /\ c <> 37 /\ c <> 47 /\ c <> 58
          /\ c <> 63 /\ c <> 64 /\ c <> 91 /\ c <> 93)%N as Hn
    by (repeat split; apply N; simpl; tauto).
  clear N H. destruct Hn as (? & ? & ? & ? & ? & ? & ? & ? & ? & ? & ?).
  repeat split; try assumption.
  - unfold url_free, among. cbn [existsb].
    repeat match goal with H : c <> ?k |- _ => apply N.eqb_neq in H; rewrite ?H; clear H end.
    reflexivity.
  - unfold urllib.is_netloc_end.
    repeat match goal with H : c <> ?k |- _ => apply N.eqb_neq in H; rewrite ?H end.
    reflexivity.
Qed.

Lemma digit_facts (c : N) :
  is_ascii_digit c = true ->
  (c <? 128)%N = true /\ url_free c = true /\
  negb (urllib.is_netloc_end c) = true /\
  c <> 58%N /\ c <> 64%N /\ c <> 91%N /\ c <> 93%N /\ c <> 37%N.
Proof.
  unfold is_ascii_digit. intros H. apply andb_true_iff in H.
  destruct H as [H1 H2]. apply N.leb_le in H1, H2.
  assert (Hn : forall k, (k < 48 \/ 57 < k)%N -> (c =? k)%N = false)
    by (intros k Hk; apply N.eqb_neq; lia).
  repeat split; try lia.
  - apply N.ltb_lt. lia.
  - unfold url_free, among. cbn [existsb]. rewrite !Hn by lia. reflexivity.
  - unfold urllib.is_netloc_end. rewrite !Hn by lia. reflexivity.
Qed.

Lemma path_char_facts (c : N) :
  path_char c = true -> url_free c = true /\ c <> 35%N /\ c <> 63%N.
Proof.
  unfold path_char. intros H.
  pose proof (fun k => not_among c _ k H) as N.
  assert (c <> 9 /\ c <> 10 /\ c <> 13 /\ c <> 35 /\ c <> 63)%N as Hn
    by (repeat split; apply N; simpl; tauto).
  clear N H. destruct Hn as (? & ? & ? & ? & ?).
  repeat split; try assumption.
  unfold url_free, among. cbn [existsb].
  repeat match goal with H : c <> ?k |- _ => apply N.eqb_neq in H; rewrite ?H; clear H end.
  reflexivity.
Qed.

Lemma query_char_facts (c : N) :
  query_char c = true -> url_free c = true /\ c <> 35%N.
Proof.
  unfold query_char. intros H.
  pose proof (fun k => not_among c _ k H) as N.
  assert (c <> 9 /\ c <> 10 /\ c <> 13 /\ c <> 35)%N as Hn
    by (repeat split; apply N; simpl; tauto).
  clear N H. destruct Hn as (? & ? & ? & ?).
  repeat split; try assumption.
  unfold url_free, among. cbn [existsb].
  repeat match goal with H : c <> ?k |- _ => apply N.eqb_neq in H; rewrite ?H; clear H end.
  reflexivity.
Qed.

Lemma url_free_not_in (s : list N) (k : N) :
  forallb url_free s = true -> In k [9; 10; 13]%N -> ~ In k s.
Proof.
  intros H Hk. apply (forallb_not_in url_free); [exact H|].
  simpl in Hk. destruct Hk as [<-|[<-|[<-|[]]]]; reflexivity.
Qed.

Lemma netloc_facts (host : list N) (port : option (list N)) :
  forallb host_char host = true -> port_chars_ok port = true ->
  forallb url_free (netloc_of host port) = true /\
  isascii (netloc_of host port) = true /\
  forallb (fun c => negb (urllib.is_netloc_end c)) (netloc_of host port) = true /\
  ~ In 64%N (netloc_of host port) /\ ~ In 91%N (netloc_of host port) /\
  ~ In 93%N (netloc_of host port).
Proof.
  intros Hh Hp. unfold netloc_of, isascii.
  assert (Hport : forall q : N -> bool,
             q 58%N = true ->
             (forall c, is_ascii_digit c = true -> q c = true) ->
             forallb q (port_part port) = true).
  { intros q Hq Hd. destruct port as [p|]; [|reflexivity].
    unfold port_part. change (lit ":") with [58%N]. cbn [app forallb].
    rewrite Hq. cbn [andb]. revert Hp. cbn [port_chars_ok].
    apply forallb_imp. exact Hd. }
  assert (Hnot : forall k, (k < 48 \/ 58 < k)%N -> host_char k = false ->
                           ~ In k (host ++ port_part port)).
  { intros k Hk Hhk Hin. apply in_app_or in Hin. destruct Hin as [Hin|Hin].
    - revert Hin. now apply (forallb_not_in host_char).
    - destruct port as [p|]; [|contradiction].
      unfold port_part in Hin. change (lit ":") with [58%N] in Hin.
      cbn [app] in Hin. destruct Hin as [E|Hin]; [lia|].
      revert Hin. apply (forallb_not_in is_ascii_digit); [exact Hp|].
      unfold is_ascii_digit. apply andb_false_iff.
      destruct Hk; [left; apply N.leb_gt; lia|right; apply N.leb_gt; lia]. }
  repeat split.
  - rewrite forallb_app. apply andb_true_iff. split.
    + revert Hh. apply forallb_imp. intros c Hc. now apply host_char_facts.
    + apply Hport; [reflexivity|]. intros c Hc. now apply digit_facts.
  - rewrite forallb_app. apply andb_true_iff. split.
    + revert Hh. apply forallb_imp. intros c Hc. now apply host_char_facts.
    + apply Hport; [reflexivity|]. intros c Hc. now apply digit_facts.
  - rewrite forallb_app. apply andb_true_iff. split.
    + revert Hh. apply forallb_imp. intros c Hc. now apply host_char_facts.
    + apply Hport; [reflexivity|]. intros c Hc. now apply digit_facts.
  - apply Hnot; [lia|reflexivity].
  - apply Hnot; [lia|reflexivity].
  - apply Hnot; [lia|reflexivity].
Qed.

Lemma tail_facts (path : list N) (query : option (list N)) :
  path_ok path = true -> query_ok query = true ->
  forallb url_free (tail_of path query) = true /\
  urllib.is_netloc_end (hd 47%N (tail_of path query)) = true /\
  ~ In 35%N (tail_of path query) /\
  split_once (tail_of path query) (lit "?")
  = match query with Some q => Some (path, q) | None => None end.
Proof.
  unfold path_ok, query_ok, tail_of. intros Hp Hq.
  apply andb_true_iff in Hp. destruct Hp as [Hstart Hp].
  assert (Hq' : forallb query_char (query_part query) = true).
  { destruct query as [q|]; [|reflexivity]. unfold query_part.
    apply andb_true_iff in Hq. destruct Hq as [_ Hq].
    change (lit "?") with [63%N]. cbn [app forallb]. now rewrite Hq. }
  assert (H63 : ~ In 63%N path)
    by (apply (forallb_not_in path_char); [exact Hp|reflexivity]).
  repeat split.
  - rewrite forallb_app. apply andb_true_iff. split.
    + revert Hp. apply forallb_imp. intros c Hc. now apply path_char_facts.
    + revert Hq'. apply forallb_imp. intros c Hc. now apply query_char_facts.
  - destruct path as [|c path].
    + destruct query as [q|]; reflexivity.
    + cbn [null orb] in Hstart. change (lit "/") with [47%N] in Hstart.
      cbn [startswith] in Hstart. apply andb_true_iff in Hstart.
      destruct Hstart as [Hc _]. apply N.eqb_eq in Hc. subst c. reflexivity.
  - intros Hin. apply in_app_or in Hin. destruct Hin as [Hin|Hin]; revert Hin.
    + apply (forallb_not_in path_char); [exact Hp|reflexivity].
    + apply (forallb_not_in query_char); [exact Hq'|reflexivity].
  - change (lit "?") with [63%N]. destruct query as [q|].
    + unfold query_part. change (lit "?") with [63%N]. cbn [app].
      now apply split_once_char.
    + unfold query_part. rewrite app_nil_r. now apply split_once_none.
Qed.

Lemma urlsplit_gurt (host : list N) (port : option (list N)) (path : list N)
  (query : option (list N)) :
  forallb host_char host = true -> port_chars_ok port = true ->
  path_ok path = true -> query_ok query = true ->
  urllib.urlsplit (gurt_url host port path query)
  = inr (lit "gurt", netloc_of host port, path,
         match query with Some q => q | None => [] end, []).
Proof.
  intros Hh Hpc Hp Hq.
  destruct (netloc_facts host port Hh Hpc) as (Nfree & Nascii & Nend & N64 & N91 & N93).
  destruct (tail_facts path query Hp Hq) as (Tfree & Thd & T35 & Tq).
  unfold gurt_url. rewrite (app_assoc host), (app_assoc (host ++ _)).
  fold (netloc_of host port). rewrite <- app_assoc. fold (tail_of path query).
  set (netloc := netloc_of host port) in *. set (tail := tail_of path query) in *.
  unfold urllib.urlsplit.
  change (lit "gurt://") with [103; 117; 114; 116; 58; 47; 47]%N.
  cbn [app lstrip_chars]. change (urllib.is_c0_control_or_space 103) with false.
  cbv iota.
  set (U := (103 :: 117 :: 114 :: 116 :: 58 :: 47 :: 47 :: netloc ++ tail)%N).
  assert (Ufree : forallb url_free U = true).
  { unfold U. cbn [forallb]. rewrite forallb_app, Nfree, Tfree. reflexivity. }
  rewrite (remove_char_id 9 U) by (apply url_free_not_in; [exact Ufree|simpl; tauto]).
  rewrite (remove_char_id 13 U) by (apply url_free_not_in; [exact Ufree|simpl; tauto]).
  rewrite (remove_char_id 10 U) by (apply url_free_not_in; [exact Ufree|simpl; tauto]).
  change (lit ":") with [58%N].
  change U with ([103; 117; 114; 116]%N ++ 58%N :: 47%N :: 47%N :: netloc ++ tail).
  rewrite split_once_char by (simpl; intuition discriminate).
  change ((103 <? 128)%N && is_ascii_alpha 103
          && forallb urllib.is_scheme_char [103; 117; 114; 116]%N) with true.
  cbv iota.
  change (lower [103; 117; 114; 116]%N) with (lit "gurt").
  change (startswith (47 :: 47 :: netloc ++ tail)%N (lit "//")) with true.
  cbv iota. cbn [skipn]. rewrite splitnetloc_app by assumption.
  change (lit "[") with [91%N]. change (lit "]") with [93%N].
  rewrite !contains_char_false by assumption.
  cbn [andb orb negb bind ret].
  change (lit "#") with [35%N]. rewrite split_once_none by exact T35.
  rewrite Tq. unfold urllib._checknetloc. rewrite Nascii, orb_true_r.
  destruct query; [reflexivity|].
  unfold tail, tail_of, query_part. now rewrite app_nil_r.
Qed.

Lemma urlparse_gurt (host : list N) (port : option (list N)) (path : list N)
  (query : option (list N)) :
  forallb host_char host = true -> port_chars_ok port = true ->
  path_ok path = true -> query_ok query = true ->
  urllib.urlparse (gurt_url host port path query)
  = inr (urllib.Build (lit "gurt") (netloc_of host port) path []
           match query with Some q => q | None => [] end []).
Proof.
  intros Hh Hpc Hp Hq. unfold urllib.urlparse.
  rewrite urlsplit_gurt by assumption. reflexivity.
Qed.

Lemma hostinfo_gurt (host : list N) (port : option (list N)) :
  forallb host_char host = true -> port_chars_ok port = true ->
  urllib._hostinfo (netloc_of host port)
  = (host, match port with
           | Some p => if null p then None else Some p
           | None => None
           end).
Proof.
  intros Hh Hpc.
  destruct (netloc_facts host port Hh Hpc) as (_ & _ & _ & N64 & N91 & _).
  unfold urllib._hostinfo.
  change (lit "@") with [64%N]. change (lit "[") with [91%N].
  change (lit ":") with [58%N].
  rewrite rpartition_none by exact N64.
  rewrite partition_none by exact N91.
  assert (H58 : ~ In 58%N host)
    by (apply (forallb_not_in host_char); [exact Hh|reflexivity]).
  unfold netloc_of. destruct port as [p|].
  - unfold port_part. change (lit ":") with [58%N]. cbn [app].
    rewrite partition_char by exact H58. reflexivity.
  - unfold port_part. rewrite app_nil_r, partition_none by exact H58. reflexivity.
Qed.

Lemma port_ok_chars (port : option (list N)) :
  port_ok port = true -> port_chars_ok port = true.
Proof.
  destruct port as [p|]; [|reflexivity]. cbn [port_ok port_chars_ok].
  intros H. apply andb_true_iff in H. destruct H as [H _].
  apply andb_true_iff in H. destruct H as [H _].
  apply andb_true_iff in H. now destruct H as [_ H].
Qed.

Lemma host_lower (host : list N) :
  forallb host_char host = true -> lower host = map ascii_lower_char host.
Proof.
  intros H. unfold lower.
  replace (isascii host) with true; [reflexivity|].
  symmetry. revert H. apply forallb_imp. intros c Hc. now apply host_char_facts.
Qed.

Lemma lstrip_digits (p : list N) :
  forallb is_ascii_digit p = true -> lstrip_chars is_c_space p = p.
Proof.
  destruct p as [|c p]; [reflexivity|]. cbn [forallb lstrip_chars]. intros H.
  apply andb_true_iff in H. destruct H as [Hc _].
  replace (is_c_space c) with false; [reflexivity|].
  symmetry. unfold is_ascii_digit in Hc. apply andb_true_iff in Hc.
  destruct Hc as [H1 H2]. apply N.leb_le in H1. apply N.leb_le in H2.
  unfold is_c_space. apply orb_false_iff. split.
  - apply andb_false_iff. right. apply N.leb_gt. lia.
  - apply N.eqb_neq. lia.
Qed.

Lemma filter_all {A} (f : A -> bool) (l : list A) :
  forallb f l = true -> filter f l = l.
Proof.
  induction l as [|x l IH]; [reflexivity|]. cbn [forallb filter]. intros H.
  apply andb_true_iff in H. destruct H as [Hx Hl]. rewrite Hx. f_equal. auto.
Qed.

(** [int] refuses decimal digits when they are more than 4300. *)
Lemma int_ascii_long (p : list N) :
  forallb is_ascii_digit p = true -> (MAX_STR_DIGITS < len p)%Z ->
  int_ascii p = None.
Proof.
  intros Hd Hlen. unfold int_ascii.
  assert (Hr : forallb is_ascii_digit (rev p) = true).
  { rewrite forallb_forall in *. intros x Hx. apply Hd. now apply in_rev. }
  rewrite (lstrip_digits p Hd), (lstrip_digits (rev p) Hr), rev_involutive.
  cbv zeta. unfold count_digits. rewrite (filter_all _ p Hd).
  replace (MAX_STR_DIGITS <? len p)%Z with true; [reflexivity|].
  symmetry. now apply Z.ltb_lt.
Qed.

(** A port of more than 4300 digits makes the port property raise the
    [ValueError] of [int], which [_parse_gurt_url] does not handle. *)
Lemma resolve_long_port (host p path : list N) (query : option (list N)) :
  host <> [] ->
  forallb host_char host = true ->
  forallb is_ascii_digit p = true ->
  (MAX_STR_DIGITS < len p)%Z ->
  path_ok path = true ->
  query_ok query = true ->
  GurtClient._parse_gurt_url (gurt_url host (Some p) path query)
  = raise ValueError (int_limit_error (len p)).
Proof.
  intros Hne Hh Hd Hlen Hp Hq.
  unfold GurtClient._parse_gurt_url.
  replace (startswith (gurt_url host (Some p) path query) (lit "gurt://")) with true
    by (symmetry; apply startswith_app).
  cbn [negb]. rewrite urlparse_gurt by assumption. cbn [bind].
  unfold urllib.hostname, urllib.port.
  cbn [urllib.netloc urllib.path urllib.query].
  rewrite hostinfo_gurt by assumption. cbn [fst snd].
  destruct host as [|h host]; [contradiction|]. cbn [null].
  change (lit "%") with [37%N]. rewrite partition_none
    by (apply (forallb_not_in host_char); [exact Hh|reflexivity]).
  rewrite host_lower by exact Hh. rewrite !app_nil_r. cbn [map null].
  destruct p as [|d p]; [unfold MAX_STR_DIGITS, len in Hlen; simpl in Hlen; lia|].
  cbn [null]. rewrite Hd. unfold int.
  replace (isascii (d :: p)) with true
    by (symmetry; revert Hd; apply forallb_imp; intros c Hc;
        now apply digit_facts).
  rewrite (int_ascii_long (d :: p) Hd Hlen). reflexivity.
Qed.

(** C6, as amended: for a host that is not empty, made of ASCII
    characters other than tab, LF, CR and # % / : ? @ [ ], an optional port
    of at most 4300 decimal digits that name a number from 0 to 65535, a
    path that is empty or begins with a slash and holds none of tab, LF,
    CR, # and ?, and an optional query that is not empty and holds none of
    tab, LF, CR and #, [_parse_gurt_url] on gurt://host[:port][path][?query] returns
    the host in lower case, the port, or 4878 when the port is absent or 0,
    and the path, or "/" when the path is empty, followed by "?" and the
    query when there is one.  The four addresses of the specification
    resolve to the four triples it gives. *)
Theorem resolve_gurt_url (host : list N) (port : option (list N))
  (path : list N) (query : option (list N)) :
  host <> [] ->
  forallb host_char host = true ->
  port_ok port = true ->
  path_ok path = true ->
  query_ok query = true ->
  GurtClient._parse_gurt_url (gurt_url host port path query)
  = inr (map ascii_lower_char host, port_number port, request_target path query)
  /\ GurtClient._parse_gurt_url (lit "gurt://example.com/test")
     = inr (lit "example.com", 4878%Z, lit "/test")
  /\ GurtClient._parse_gurt_url (lit "gurt://localhost:8080/api/data")
     = inr (lit "localhost", 8080%Z, lit "/api/data")
  /\ GurtClient._parse_gurt_url (lit "gurt://api.example.com/search?q=test&limit=10")
     = inr (lit "api.example.com", 4878%Z, lit "/search?q=test&limit=10")
  /\ GurtClient._parse_gurt_url (lit "gurt://localhost")
     = inr (lit "localhost", 4878%Z, lit "/").
Proof.
  intros Hne Hh Hport Hp Hq. split; [|repeat split; reflexivity].
  pose proof (port_ok_chars port Hport) as Hpc.
  unfold GurtClient._parse_gurt_url.
  replace (startswith (gurt_url host port path query) (lit "gurt://")) with true
    by (symmetry; apply startswith_app).
  cbn [negb]. rewrite urlparse_gurt by assumption. cbn [bind].
  unfold urllib.hostname, urllib.port.
  cbn [urllib.netloc urllib.path urllib.query].
  rewrite hostinfo_gurt by assumption. cbn [fst snd].
  destruct host as [|h host]; [contradiction|]. cbn [null].
  change (lit "%") with [37%N]. rewrite partition_none
    by (apply (forallb_not_in host_char); [exact Hh|reflexivity]).
  rewrite host_lower by exact Hh. rewrite !app_nil_r. cbn [map null].
  assert (Hportnum :
            match port with
            | Some p => if null p then None else Some p
            | None => None
            end = port /\
            match port with
            | Some p =>
              forallb is_ascii_digit p = true /\
              exists n, int p = Some n /\ int_ascii p = Some n /\
                        ((0 <=? n)%Z && (n <=? 65535)%Z) = true
            | None => True
            end).
  { destruct port as [p|]; [|now split]. cbn [port_ok] in Hport.
    apply andb_true_iff in Hport. destruct Hport as [Hport Hrange].
    apply andb_true_iff in Hport. destruct Hport as [Hport _].
    apply andb_true_iff in Hport. destruct Hport as [Hnull Hdigits].
    apply negb_true_iff in Hnull. rewrite Hnull. split; [reflexivity|].
    split; [exact Hdigits|].
    destruct (int_ascii p) as [n|] eqn:E; [|discriminate].
    exists n. repeat split; [|exact Hrange].
    unfold int. replace (isascii p) with true; [exact E|].
    symmetry. revert Hdigits. apply forallb_imp. intros c Hc.
    now apply digit_facts. }
  destruct Hportnum as [-> Hportnum].
  assert (Htarget :
            (if negb (null match query with Some q => q | None => [] end)
             then (if null path then lit "/" else path) ++ lit "?"
                  ++ match query with Some q => q | None => [] end
             else if null path then lit "/" else path)
            = request_target path query).
  { unfold request_target, query_part. destruct query as [q|].
    - cbn [query_ok] in Hq. apply andb_true_iff in Hq. destruct Hq as [Hq _].
      now rewrite Hq.
    - cbn [null negb]. now rewrite app_nil_r. }
  destruct port as [p|].
  - destruct Hportnum as (Hd & n & Hint & Hascii & Hrange).
    rewrite Hd, Hint, Hrange. cbn [bind ret]. rewrite Htarget.
    unfold port_number. rewrite Hascii. reflexivity.
  - cbn [bind ret]. rewrite Htarget. reflexivity.
Qed.

(** C7, as amended: [_parse_gurt_url] raises an exception of the base
    class [GurtError], which derives from no other class of the package,
    on every address that does not begin with "gurt://" (message "URL must
    use gurt:// scheme: " and the address), and on every address [urlparse]
    finds no host name in, as are the addresses
    gurt://[:port][path][?query] (message "URL must have a hostname: " and
    the address). *)
Theorem resolve_rejects (url : list N) :
  startswith url (lit "gurt://") = false \/
  (exists parsed,
     urllib.urlparse url = inr parsed /\ urllib.hostname parsed = None) \/
  (exists port path query,
     url = gurt_url [] port path query /\ port_chars_ok port = true /\
     path_ok path = true /\ query_ok query = true) ->
  GurtClient._parse_gurt_url url
  = inl (Exn GurtError
           (if startswith url (lit "gurt://")
            then lit "URL must have a hostname: " ++ url
            else lit "URL must use gurt:// scheme: " ++ url))
  /\ base_class GurtError = None.
Proof.
  intros H. split; [|reflexivity].
  assert (H' : startswith url (lit "gurt://") = false \/
               exists parsed,
                 urllib.urlparse url = inr parsed /\
                 urllib.hostname parsed = None).
  { destruct H as [H|[H|H]]; [now left|now right|right].
    destruct H as (port & path & query & -> & Hpc & Hp & Hq).
    eexists. split; [now apply urlparse_gurt|].
    unfold urllib.hostname. cbn [urllib.netloc].
    now rewrite hostinfo_gurt. }
  clear H. unfold GurtClient._parse_gurt_url.
  destruct (startswith url (lit "gurt://")) eqn:E.
  - destruct H' as [H|(parsed & Hparse & Hhost)]; [discriminate|].
    cbn [negb]. rewrite Hparse. cbn [bind]. now rewrite Hhost.
  - reflexivity.
Qed.

End UrlFacts.

(** ** Headers *)

Section HeaderFacts.
Context {rt : Runtime}.

Lemma get_set_same (d : dict) (k v : list N) : Py.get (Py.set d k v) k = Some v.
Proof.
  induction d as [|[k' v'] d IH]; simpl.
  - now rewrite eqb_refl.
  - destruct (Py.eqb k' k) eqn:E; simpl.
    + now rewrite eqb_refl.
    + now rewrite E.
Qed.

Lemma get_set_other (d : dict) (k v k' : list N) :
  k' <> k -> Py.get (Py.set d k v) k' = Py.get d k'.
Proof.
  intros Hk. induction d as [|[k0 v0] d IH]; simpl.
  - destruct (Py.eqb k k') eqn:E; [|reflexivity].
    apply eqb_eq in E. congruence.
  - destruct (Py.eqb k0 k) eqn:E; simpl.
    + apply eqb_eq in E. subst k0.
      destruct (Py.eqb k k') eqn:E'; [|reflexivity].
      apply eqb_eq in E'. congruence.
    + now rewrite IH.
Qed.

Lemma get_set (d : dict) (k v k' : list N) :
  Py.get (Py.set d k v) k' = if Py.eqb k' k then Some v else Py.get d k'.
Proof.
  destruct (Py.eqb k' k) eqn:E.
  - apply eqb_eq in E. subst. apply get_set_same.
  - apply get_set_other. now apply eqb_neq.
Qed.

Lemma keys_set (d : dict) (k v : list N) :
  keys (Py.set d k v) = if has d k then keys d else keys d ++ [k].
Proof.
  unfold has. induction d as [|[k' v'] d IH]; [reflexivity|].
  simpl. destruct (Py.eqb k' k) eqn:E.
  - apply eqb_eq in E. now subst.
  - simpl. rewrite IH. now destruct (Py.get d k).
Qed.

Lemma has_true_in (d : dict) (k : list N) : has d k = true -> In k (keys d).
Proof.
  unfold has. induction d as [|[k' v'] d IH]; [discriminate|].
  simpl. destruct (Py.eqb k' k) eqn:E.
  - apply eqb_eq in E. now left.
  - intros H. right. now apply IH.
Qed.

Lemma set_keeps_unique (d : dict) (k v : list N) :
  NoDup (keys d) -> NoDup (keys (Py.set d k v)).
Proof.
  intros H. rewrite keys_set. destruct (has d k) eqn:E; [exact H|].
  apply NoDup_app; [exact H|repeat constructor; intros []|].
  intros x Hx [<-|[]]. revert Hx. now apply has_false_fresh.
Qed.

(** X1: looking a header up after [with_header]: the name is compared in
    lower case, the last value set under it is the one found, and every
    other name is found as before. *)
Theorem with_header_then_get_header (r : GurtRequest.t) (s : GurtResponse.t)
  (key value name : list N) :
  GurtRequest.get_header (GurtRequest.with_header r key value) name
  = (if Py.eqb (lower name) (lower key) then Some value
     else GurtRequest.get_header r name)
  /\
  GurtResponse.get_header (GurtResponse.with_header s key value) name
  = (if Py.eqb (lower name) (lower key) then Some value
     else GurtResponse.get_header s name).
Proof.
  split.
  - unfold GurtRequest.get_header, GurtRequest.with_header.
    cbn [GurtRequest.headers]. apply get_set.
  - unfold GurtResponse.get_header, GurtResponse.with_header.
    cbn [GurtResponse.headers]. apply get_set.
Qed.

(** X2: [with_header] never stores a name twice: on headers with distinct
    names it leaves distinct names, replaces in place the value of a name
    already stored and adds one entry for a new name. *)
Theorem with_header_keeps_names_distinct (r : GurtRequest.t)
  (key value : list N) :
  NoDup (keys (GurtRequest.headers r)) ->
  NoDup (keys (GurtRequest.headers (GurtRequest.with_header r key value)))
  /\
  keys (GurtRequest.headers (GurtRequest.with_header r key value))
  = (if has (GurtRequest.headers r) (lower key)
     then keys (GurtRequest.headers r)
     else keys (GurtRequest.headers r) ++ [lower key]).
Proof.
  intros H. unfold GurtRequest.with_header. cbn [GurtRequest.headers].
  split; [now apply set_keeps_unique|apply keys_set].
Qed.

Lemma get_default (d : dict) (k v name : list N) :
  Py.get (if has d k then d else Py.set d k v) name
  = match Py.get d name with
    | Some x => Some x
    | None => if Py.eqb name k then Some v else None
    end.
Proof.
  unfold has. destruct (Py.get d k) as [x|] eqn:E.
  - destruct (Py.get d name) as [y|] eqn:E'; [reflexivity|].
    destruct (Py.eqb name k) eqn:Ek; [|reflexivity].
    apply eqb_eq in Ek. congruence.
  - rewrite get_set. destruct (Py.eqb name k) eqn:Ek.
    + apply eqb_eq in Ek. subst. now rewrite E.
    + now destruct (Py.get d name).
Qed.

(** X3: the defaults [to_bytes] fills in never replace a header of the
    message: a name the message holds is sent with the value it holds, a
    wrong Content-Length included, and the only names added are
    content-length with the length of the body and, for a request,
    user-agent, for a response, server and date. *)
Theorem defaults_fill_gaps (r : GurtRequest.t) (s : GurtResponse.t)
  (now name : list N) :
  Py.get (GurtRequest.default_headers r) name
  = match Py.get (GurtRequest.headers r) name with
    | Some v => Some v
    | None =>
      if Py.eqb name (lit "content-length")
      then Some (str_of_int (len (GurtRequest.body r)))
      else if Py.eqb name (lit "user-agent")
           then Some (lit "GURT-Python-Client/" ++ GURT_VERSION)
           else None
    end
  /\
  Py.get (GurtResponse.default_headers s now) name
  = match Py.get (GurtResponse.headers s) name with
    | Some v => Some v
    | None =>
      if Py.eqb name (lit "content-length")
      then Some (str_of_int (len (GurtResponse.body s)))
      else if Py.eqb name (lit "server")
           then Some (lit "GURT/" ++ GURT_VERSION)
           else if Py.eqb name (lit "date") then Some now else None
    end.
Proof.
  split.
  - unfold GurtRequest.default_headers. cbv zeta. rewrite !get_default.
    destruct (Py.get (GurtRequest.headers r) name); [reflexivity|].
    now destruct (Py.eqb name (lit "content-length")).
  - unfold GurtResponse.default_headers. cbv zeta. rewrite !get_default.
    destruct (Py.get (GurtResponse.headers s) name); [reflexivity|].
    destruct (Py.eqb name (lit "content-length")); [reflexivity|].
    now destruct (Py.eqb name (lit "server")).
Qed.

Lemma parse_header_lines_unique (lines : list (list N)) (acc : dict) :
  NoDup (keys acc) -> NoDup (keys (parse_header_lines lines acc)).
Proof.
  revert acc. induction lines as [|line lines IH]; intros acc H; [exact H|].
  cbn [parse_header_lines]. destruct (null (strip line)); [exact H|].
  destruct (split_once line (lit ":")) as [[key value]|]; apply IH;
    [now apply set_keeps_unique|exact H].
Qed.

(** X4: the headers of a parsed message have distinct names, whatever the
    header lines of the message repeat. *)
Theorem parsed_names_distinct (request_data response_data : str_or_bytes)
  (r : GurtRequest.t) (s : GurtResponse.t) :
  GurtRequest.parse request_data = inr r ->
  GurtResponse.parse response_data = inr s ->
  NoDup (keys (GurtRequest.headers r)) /\ NoDup (keys (GurtResponse.headers s)).
Proof.
  intros Hr Hs. split.
  - unfold GurtRequest.parse in Hr.
    destruct (to_data request_data) as [e|raw]; [discriminate|]. cbn [bind] in Hr.
    destruct (split_body raw) as [headers_part body_part].
    destruct (decode_utf8 headers_part) as [e|headers_str]; [discriminate|].
    cbn [bind] in Hr.
    destruct (split headers_str HEADER_SEPARATOR) as [|line lines]; [discriminate|].
    destruct (split_ws line) as [|t1 [|t2 [|t3 [|t4 more]]]]; try discriminate.
    destruct (GurtMethod.of_value t1); [|discriminate].
    destruct (negb (startswith t3 PROTOCOL_PREFIX)); [discriminate|].
    inversion Hr; subst. cbn [GurtRequest.headers].
    apply parse_header_lines_unique. constructor.
  - unfold GurtResponse.parse in Hs.
    destruct (to_data response_data) as [e|raw]; [discriminate|]. cbn [bind] in Hs.
    destruct (split_body raw) as [headers_part body_part].
    destruct (decode_utf8 headers_part) as [e|headers_str]; [discriminate|].
    cbn [bind] in Hs.
    destruct (split headers_str HEADER_SEPARATOR) as [|line lines]; [discriminate|].
    destruct (split_max line (lit " ") 2) as [|p1 [|p2 more]]; try discriminate.
    destruct (negb (startswith p1 PROTOCOL_PREFIX)); [discriminate|].
    destruct (GurtResponse.status_of_token p2); [|discriminate].
    inversion Hs; subst. cbn [GurtResponse.headers].
    apply parse_header_lines_unique. constructor.
Qed.

(** X5: the header loop of [parse] stops at the first line that is empty or white
    space: what follows such a line is not read. *)
Theorem header_lines_stop_at_blank (before after : list (list N))
  (blank : list N) (acc : dict) :
  null (strip blank) = true ->
  parse_header_lines (before ++ blank :: after) acc
  = parse_header_lines before acc.
Proof.
  intros Hb. revert acc. induction before as [|line before IH]; intros acc.
  - cbn [app parse_header_lines]. now rewrite Hb.
  - cbn [app parse_header_lines]. destruct (null (strip line)); [reflexivity|].
    destruct (split_once line (lit ":")) as [[key value]|]; apply IH.
Qed.

Lemma parse_header_lines_app (lines more : list (list N)) (acc : dict) :
  Forall (fun l => null (strip l) = false) lines ->
  parse_header_lines (lines ++ more) acc
  = parse_header_lines more (parse_header_lines lines acc).
Proof.
  intros H. revert acc. induction H as [|line lines Hl H IH]; intros acc;
    [reflexivity|].
  cbn [app parse_header_lines]. rewrite Hl.
  destruct (split_once line (lit ":")) as [[key value]|]; apply IH.
Qed.

(** X6: when no line is blank, the last line that has a colon decides the
    value of its name: the text before its first colon, trimmed and in
    lower case, is bound to the text after it, trimmed. *)
Theorem last_header_line_wins (lines : list (list N)) (line key value : list N)
  (acc : dict) :
  Forall (fun l => null (strip l) = false) (lines ++ [line]) ->
  split_once line (lit ":") = Some (key, value) ->
  Py.get (parse_header_lines (lines ++ [line]) acc) (lower (strip key))
  = Some (strip value).
Proof.
  intros H Hs. apply Forall_app in H. destruct H as [Hl Hline].
  inversion Hline as [|? ? Hb _]; subst.
  rewrite parse_header_lines_app by exact Hl.
  cbn [parse_header_lines]. rewrite Hb, Hs. apply get_set_same.
Qed.

Lemma startswith_app_long (s t p : list N) :
  (length p <= length s)%nat -> startswith (s ++ t) p = startswith s p.
Proof.
  revert s. induction p as [|a p IH]; intros s H; [reflexivity|].
  destruct s as [|b s]; [simpl in H; lia|].
  cbn [app startswith]. rewrite IH by (simpl in H; lia). reflexivity.
Qed.

Lemma split_once_extend (head sep body : list N) :
  split_once (head ++ sep) sep = Some (head, []) ->
  split_once (head ++ sep ++ body) sep = Some (head, body).
Proof.
  induction head as [|c head IH]; intros H.
  - exact (split_once_here sep body).
  - rewrite split_once_unfold in H. cbn [app] in H.
    destruct (startswith (c :: head ++ sep) sep) eqn:E; [discriminate|].
    destruct (split_once (head ++ sep) sep) as [[a b]|] eqn:E'; [|discriminate].
    inversion H; subst a b.
    rewrite split_once_unfold. cbn [app].
    replace (startswith (c :: head ++ sep ++ body) sep) with false.
    + now rewrite IH.
    + rewrite <- E. rewrite app_assoc.
      change (c :: (head ++ sep) ++ body) with ((c :: head ++ sep) ++ body).
      symmetry. apply startswith_app_long. simpl. rewrite length_app. lia.
Qed.

(** X7: the body is opaque to [parse]: when the first blank line of a
    message is the one that ends [head], the bytes behind it decide
    neither whether [parse] accepts the message nor anything it answers
    but the body, which is those bytes themselves. *)
Theorem body_is_opaque (head body : list N) :
  split_once (head ++ BODY_SEPARATOR) BODY_SEPARATOR = Some (head, []) ->
  GurtRequest.parse (Bytes (head ++ BODY_SEPARATOR ++ body))
  = (r <- GurtRequest.parse (Bytes (head ++ BODY_SEPARATOR)) ;;
     ret (GurtRequest.Build (GurtRequest.method r) (GurtRequest.path r)
            (GurtRequest.version r) (GurtRequest.headers r) body))
  /\
  GurtResponse.parse (Bytes (head ++ BODY_SEPARATOR ++ body))
  = (s <- GurtResponse.parse (Bytes (head ++ BODY_SEPARATOR)) ;;
     ret (GurtResponse.Build (GurtResponse.version s)
            (GurtResponse.status_code s) (GurtResponse.status_message s)
            (GurtResponse.headers s) body)).
Proof.
  intros H. pose proof (split_once_extend head BODY_SEPARATOR body H) as H'.
  split.
  - unfold GurtRequest.parse. cbn [to_data ret bind]. unfold split_body.
    rewrite H, H'. destruct (decode_utf8 head) as [e|headers_str]; [reflexivity|].
    cbn [bind].
    destruct (split headers_str HEADER_SEPARATOR) as [|line lines]; [reflexivity|].
    destruct (split_ws line) as [|t1 [|t2 [|t3 [|t4 more]]]]; try reflexivity.
    destruct (GurtMethod.of_value t1); [|reflexivity].
    destruct (negb (startswith t3 PROTOCOL_PREFIX)); reflexivity.
  - unfold GurtResponse.parse. cbn [to_data ret bind]. unfold split_body.
    rewrite H, H'. destruct (decode_utf8 head) as [e|headers_str]; [reflexivity|].
    cbn [bind].
    destruct (split headers_str HEADER_SEPARATOR) as [|line lines]; [reflexivity|].
    destruct (split_max line (lit " ") 2) as [|p1 [|p2 more]]; try reflexivity.
    destruct (negb (startswith p1 PROTOCOL_PREFIX)); [reflexivity|].
    destruct (GurtResponse.status_of_token p2); reflexivity.
Qed.

(** X8: a message without a blank line is all header text: when [parse]
    accepts it, the body is empty. *)
Theorem no_blank_line_no_body (request_data response_data : list N)
  (r : GurtRequest.t) (s : GurtResponse.t) :
  contains request_data BODY_SEPARATOR = false ->
  contains response_data BODY_SEPARATOR = false ->
  GurtRequest.parse (Bytes request_data) = inr r ->
  GurtResponse.parse (Bytes response_data) = inr s ->
  GurtRequest.body r = [] /\ GurtResponse.body s = [].
Proof.
  unfold contains. intros Hq Hp Hr Hs. split.
  - unfold GurtRequest.parse in Hr. cbn [to_data ret bind] in Hr.
    unfold split_body in Hr.
    destruct (split_once request_data BODY_SEPARATOR); [discriminate|].
    destruct (decode_utf8 request_data) as [e|headers_str]; [discriminate|].
    cbn [bind] in Hr.
    destruct (split headers_str HEADER_SEPARATOR) as [|line lines]; [discriminate|].
    destruct (split_ws line) as [|t1 [|t2 [|t3 [|t4 more]]]]; try discriminate.
    destruct (GurtMethod.of_value t1); [|discriminate].
    destruct (negb (startswith t3 PROTOCOL_PREFIX)); [discriminate|].
    now inversion Hr.
  - unfold GurtResponse.parse in Hs. cbn [to_data ret bind] in Hs.
    unfold split_body in Hs.
    destruct (split_once response_data BODY_SEPARATOR); [discriminate|].
    destruct (decode_utf8 response_data) as [e|headers_str]; [discriminate|].
    cbn [bind] in Hs.
    destruct (split headers_str HEADER_SEPARATOR) as [|line lines]; [discriminate|].
    destruct (split_max line (lit " ") 2) as [|p1 [|p2 more]]; try discriminate.
    destruct (negb (startswith p1 PROTOCOL_PREFIX)); [discriminate|].
    destruct (GurtResponse.status_of_token p2); [|discriminate].
    now inversion Hs.
Qed.

End HeaderFacts.

(** ** The registries of methods and status codes *)

Section RegistryFacts.

(** X9: [GurtStatusCode(n)] answers the member whose value is [n], and raises
    exactly when [n] is none of the nineteen values. *)
Theorem status_code_of_value (n : Z) (c : GurtStatusCode.t) :
  (GurtStatusCode.of_value n = Some c <-> GurtStatusCode.value c = n)
  /\
  (GurtStatusCode.of_value n = None <->
   ~ In n [101; 200; 201; 202; 204; 400; 401; 403; 404; 405; 408; 413; 415;
           429; 500; 501; 502; 503; 504]%Z).
Proof.
  split; split.
  - intros H. unfold GurtStatusCode.of_value in H. apply find_some in H.
    destruct H as [_ H]. now apply Z.eqb_eq in H.
  - intros <-. destruct c; reflexivity.
  - intros H Hin. simpl in Hin.
    repeat (destruct Hin as [<-|Hin]; [discriminate H|]). exact Hin.
  - intros H. destruct (GurtStatusCode.of_value n) as [c'|] eqn:E; [|reflexivity].
    exfalso. apply H. unfold GurtStatusCode.of_value in E. apply find_some in E.
    destruct E as [_ E]. apply Z.eqb_eq in E. subst n.
    destruct c'; simpl; tauto.
Qed.

(** X10: every status code has a message of its own in the registry: the
    fallback "UNKNOWN" is never answered, and two codes with one message
    are one code. *)
Theorem status_messages_total (c c' : GurtStatusCode.t) :
  GurtStatusCode.message c <> lit "UNKNOWN" /\
  In (c, GurtStatusCode.message c) GurtStatusCode.STATUS_MESSAGES /\
  (GurtStatusCode.message c = GurtStatusCode.message c' -> c = c').
Proof.
  split; [destruct c; discriminate|].
  split; [destruct c; simpl; tauto|].
  destruct c, c'; intros H; try reflexivity; vm_compute in H; discriminate.
Qed.

(** X11: [GurtMethod(token)] answers a method exactly on its own upper-case
    name: a token in another case, or with anything around the name, is
    refused. *)
Theorem method_of_value (token : list N) (m : GurtMethod.t) :
  GurtMethod.of_value token = Some m <-> token = GurtMethod.value m.
Proof.
  split.
  - intros H. unfold GurtMethod.of_value in H. apply find_some in H.
    destruct H as [_ H]. apply eqb_eq in H. now symmetry.
  - intros ->. destruct m; reflexivity.
Qed.

(** X12: the three classes of status codes exclude each other, and the one
    code in none of them is 101. *)
Theorem status_classes_disjoint (c : GurtStatusCode.t) :
  (GurtStatusCode.is_success c && GurtStatusCode.is_client_error c = false) /\
  (GurtStatusCode.is_success c && GurtStatusCode.is_server_error c = false) /\
  (GurtStatusCode.is_client_error c && GurtStatusCode.is_server_error c = false) /\
  (GurtStatusCode.is_success c || GurtStatusCode.is_client_error c
   || GurtStatusCode.is_server_error c = false
   <-> c = GurtStatusCode.SWITCHING_PROTOCOLS).
Proof.
  destruct c; repeat split; try reflexivity; intros H; discriminate.
Qed.

End RegistryFacts.

(** ** Reading a response *)

Section ReaderFacts.
Context {rt : Runtime}.

Import Net.

Lemma split_once_prefix (s sep a b : list N) :
  split_once s sep = Some (a, b) -> split_once (a ++ sep) sep = Some (a, []).
Proof.
  assert (Hnil : split_once ([] ++ sep) sep = Some ([], [])).
  { pose proof (split_once_here sep []) as Hh. now rewrite app_nil_r in Hh. }
  revert a. induction s as [|c s IH]; intros a H; rewrite split_once_unfold in H.
  - destruct (startswith [] sep); [|discriminate]. now inversion H; subst.
  - destruct (startswith (c :: s) sep) eqn:E; [now inversion H; subst|].
    destruct (split_once s sep) as [[a' b']|] eqn:E'; [|discriminate].
    inversion H; subst a b'. specialize (IH a' eq_refl).
    rewrite split_once_unfold. cbn [app].
    replace (startswith (c :: a' ++ sep) sep) with false; [now rewrite IH|].
    rewrite <- E. apply split_once_sound in E'. subst s.
    replace (c :: a' ++ sep ++ b) with ((c :: a' ++ sep) ++ b)
      by (simpl; now rewrite <- app_assoc).
    apply startswith_app_long. simpl. rewrite length_app. lia.
Qed.

Lemma split_once_app (a b p x y : list N) :
  split_once a p = Some (x, y) -> split_once (a ++ b) p = Some (x, y ++ b).
Proof.
  intros H. pose proof (split_once_sound _ _ _ _ H) as ->.
  apply split_once_prefix in H. rewrite <- !app_assoc.
  now apply split_once_extend.
Qed.

Lemma contains_prefix (a b p : list N) :
  contains (a ++ b) p = false -> contains a p = false.
Proof.
  unfold contains. intros H.
  destruct (split_once a p) as [[x y]|] eqn:E; [|reflexivity].
  rewrite (split_once_app _ b _ _ _ E) in H. discriminate.
Qed.

Lemma socket_eqb_refl (s : socket) : socket_eqb s s = true.
Proof. now destruct s. Qed.

Lemma recv_reads (s : socket) (n : Z) (w w' : world) (r : result (list N)) :
  (1 <= n <= 4096)%Z ->
  recv s n w = (r, w') -> continues (reads_on s) w w'.
Proof.
  unfold recv. intros Hn H.
  assert (Hp : forallb (reads_on s) [Recv s n] = true).
  { cbn [forallb reads_on]. rewrite socket_eqb_refl.
    replace (1 <=? n)%Z with true by (symmetry; apply Z.leb_le; lia).
    replace (n <=? 4096)%Z with true by (symmetry; apply Z.leb_le; lia).
    reflexivity. }
  destruct (incoming (log (Recv s n) w)) as [|[chunk|e] rest];
    [|destruct (len chunk <=? n)%Z|]; inversion H; subst;
    exists [Recv s n]; (split; [reflexivity|exact Hp]).
Qed.


Lemma read_headers_reads (fuel : nat) (sock : socket) (data : list N)
  (w w' : world) (r : result (list N)) :
  GurtClient.read_headers fuel sock data w = Some (r, w') ->
  continues (reads_on sock) w w'.
Proof.
  revert data w. induction fuel as [|fuel IH]; intros data w H;
    cbn [GurtClient.read_headers] in H;
    destruct (negb (contains data GurtClient.header_end));
    try discriminate;
    try (inversion H; subst; apply continues_refl).
  destruct (recv sock 4096 w) as [[e|chunk] w1] eqn:E;
    apply recv_reads in E; try lia.
  - inversion H; subst. exact E.
  - destruct (null chunk); [inversion H; subst; exact E|].
    destruct (len (data ++ chunk) >? MAX_MESSAGE_SIZE)%Z;
      [inversion H; subst; exact E|].
    eapply continues_trans; [exact E|]. eapply IH; eauto.
Qed.

Lemma read_body_reads (fuel : nat) (sock : socket) (body_data : list N)
  (content_length : Z) (w w' : world) (r : result (list N)) :
  GurtClient.read_body fuel sock body_data content_length w = Some (r, w') ->
  continues (reads_on sock) w w'.
Proof.
  revert body_data w. induction fuel as [|fuel IH]; intros body_data w H;
    cbn [GurtClient.read_body] in H;
    destruct (len body_data <? content_length)%Z eqn:Hlt;
    try discriminate;
    try (inversion H; subst; apply continues_refl).
  apply Z.ltb_lt in Hlt.
  destruct (recv sock _ w) as [[e|chunk] w1] eqn:E;
    apply recv_reads in E; try lia.
  - inversion H; subst. exact E.
  - destruct (null chunk); [inversion H; subst; exact E|].
    eapply continues_trans; [exact E|]. eapply IH; eauto.
Qed.




(** The reads of [_read_response_data], with what each one asks for. *)
Lemma read_response_data_reads (sock : socket) (w w' : world)
  (r : result (list N)) :
  GurtClient._read_response_data sock w = (r, w') ->
  continues (reads_on sock) w w'.
Proof.
  unfold GurtClient._read_response_data, and_then, lift, pure. intros H.
  destruct (run_reads_headers sock w) as (r1 & w1 & Hloop1 & Hrun1).
  rewrite Hrun1 in H. apply read_headers_reads in Hloop1.
  destruct r1 as [e|data]; [inversion H; subst; exact Hloop1|].
  destruct (decode_utf8 _) as [e|headers_str];
    [inversion H; subst; exact Hloop1|].
  destruct (GurtClient.scan_content_length _ 0) as [e|content_length];
    [inversion H; subst; exact Hloop1|].
  match type of H with
  | context [GurtClient.run_reads
               (fun fuel => GurtClient.read_body fuel sock ?b ?c) w1] =>
    destruct (run_reads_body sock b c w1) as (r2 & w2 & Hloop2 & Hrun2)
  end.
  rewrite Hrun2 in H. apply read_body_reads in Hloop2.
  assert (Hc : continues (reads_on sock) w w2) by (eapply continues_trans; eauto).
  destruct r2 as [e|body_data]; inversion H; subst; exact Hc.
Qed.

Lemma recv_keeps (s : socket) (n : Z) (w w' : world) (r : result (list N)) :
  recv s n w = (r, w') -> same_answers w w'.
Proof.
  unfold recv, same_answers. cbn [log incoming connect_error send_errors wrap_result].
  intros H. destruct (incoming w) as [|[c|e] rest];
    [|destruct (len c <=? n)%Z|]; inversion H; subst; now repeat split.
Qed.

Lemma same_answers_trans (w1 w2 w3 : world) :
  same_answers w1 w2 -> same_answers w2 w3 -> same_answers w1 w3.
Proof.
  unfold same_answers. intros (A1 & B1 & C1) (A2 & B2 & C2).
  repeat split; congruence.
Qed.

Lemma read_headers_keeps (fuel : nat) (sock : socket) (data : list N)
  (w w' : world) (r : result (list N)) :
  GurtClient.read_headers fuel sock data w = Some (r, w') -> same_answers w w'.
Proof.
  revert data w. induction fuel as [|fuel IH]; intros data w H;
    cbn [GurtClient.read_headers] in H;
    destruct (negb (contains data GurtClient.header_end));
    try discriminate;
    try (inversion H; subst; now repeat split).
  destruct (recv sock 4096 w) as [[e|chunk] w1] eqn:E; apply recv_keeps in E.
  - inversion H; subst. exact E.
  - destruct (null chunk); [inversion H; subst; exact E|].
    destruct (len (data ++ chunk) >? MAX_MESSAGE_SIZE)%Z;
      [inversion H; subst; exact E|].
    eapply same_answers_trans; [exact E|]. eapply IH; eauto.
Qed.

Lemma read_body_keeps (fuel : nat) (sock : socket) (body_data : list N)
  (content_length : Z) (w w' : world) (r : result (list N)) :
  GurtClient.read_body fuel sock body_data content_length w = Some (r, w') ->
  same_answers w w'.
Proof.
  revert body_data w. induction fuel as [|fuel IH]; intros body_data w H;
    cbn [GurtClient.read_body] in H;
    destruct (len body_data <? content_length)%Z;
    try discriminate;
    try (inversion H; subst; now repeat split).
  destruct (recv sock _ w) as [[e|chunk] w1] eqn:E; apply recv_keeps in E.
  - inversion H; subst. exact E.
  - destruct (null chunk); [inversion H; subst; exact E|].
    eapply same_answers_trans; [exact E|]. eapply IH; eauto.
Qed.

(** X13: whatever the peer sends and however the call ends,
    [_read_response_data] does nothing to the network but read, on the
    socket it was given, asking each time for at least one byte and at
    most 4096; what the network will answer to a connection, to what is
    sent and to a TLS upgrade is as it was before the call. *)
Theorem reads_only_on_its_socket (sock : socket) (w w' : world)
  (r : result (list N)) :
  GurtClient._read_response_data sock w = (r, w') ->
  continues (reads_on sock) w w' /\ same_answers w w'.
Proof.
  intros H. split; [eapply read_response_data_reads; exact H|].
  revert H. unfold GurtClient._read_response_data, and_then, lift, pure. intros H.
  destruct (run_reads_headers sock w) as (r1 & w1 & Hloop1 & Hrun1).
  rewrite Hrun1 in H. apply read_headers_keeps in Hloop1.
  destruct r1 as [e|data]; [inversion H; subst; exact Hloop1|].
  destruct (decode_utf8 _) as [e|headers_str];
    [inversion H; subst; exact Hloop1|].
  destruct (GurtClient.scan_content_length _ 0) as [e|content_length];
    [inversion H; subst; exact Hloop1|].
  match type of H with
  | context [GurtClient.run_reads
               (fun fuel => GurtClient.read_body fuel sock ?b ?c) w1] =>
    destruct (run_reads_body sock b c w1) as (r2 & w2 & Hloop2 & Hrun2)
  end.
  rewrite Hrun2 in H. apply read_body_keeps in Hloop2.
  assert (Hc : same_answers w w2) by (eapply same_answers_trans; eauto).
  destruct r2 as [e|body_data]; inversion H; subst; exact Hc.
Qed.



Lemma read_headers_closed (fuel : nat) (sock : socket) (data : list N)
  (chunks : list (list N)) (w : world) :
  incoming w = map Data chunks ->
  contains (data ++ concat chunks) GurtClient.header_end = false ->
  (len (data ++ concat chunks) <= MAX_MESSAGE_SIZE)%Z ->
  (pending (incoming w) < fuel)%nat ->
  exists w',
    GurtClient.read_headers fuel sock data w
    = Some (inl (Exn GurtConnectionError
                   (lit "Connection closed while reading headers")), w').
Proof.
  revert data chunks w.
  induction fuel as [|fuel IH]; intros data chunks w Hin Hc Hlen Hf; [lia|].
  cbn [GurtClient.read_headers].
  rewrite (contains_prefix _ _ _ Hc). cbn [negb].
  unfold recv. cbn [log incoming connect_error send_errors wrap_result trace].
  rewrite Hin in *. destruct chunks as [|c rest]; cbn [map].
  - cbn [null]. eexists. reflexivity.
  - cbn [concat] in Hc, Hlen. cbn [map pending] in Hf.
    destruct (len c <=? 4096)%Z eqn:E.
    + destruct (null c) eqn:Hn; [eexists; reflexivity|].
      replace (len (data ++ c) >? MAX_MESSAGE_SIZE)%Z with false.
      * apply (IH (data ++ c) rest).
        -- reflexivity.
        -- now rewrite <- app_assoc.
        -- now rewrite <- app_assoc.
        -- cbn [incoming]. lia.
      * symmetry. rewrite Z.gtb_ltb. apply Z.ltb_ge.
        unfold len in *. rewrite !length_app in *. lia.
    + apply Z.leb_gt in E. unfold len in E.
      change (Z.to_nat 4096) with 4096%nat.
      assert (Hcut : firstn 4096 c ++ skipn 4096 c = c) by apply firstn_skipn.
      destruct (null (firstn 4096 c)) eqn:Hn.
      { destruct c as [|x c]; [simpl in E; lia|discriminate]. }
      replace (len (data ++ firstn 4096 c) >? MAX_MESSAGE_SIZE)%Z with false.
      * apply (IH (data ++ firstn 4096 c) (skipn 4096 c :: rest)).
        -- reflexivity.
        -- cbn [concat]. now rewrite <- app_assoc, (app_assoc (firstn _ _)), Hcut.
        -- cbn [concat]. now rewrite <- app_assoc, (app_assoc (firstn _ _)), Hcut.
        -- cbn [incoming map pending]. rewrite length_skipn. lia.
      * symmetry. rewrite Z.gtb_ltb. apply Z.ltb_ge.
        pose proof (firstn_le_length 4096 c).
        unfold len in *. rewrite !length_app in *. lia.
Qed.

(** X16: when the peer sends bytes that hold no blank line, in whatever
    pieces, and then closes the connection, [_read_response_data] raises
    [GurtConnectionError] "Connection closed while reading headers": it
    returns no partial data. *)
Theorem closed_before_blank_line (sock : socket) (w : world)
  (chunks : list (list N)) :
  incoming w = map Data chunks ->
  contains (concat chunks) GurtClient.header_end = false ->
  (len (concat chunks) <= MAX_MESSAGE_SIZE)%Z ->
  fst (GurtClient._read_response_data sock w)
  = inl (Exn GurtConnectionError (lit "Connection closed while reading headers")).
Proof.
  intros Hin Hc Hlen.
  destruct (read_headers_closed (S (pending (incoming w))) sock [] chunks w
              Hin Hc Hlen (Nat.lt_succ_diag_r _)) as [w' H].
  unfold GurtClient._read_response_data, and_then, GurtClient.run_reads.
  now rewrite H.
Qed.

End ReaderFacts.

(** ** One request, from the connection to its close *)

Section SessionFacts.
Context {rt : Runtime}.

Import Net.










End SessionFacts.

(** ** What a request comes to *)

Section OutcomeFacts.
Context {rt : Runtime}.

Import Net.

(** X19: when the handshake exchange gives a response whose status code
    is 101, [_perform_handshake] wraps the socket, once, with the
    client's context and the host name, and its outcome is decided by the
    wrapping alone: the wrapped socket when the peer selected the
    protocol of the client, [GurtTLSError] with the text of the
    negotiation failure when it selected another or none, and what the
    handlers make of the exception when the wrapping raised. *)
Theorem handshake_accepted (self : GurtClient.t) (sock : socket) (host : list N)
  (w w1 : world) (response : GurtResponse.t) :
  GurtClient.handshake_exchange self sock host w = (inr response, w1) ->
  GurtStatusCode.value (GurtResponse.status_code response) = 101%Z ->
  GurtClient._perform_handshake self sock host w
  = (match wrap_result w1 with
     | inl e => inl (GurtClient.handshake_except e)
     | inr selected =>
       if match selected with
          | Some p => Py.eqb p GURT_ALPN
          | None => false
          end
       then inr Tls
       else inl (Exn GurtTLSError
                   (lit "ALPN negotiation failed. Expected b'" ++ GURT_ALPN
                    ++ lit "', got "
                    ++ match selected with
                       | Some p => p
                       | None => lit "None"
                       end))
     end,
     log (WrapSocket (GurtClient._ssl_context self) host) w1).
Proof.
  intros Hex Hcode.
  unfold GurtClient._perform_handshake, try_except, GurtClient.handshake_steps,
    and_then.
  rewrite Hex. unfold GurtClient.handshake_upgrade. rewrite Hcode.
  change (negb (101 =? 101)%Z) with false. cbv iota.
  unfold and_then, wrap_socket. cbn [log wrap_result].
  destruct (wrap_result w1) as [e|selected]; [reflexivity|].
  cbv beta iota zeta.
  destruct (match selected with
            | Some p => Py.eqb p GURT_ALPN
            | None => false
            end); reflexivity.
Qed.

(** X20: when the connection cannot be made, [_send_request_internal]
    stops there: after the one attempt it raises [GurtTimeoutError] with
    the host and the port for a time-out, [GurtConnectionError] with the
    host, the port and the text of the error for any other error of the
    socket, and the handlers of the request leave both as they are. *)
Theorem connection_failure (self : GurtClient.t) (host : list N) (port : Z)
  (request : GurtRequest.t) (w : world) (e : exn) :
  connect_error w = Some e ->
  isinstance e OSError = true ->
  GurtClient._send_request_internal self host port request w
  = (inl (if isinstance e socket_timeout
          then Exn GurtTimeoutError
                 (lit "Connection timeout to " ++ host ++ lit ":"
                  ++ str_of_int port)
          else Exn GurtConnectionError
                 (lit "Failed to connect to " ++ host ++ lit ":"
                  ++ str_of_int port ++ lit ": " ++ exn_str e)),
     log (Connect host port
            (GurtClientConfig.connection_timeout (GurtClient.config self))) w).
Proof.
  intros Hc He.
  unfold GurtClient._send_request_internal, GurtClient._create_connection,
    try_except, create_connection.
  cbn [log connect_error]. rewrite Hc, He.
  destruct (isinstance e socket_timeout); reflexivity.
Qed.


Lemma encode_framed (l0 : list N) (headers : dict) (body : list N) :
  match (message_bytes <-
           encode_utf8 (emit_headers (l0 ++ HEADER_SEPARATOR) headers
                        ++ HEADER_SEPARATOR) ;;
         ret (message_bytes ++ body)) with
  | inr b => exists head, b = head ++ BODY_SEPARATOR ++ body
  | inl e => exn_type e = UnicodeEncodeError
  end.
Proof.
  rewrite message_shape. unfold encode_utf8, encode.
  destruct (forallb is_scalar _); cbn [bind ret raise]; [|reflexivity].
  rewrite utf8_app. change (utf8 BODY_SEPARATOR) with BODY_SEPARATOR.
  eexists. rewrite <- app_assoc. reflexivity.
Qed.

(** X22: [to_bytes] fails only by [UnicodeEncodeError], and what it
    returns is a head that ends with the blank line, followed by the body
    of the message byte for byte. *)
Theorem to_bytes_frames_body (r : GurtRequest.t) (s : GurtResponse.t)
  (now : list N) :
  match GurtRequest.to_bytes r with
  | inr b => exists head, b = head ++ BODY_SEPARATOR ++ GurtRequest.body r
  | inl e => exn_type e = UnicodeEncodeError
  end
  /\
  match GurtResponse.to_bytes s now with
  | inr b => exists head, b = head ++ BODY_SEPARATOR ++ GurtResponse.body s
  | inl e => exn_type e = UnicodeEncodeError
  end.
Proof.
  split.
  - unfold GurtRequest.to_bytes. cbv zeta.
    replace (GurtMethod.value (GurtRequest.method r) ++ lit " "
             ++ GurtRequest.path r ++ lit " " ++ PROTOCOL_PREFIX
             ++ GurtRequest.version r ++ HEADER_SEPARATOR)
      with ((GurtMethod.value (GurtRequest.method r) ++ lit " "
             ++ GurtRequest.path r ++ lit " " ++ PROTOCOL_PREFIX
             ++ GurtRequest.version r) ++ HEADER_SEPARATOR)
      by (now rewrite <- !app_assoc).
    apply encode_framed.
  - unfold GurtResponse.to_bytes. cbv zeta.
    replace (PROTOCOL_PREFIX ++ GurtResponse.version s ++ lit " "
             ++ str_of_int (GurtStatusCode.value (GurtResponse.status_code s))
             ++ lit " " ++ GurtResponse.status_message s ++ HEADER_SEPARATOR)
      with ((PROTOCOL_PREFIX ++ GurtResponse.version s ++ lit " "
             ++ str_of_int (GurtStatusCode.value (GurtResponse.status_code s))
             ++ lit " " ++ GurtResponse.status_message s) ++ HEADER_SEPARATOR)
      by (now rewrite <- !app_assoc).
    apply encode_framed.
Qed.

End OutcomeFacts.

(** ** What the client asks the network for *)

Section TargetFacts.
Context {rt : Runtime}.

Import Net.

Lemma remove_char_app (c : N) (a b : list N) :
  remove_char c (a ++ b) = remove_char c a ++ remove_char c b.
Proof. unfold remove_char. apply filter_app. Qed.

Lemma splitnetloc_tail (s netloc tail : list N) :
  urllib._splitnetloc s = (netloc, tail) ->
  urllib.is_netloc_end (hd 47%N tail) = true.
Proof.
  revert netloc. induction s as [|c s IH]; intros netloc H;
    cbn [urllib._splitnetloc] in H.
  - inversion H; subst. reflexivity.
  - destruct (urllib.is_netloc_end c) eqn:E.
    + inversion H; subst. exact E.
    + destruct (urllib._splitnetloc s) as [d r]. inversion H; subst.
      eapply IH. reflexivity.
Qed.

Lemma split_once_some_head (t a b : list N) (x : N) :
  split_once t [x] = Some (a, b) ->
  match a with [] => True | c :: _ => c <> x /\ exists t', t = c :: t' end.
Proof.
  destruct t as [|c t]; [discriminate|].
  destruct (N.eq_dec c x) as [->|Hc].
  - change (x :: t) with ([x] ++ t). rewrite split_once_here.
    intros H. inversion H; subst. exact I.
  - rewrite split_once_step by exact Hc.
    destruct (split_once t [x]) as [[a0 b0]|]; [|discriminate].
    intros H; inversion H; subst. split; [exact Hc|now exists t].
Qed.

Lemma split_once_none_head (t : list N) (x : N) :
  split_once t [x] = None -> match t with [] => True | c :: _ => c <> x end.
Proof.
  destruct t as [|c t]; [intros; exact I|]. intros H Hc. subst c.
  change (x :: t) with ([x] ++ t) in H. rewrite split_once_here in H.
  discriminate.
Qed.

Lemma urlsplit_gurt_any (rest scheme netloc path query fragment : list N) :
  urllib.urlsplit (lit "gurt://" ++ rest)
  = inr (scheme, netloc, path, query, fragment) ->
  scheme = lit "gurt" /\ null path || startswith path (lit "/") = true.
Proof.
  unfold urllib.urlsplit.
  change (lit "gurt://") with [103; 117; 114; 116; 58; 47; 47]%N.
  cbn [app lstrip_chars]. change (urllib.is_c0_control_or_space 103) with false.
  cbv iota.
  change (103 :: 117 :: 114 :: 116 :: 58 :: 47 :: 47 :: rest)%N
    with ([103; 117; 114; 116; 58; 47; 47]%N ++ rest).
  rewrite !remove_char_app.
  change (remove_char 10 (remove_char 13 (remove_char 9
            [103; 117; 114; 116; 58; 47; 47]%N)))
    with [103; 117; 114; 116; 58; 47; 47]%N.
  set (rest' := remove_char 10 (remove_char 13 (remove_char 9 rest))).
  change ([103; 117; 114; 116; 58; 47; 47]%N ++ rest')
    with ([103; 117; 114; 116]%N ++ 58%N :: 47%N :: 47%N :: rest').
  change (lit ":") with [58%N].
  rewrite split_once_char by (simpl; intuition discriminate).
  change ((103 <? 128)%N && is_ascii_alpha 103
          && forallb urllib.is_scheme_char [103; 117; 114; 116]%N) with true.
  cbv iota.
  change (lower [103; 117; 114; 116]%N) with (lit "gurt").
  change (startswith (47 :: 47 :: rest')%N (lit "//")) with true.
  cbv iota. cbn [skipn].
  destruct (urllib._splitnetloc rest') as [nl tail] eqn:Es.
  apply splitnetloc_tail in Es. intros H.
  destruct (contains nl (lit "[") && negb (contains nl (lit "]"))
            || contains nl (lit "]") && negb (contains nl (lit "[")));
    [discriminate|].
  match type of H with
  | context [bind ?m (fun _ => ret (nl, tail))] => destruct m as [e|[]]
  end; [discriminate|].
  cbn [bind ret] in H.
  change (lit "#") with [35%N] in H. change (lit "?") with [63%N] in H.
  assert (Hroot : forall p, match p with
                            | [] => True
                            | c :: _ =>
                              c <> 63%N /\ c <> 35%N /\ exists t, tail = c :: t
                            end ->
                            null p || startswith p (lit "/") = true).
  { intros [|c p]; [reflexivity|]. intros (H63 & H35 & t & ->).
    cbn [hd] in Es. unfold urllib.is_netloc_end in Es.
    destruct (N.eqb_spec c 47) as [->|H47]; [reflexivity|].
    destruct (N.eqb_spec c 63); [contradiction|].
    destruct (N.eqb_spec c 35); [contradiction|]. discriminate. }
  destruct (split_once tail [35%N]) as [[a b]|] eqn:E1;
    [apply split_once_some_head in E1|apply split_once_none_head in E1];
    cbv beta iota zeta in H.
  - destruct (split_once a [63%N]) as [[a' b']|] eqn:E2;
      [apply split_once_some_head in E2|apply split_once_none_head in E2];
      cbv beta iota zeta in H;
      (destruct (urllib._checknetloc nl) as [e|[]]; [discriminate|]);
      cbn [bind ret] in H; inversion H; subst; (split; [reflexivity|]);
      apply Hroot.
    + destruct path as [|c p]; [exact I|]. destruct E2 as (N63 & t & ->).
      destruct E1 as (N35 & t' & ->). repeat split; try assumption. now exists t'.
    + destruct path as [|c p]; [exact I|].
      destruct E1 as (N35 & t' & ->). repeat split; try assumption. now exists t'.
  - destruct (split_once tail [63%N]) as [[a' b']|] eqn:E2;
      [apply split_once_some_head in E2|apply split_once_none_head in E2];
      cbv beta iota zeta in H;
      (destruct (urllib._checknetloc nl) as [e|[]]; [discriminate|]);
      cbn [bind ret] in H; inversion H; subst; (split; [reflexivity|]);
      apply Hroot.
    + destruct path as [|c p]; [exact I|]. destruct E2 as (N63 & t & ->).
      repeat split; try assumption. now exists t.
    + destruct path as [|c p]; [exact I|]. repeat split; try assumption.
      now exists p.
Qed.





Lemma port_range (parsed : urllib.ParseResult) (n : Z) :
  urllib.port parsed = inr (Some n) -> (0 <= n <= 65535)%Z.
Proof.
  unfold urllib.port.
  destruct (snd (urllib._hostinfo (urllib.netloc parsed))) as [p|]; [|discriminate].
  destruct (forallb is_ascii_digit p); [|discriminate].
  destruct (int p) as [m|]; [|discriminate].
  destruct ((0 <=? m)%Z && (m <=? 65535)%Z) eqn:E; [|discriminate].
  intros H. inversion H; subst. apply andb_true_iff in E. lia.
Qed.


(** X23: what [_parse_gurt_url] answers, on whatever address it accepts: the
    address begins with "gurt://", the host is not empty, the port is a
    port number from 1 to 65535 and the request target begins with a
    slash. *)
Theorem parsed_target_shape (url host path : list N) (port : Z) :
  GurtClient._parse_gurt_url url = inr (host, port, path) ->
  startswith url (lit "gurt://") = true /\
  host <> [] /\
  (1 <= port <= 65535)%Z /\
  startswith path (lit "/") = true.
Proof.
  unfold GurtClient._parse_gurt_url.
  destruct (startswith url (lit "gurt://")) eqn:Hs; [|discriminate].
  cbn [negb]. pose proof (startswith_inv _ _ Hs) as Hu.
  destruct (urllib.urlparse url) as [e'|parsed] eqn:E; [discriminate|].
  cbn [bind].
  assert (Hp : null (urllib.path parsed)
               || startswith (urllib.path parsed) (lit "/") = true).
  { revert E. rewrite Hu. unfold urllib.urlparse.
    destruct (urllib.urlsplit _) as [e'|[[[[scheme netloc] p] q] f]] eqn:E;
      [discriminate|].
    apply urlsplit_gurt_any in E. destruct E as [-> Hp]. cbn [bind].
    change (existsb (Py.eqb (lit "gurt")) urllib.uses_params) with false.
    cbn [andb]. intros H. inversion H; subst. exact Hp. }
  destruct (urllib.hostname parsed) as [h|]; [|discriminate].
  destruct (null h) eqn:Hn; [discriminate|].
  destruct (urllib.port parsed) as [e'|pp] eqn:Ep; [discriminate|].
  cbn [bind ret]. intros H. inversion H; subst. clear H.
  split; [reflexivity|]. split; [now destruct host|]. split.
  - destruct pp as [n|]; [|unfold DEFAULT_PORT; lia].
    apply port_range in Ep.
    destruct (Z.eqb_spec n 0); [unfold DEFAULT_PORT; lia|lia].
  - destruct (urllib.path parsed) as [|c p]; cbn [null orb] in Hp |- *.
    + destruct (negb (null (urllib.query parsed))); reflexivity.
    + destruct (negb (null (urllib.query parsed))); [|exact Hp].
      change (lit "/") with [47%N] in *. cbn [app startswith] in *. exact Hp.
Qed.


(** X24: an address [_parse_gurt_url] rejects costs no network action: each
    of the six request methods raises the exception of
    [_parse_gurt_url] and leaves the network as it found it. *)
Theorem rejected_url_costs_nothing (self : GurtClient.t)
  (url body content_type : list N) (e : exn) (w : world)
  (call : io GurtResponse.t) :
  GurtClient._parse_gurt_url url = inl e ->
  In call [GurtClient.get self url;
           GurtClient.post self url body content_type;
           GurtClient.put self url body content_type;
           GurtClient.delete self url;
           GurtClient.head self url;
           GurtClient.options self url] ->
  call w = (inl e, w).
Proof.
  intros He Hin. cbn [In] in Hin.
  repeat (destruct Hin as [<-|Hin]; [|]); try contradiction;
    unfold GurtClient.get, GurtClient.post, GurtClient.put, GurtClient.delete,
      GurtClient.head, GurtClient.options, and_then, lift;
    now rewrite He.
Qed.


End TargetFacts.

(* ================================================================== *)
(** * The properties on given inputs *)
(* ================================================================== *)

#[local] Existing Instance plain_runtime.

Lemma request_round_trip_witness :
  (GurtRequest.path sample_request <> [] /\
   no_space (GurtRequest.path sample_request) = true /\
   no_space (GurtRequest.version sample_request) = true /\
   forallb is_scalar (GurtRequest.path sample_request) = true /\
   forallb is_scalar (GurtRequest.version sample_request) = true /\
   forallb header_ok (GurtRequest.headers sample_request) = true /\
   distinct_names (GurtRequest.default_headers sample_request) = true) /\
  exists data r',
    GurtRequest.to_bytes sample_request = inr data /\
    GurtRequest.parse (Bytes data) = inr r' /\
    GurtRequest.method r' = GurtRequest.method sample_request /\
    GurtRequest.path r' = GurtRequest.path sample_request /\
    GurtRequest.version r' = GurtRequest.version sample_request /\
    GurtRequest.body r' = GurtRequest.body sample_request /\
    GurtRequest.headers r'
    = map lower_key (GurtRequest.default_headers sample_request) /\
    (forall k v, In (k, v) (GurtRequest.headers sample_request) ->
                 GurtRequest.get_header r' k = Some v).
Proof.
  split.
  - repeat split; try reflexivity. discriminate.
  - apply (request_round_trip sample_request); try reflexivity. discriminate.
Defined.

(** What C1 says fails on four requests the specification admits: one
    whose version holds a space is refused by [parse]; one with a colon in
    a header name comes back without that header; one with a name that
    differs by case from the added [content-length] comes back with the
    added value; one with a lone surrogate in the path is not encoded. *)
Lemma request_round_trip_counterexample :
  (let r := GurtRequest.Build GurtMethod.GET (lit "/") (lit "1 0") [] [] in
   request_clean r = true /\
   (data <- GurtRequest.to_bytes r ;; GurtRequest.parse (Bytes data))
   = raise GurtProtocolError (lit "Invalid request line format"))
  /\
  (let r := GurtRequest.Build GurtMethod.GET (lit "/") GURT_VERSION
              [(lit "a:b", lit "c")] [] in
   request_clean r = true /\
   GurtRequest.get_header r (lit "a:b") = Some (lit "c") /\
   (data <- GurtRequest.to_bytes r ;;
    r' <- GurtRequest.parse (Bytes data) ;;
    ret (GurtRequest.get_header r' (lit "a:b"), GurtRequest.get_header r' (lit "a")))
   = ret (None, Some (lit "b: c")))
  /\
  (let r := GurtRequest.Build GurtMethod.GET (lit "/") GURT_VERSION
              [(lit "Content-Length", lit "7")] [] in
   request_clean r = true /\
   (data <- GurtRequest.to_bytes r ;;
    r' <- GurtRequest.parse (Bytes data) ;;
    ret (GurtRequest.get_header r' (lit "Content-Length")))
   = ret (Some (lit "0")))
  /\
  (let r := GurtRequest.Build GurtMethod.GET [47; 55296]%N GURT_VERSION [] [] in
   request_clean r = true /\
   GurtRequest.to_bytes r
   = raise UnicodeEncodeError (codec_error_text
       (lit "GET /" ++ [55296]%N ++ lit " GURT/1.0.0" ++ CRLF
        ++ lit "content-length: 0" ++ CRLF
        ++ lit "user-agent: GURT-Python-Client/1.0.0" ++ CRLF ++ CRLF))).
Proof. repeat split; vm_compute; reflexivity. Qed.

Lemma response_round_trip_witness :
  (line_text (GurtResponse.version sample_response) = true /\
   has_char 32%N (GurtResponse.version sample_response) = false /\
   line_text (GurtResponse.status_message sample_response) = true /\
   forallb header_ok (GurtResponse.headers sample_response) = true /\
   header_ok (lit "date", sample_date) = true /\
   distinct_names (GurtResponse.default_headers sample_response sample_date)
   = true) /\
  exists data s',
    GurtResponse.to_bytes sample_response sample_date = inr data /\
    GurtResponse.parse (Bytes data) = inr s' /\
    GurtResponse.status_code s' = GurtStatusCode.CREATED /\
    GurtResponse.status_message s' = lit "Created here" /\
    GurtResponse.get_header s' (lit "Location") = Some (lit "/api/resource/123").
Proof.
  split.
  - repeat split; reflexivity.
  - destruct (response_round_trip sample_response sample_date)
      as [(data & s' & Hto & Hparse & Hcode & Hmsg & _ & _ & _ & Hget) _];
      try reflexivity.
    exists data, s'. repeat split; try assumption.
    change (lit "Location") with (lit "Location").
    unfold GurtResponse.get_header.
    change (lower (lit "Location")) with (lower (lit "location")).
    apply Hget. now left.
Defined.

(** What C4 says fails on five responses the specification admits: one
    whose version holds a space is refused by [parse]; one with white space
    around a header value comes back with the value trimmed; one with a
    colon in a header name comes back without that header; one with a name
    that differs by case from the added [date] comes back with the added
    value; one with a lone surrogate in the status message is not
    encoded. *)
Lemma response_round_trip_counterexample :
  (let s := GurtResponse.Build (lit "1 0") GurtStatusCode.OK (lit "Fine") [] [] in
   response_clean s = true /\
   (data <- GurtResponse.to_bytes s sample_date ;; GurtResponse.parse (Bytes data))
   = raise GurtProtocolError (lit "Invalid status code: 0"))
  /\
  (let s := GurtResponse.Build GURT_VERSION GurtStatusCode.OK (lit "Fine")
              [(lit "x-note", lit " padded ")] [] in
   response_clean s = true /\
   GurtResponse.get_header s (lit "x-note") = Some (lit " padded ") /\
   (data <- GurtResponse.to_bytes s sample_date ;;
    s' <- GurtResponse.parse (Bytes data) ;;
    ret (GurtResponse.get_header s' (lit "x-note")))
   = ret (Some (lit "padded")))
  /\
  (let s := GurtResponse.Build GURT_VERSION GurtStatusCode.OK (lit "Fine")
              [(lit "a:b", lit "c")] [] in
   response_clean s = true /\
   GurtResponse.get_header s (lit "a:b") = Some (lit "c") /\
   (data <- GurtResponse.to_bytes s sample_date ;;
    s' <- GurtResponse.parse (Bytes data) ;;
    ret (GurtResponse.get_header s' (lit "a:b")))
   = ret None)
  /\
  (let s := GurtResponse.Build GURT_VERSION GurtStatusCode.OK (lit "Fine")
              [(lit "Date", lit "yesterday")] [] in
   response_clean s = true /\
   (data <- GurtResponse.to_bytes s sample_date ;;
    s' <- GurtResponse.parse (Bytes data) ;;
    ret (GurtResponse.get_header s' (lit "Date")))
   = ret (Some sample_date))
  /\
  (let s := GurtResponse.Build GURT_VERSION GurtStatusCode.OK [55296]%N [] [] in
   response_clean s = true /\
   exists msg, GurtResponse.to_bytes s sample_date = raise UnicodeEncodeError msg).
Proof.
  repeat split; try (vm_compute; reflexivity).
  eexists. vm_compute. reflexivity.
Qed.



Lemma handshake_refused_witness :
  let w := sample_world [Net.Data (lit "GURT/1.0.0 404 NOT_FOUND" ++ CRLF ++ CRLF)] in
  exists response w1,
    (GurtClient.handshake_exchange sample_client Net.Plain (lit "example.com") w
     = (inr response, w1) /\
     GurtStatusCode.value (GurtResponse.status_code response) <> 101%Z) /\
    GurtClient._perform_handshake sample_client Net.Plain (lit "example.com") w
    = (inl (Exn GurtHandshakeError (lit "Handshake failed: 404 NOT_FOUND")), w1) /\
    continues (fun a => negb (is_wrap a)) w w1.
Proof.
  intros w.
  destruct (GurtClient.handshake_exchange sample_client Net.Plain
              (lit "example.com") w) as [[e|response] w1] eqn:E;
    [vm_compute in E; discriminate|].
  assert (Hcode : GurtResponse.status_code response = GurtStatusCode.NOT_FOUND
                  /\ GurtResponse.status_message response = lit "NOT_FOUND").
  { vm_compute in E. inversion E. split; reflexivity. }
  destruct Hcode as [Hcode Hmsg].
  exists response, w1. split.
  - split; [reflexivity|]. rewrite Hcode. discriminate.
  - pose proof (handshake_refused sample_client Net.Plain (lit "example.com")
                  w w1 response E) as H.
    rewrite Hcode, Hmsg in H. apply H. discriminate.
Defined.

Lemma handshake_error_kinds_witness :
  let w := sample_world [] in
  exists e w1,
    GurtClient.handshake_steps sample_client Net.Plain (lit "example.com") w
    = (inl e, w1) /\
    exn_type e = GurtConnectionError /\
    GurtClient._perform_handshake sample_client Net.Plain (lit "example.com") w
    = (inl (Exn GurtHandshakeError
              (lit "Handshake failed: Connection closed while reading headers")),
       w1).
Proof.
  intros w.
  destruct (GurtClient.handshake_steps sample_client Net.Plain
              (lit "example.com") w) as [[e|tls] w1] eqn:E;
    [|vm_compute in E; discriminate].
  assert (He : e = Exn GurtConnectionError
                     (lit "Connection closed while reading headers")).
  { vm_compute in E. inversion E. reflexivity. }
  exists e, w1. split; [reflexivity|]. split; [now rewrite He|].
  destruct (handshake_error_kinds sample_client Net.Plain (lit "example.com")
              w w1 e E) as (H & _ & _ & _ & Hwrap).
  rewrite H, Hwrap by (rewrite He; now right; left).
  now rewrite He.
Defined.

(** What C3 says fails on two runs of the handshake: a response with a
    foreign protocol prefix makes [parse] raise [GurtProtocolError], and a
    stream closed at once makes the reader raise [GurtConnectionError];
    both reach the caller as [GurtHandshakeError]. *)
Lemma handshake_error_kinds_counterexample :
  (let w := sample_world [Net.Data (lit "HTTP/1.1 200 OK" ++ CRLF ++ CRLF)] in
   fst (GurtClient.handshake_steps sample_client Net.Plain (lit "example.com") w)
   = raise GurtProtocolError (lit "Invalid protocol identifier") /\
   fst (GurtClient._perform_handshake sample_client Net.Plain (lit "example.com") w)
   = raise GurtHandshakeError
       (lit "Handshake failed: Invalid protocol identifier"))
  /\
  (let w := sample_world [] in
   fst (GurtClient.handshake_steps sample_client Net.Plain (lit "example.com") w)
   = raise GurtConnectionError (lit "Connection closed while reading headers") /\
   fst (GurtClient._perform_handshake sample_client Net.Plain (lit "example.com") w)
   = raise GurtHandshakeError
       (lit "Handshake failed: Connection closed while reading headers")).
Proof. repeat split; vm_compute; reflexivity. Qed.

Lemma content_length_lenient_witness :
  let data :=
    lit "GURT/1.0.0 200 OK" ++ CRLF ++ lit "Content-Length: abc" ++ CRLF ++ CRLF
    ++ lit "hello" in
  let w := sample_world [Net.Data data; Net.Data (lit "more")] in
  let w1 := Net.Build None [] [Net.Data (lit "more")] (inr (Some GURT_ALPN))
              [Net.Recv Net.Tls 4096] in
  let text :=
    lit "GURT/1.0.0 200 OK" ++ CRLF ++ lit "Content-Length: abc" ++ CRLF ++ CRLF in
  (GurtClient.run_reads (fun fuel => GurtClient.read_headers fuel Net.Tls []) w
   = (inr data, w1) /\
   decode (firstn (headers_end data) data) = Some text /\
   split text CRLF
   = [lit "GURT/1.0.0 200 OK"] ++ lit "Content-Length: abc" :: [[]; []] /\
   Forall (fun l => startswith (lower l) (lit "content-length:") = false)
          [lit "GURT/1.0.0 200 OK"] /\
   startswith (lower (lit "Content-Length: abc")) (lit "content-length:") = true /\
   split_max (lit "Content-Length: abc") (lit ":") 1
   = [lit "Content-Length"; lit " abc"] /\
   int (strip (lit " abc")) = None) /\
  GurtClient._read_response_data Net.Tls w = (inr data, w1).
Proof.
  intros data w w1 text.
  assert (H1 : GurtClient.run_reads
                 (fun fuel => GurtClient.read_headers fuel Net.Tls []) w
               = (inr data, w1)) by (vm_compute; reflexivity).
  assert (H2 : decode (firstn (headers_end data) data) = Some text)
    by (vm_compute; reflexivity).
  assert (H3 : split text CRLF
               = [lit "GURT/1.0.0 200 OK"] ++ lit "Content-Length: abc" :: [[]; []])
    by (vm_compute; reflexivity).
  assert (H4 : Forall (fun l => startswith (lower l) (lit "content-length:") = false)
                      [lit "GURT/1.0.0 200 OK"])
    by (constructor; [vm_compute; reflexivity|constructor]).
  assert (H5 : startswith (lower (lit "Content-Length: abc"))
                 (lit "content-length:") = true) by (vm_compute; reflexivity).
  assert (H6 : split_max (lit "Content-Length: abc") (lit ":") 1
               = [lit "Content-Length"; lit " abc"]) by (vm_compute; reflexivity).
  assert (H7 : int (strip (lit " abc")) = None) by (vm_compute; reflexivity).
  split; [now repeat split|].
  apply (content_length_lenient Net.Tls w w1 data text _ _ _ _ _ H1 H2 H3 H4 H5 H6 H7).
Defined.

(** What C9 says fails when the non-numeric line is not the first
    content-length line and when the header bytes are not UTF-8.  With
    the lines [content-length: 5] and [Content-Length: abc] the scan stops
    at the first: the declared length is 5, so a stream that ends behind
    the headers makes [_read_response_data] raise [GurtConnectionError],
    and one that goes on has five more bytes read from it.  With the line
    [content-length: abc] and a byte 255 in the headers the method raises
    [UnicodeDecodeError]. *)
Lemma content_length_lenient_counterexample :
  (let head :=
     lit "GURT/1.0.0 200 OK" ++ CRLF ++ lit "content-length: 5" ++ CRLF
     ++ lit "Content-Length: abc" ++ CRLF ++ CRLF in
   split (lit "GURT/1.0.0 200 OK" ++ CRLF ++ lit "content-length: 5" ++ CRLF
          ++ lit "Content-Length: abc") CRLF
   = [lit "GURT/1.0.0 200 OK"; lit "content-length: 5";
      lit "Content-Length: abc"] /\
   startswith (lower (lit "Content-Length: abc")) (lit "content-length:") = true /\
   int (strip (lit " abc")) = None /\
   fst (GurtClient._read_response_data Net.Plain (sample_world [Net.Data head]))
   = raise GurtConnectionError (lit "Connection closed while reading body") /\
   fst (GurtClient._read_response_data Net.Plain
          (sample_world [Net.Data (head ++ lit "he"); Net.Data (lit "llo, world")]))
   = inr (head ++ lit "hello"))
  /\
  (let head :=
     lit "GURT/1.0.0 200 OK" ++ CRLF ++ lit "content-length: abc" ++ CRLF
     ++ lit "x-note: " ++ [255%N] ++ CRLF ++ CRLF in
   fst (GurtClient._read_response_data Net.Plain (sample_world [Net.Data head]))
   = raise UnicodeDecodeError (codec_error_text head)).
Proof.
  split; intros head.
  - split; [|split; [|split; [|split]]]; vm_compute; reflexivity.
  - vm_compute. reflexivity.
Qed.

Lemma resolve_gurt_url_witness :
  let host := lit "localhost" in
  let port := Some (lit "8080") in
  let path := lit "/api/data" in
  let query := Some (lit "x=1") in
  (host <> [] /\ forallb host_char host = true /\ port_ok port = true /\
   path_ok path = true /\ query_ok query = true) /\
  gurt_url host port path query = lit "gurt://localhost:8080/api/data?x=1" /\
  (map ascii_lower_char host, port_number port, request_target path query)
  = (lit "localhost", 8080%Z, lit "/api/data?x=1") /\
  GurtClient._parse_gurt_url (gurt_url host port path query)
  = inr (map ascii_lower_char host, port_number port, request_target path query).
Proof.
  intros host port path query.
  assert (H1 : host <> []) by discriminate.
  assert (H2 : forallb host_char host = true) by (vm_compute; reflexivity).
  assert (H3 : port_ok port = true) by (vm_compute; reflexivity).
  assert (H4 : path_ok path = true) by (vm_compute; reflexivity).
  assert (H5 : query_ok query = true) by (vm_compute; reflexivity).
  split; [now repeat split|].
  split; [vm_compute; reflexivity|].
  split; [vm_compute; reflexivity|].
  exact (proj1 (resolve_gurt_url host port path query H1 H2 H3 H4 H5)).
Defined.

(** What C6 says fails on four addresses of the form: a host with
    capital letters comes back in lower case, the port 0 comes back as
    4878, a port above 65535 makes the URL parser raise [ValueError], and
    so does the port 80 written with 4301 digits, which [int] refuses to
    convert. *)
Lemma resolve_gurt_url_counterexample :
  (gurt_url (lit "Example.COM") None (lit "/test") None
   = lit "gurt://Example.COM/test" /\
   GurtClient._parse_gurt_url (lit "gurt://Example.COM/test")
   = inr (lit "example.com", 4878%Z, lit "/test") /\
   lit "example.com" <> lit "Example.COM")
  /\
  (gurt_url (lit "localhost") (Some (lit "0")) (lit "/") None
   = lit "gurt://localhost:0/" /\
   GurtClient._parse_gurt_url (lit "gurt://localhost:0/")
   = inr (lit "localhost", 4878%Z, lit "/"))
  /\
  (gurt_url (lit "localhost") (Some (lit "70000")) (lit "/") None
   = lit "gurt://localhost:70000/" /\
   GurtClient._parse_gurt_url (lit "gurt://localhost:70000/")
   = raise ValueError (lit "Port out of range 0-65535"))
  /\
  (gurt_url (lit "h") (Some (repeat 48%N 4299 ++ lit "80")) (lit "/") None
   = lit "gurt://h:" ++ repeat 48%N 4299 ++ lit "80/" /\
   GurtClient._parse_gurt_url
     (gurt_url (lit "h") (Some (repeat 48%N 4299 ++ lit "80")) (lit "/") None)
   = raise ValueError (int_limit_error 4301)).
Proof.
  split; [split; [vm_compute; reflexivity
                 |split; [vm_compute; reflexivity|discriminate]]|].
  split; [split; vm_compute; reflexivity|].
  split; [split; vm_compute; reflexivity|].
  split; [vm_compute; reflexivity|].
  assert (Hlen : len (repeat 48%N 4299 ++ lit "80") = 4301%Z)
    by (vm_compute; reflexivity).
  rewrite <- Hlen. apply resolve_long_port.
  - discriminate.
  - reflexivity.
  - vm_compute; reflexivity.
  - rewrite Hlen. reflexivity.
  - reflexivity.
  - reflexivity.
Qed.

Lemma resolve_rejects_witness :
  let url := lit "gurt:///path" in
  (exists port path query,
     url = gurt_url [] port path query /\ port_chars_ok port = true /\
     path_ok path = true /\ query_ok query = true) /\
  (if startswith url (lit "gurt://")
   then lit "URL must have a hostname: " ++ url
   else lit "URL must use gurt:// scheme: " ++ url)
  = lit "URL must have a hostname: gurt:///path" /\
  (GurtClient._parse_gurt_url url
   = inl (Exn GurtError
            (if startswith url (lit "gurt://")
             then lit "URL must have a hostname: " ++ url
             else lit "URL must use gurt:// scheme: " ++ url))
   /\ base_class GurtError = None).
Proof.
  intros url.
  assert (H : exists port path query,
             url = gurt_url [] port path query /\ port_chars_ok port = true /\
             path_ok path = true /\ query_ok query = true).
  { exists None, (lit "/path"), None. repeat split; vm_compute; reflexivity. }
  split; [exact H|].
  split; [vm_compute; reflexivity|].
  exact (resolve_rejects url (or_intror (or_intror H))).
Defined.

(** What C7 says fails on the three addresses of the specification: the
    exception raised has the base class [GurtError] itself, not a class
    derived from it. *)
Lemma resolve_rejects_counterexample :
  (exists e,
     GurtClient._parse_gurt_url (lit "http://example.com/") = inl e /\
     exn_type e = GurtError /\ base_class (exn_type e) <> Some GurtError)
  /\
  (exists e,
     GurtClient._parse_gurt_url (lit "https://example.com/") = inl e /\
     exn_type e = GurtError /\ base_class (exn_type e) <> Some GurtError)
  /\
  (exists e,
     GurtClient._parse_gurt_url (lit "gurt:///path") = inl e /\
     exn_type e = GurtError /\ base_class (exn_type e) <> Some GurtError).
Proof.
  repeat split; eexists;
    (split; [vm_compute; reflexivity|split; [reflexivity|discriminate]]).
Qed.

(** ** The further properties on the sample inputs *)

Lemma with_header_keeps_names_distinct_witness :
  NoDup (keys (GurtRequest.headers sample_request)) /\
  (NoDup (keys (GurtRequest.headers
                  (GurtRequest.with_header sample_request (lit "Host")
                     (lit "example.org"))))
   /\
   keys (GurtRequest.headers
           (GurtRequest.with_header sample_request (lit "Host")
              (lit "example.org")))
   = (if has (GurtRequest.headers sample_request) (lower (lit "Host"))
      then keys (GurtRequest.headers sample_request)
      else keys (GurtRequest.headers sample_request) ++ [lower (lit "Host")])).
Proof.
  assert (H : NoDup (keys (GurtRequest.headers sample_request))).
  { repeat constructor; cbn [In]; intuition discriminate. }
  split; [exact H|].
  exact (with_header_keeps_names_distinct sample_request (lit "Host")
           (lit "example.org") H).
Defined.

Lemma parsed_names_distinct_witness :
  let request_data :=
    Bytes (lit "GET / GURT/1.0.0" ++ CRLF ++ lit "a: 1" ++ CRLF ++ lit "A: 2"
           ++ CRLF ++ CRLF) in
  let response_data :=
    Bytes (lit "GURT/1.0.0 200 OK" ++ CRLF ++ lit "a: 1" ++ CRLF ++ lit "A: 2"
           ++ CRLF ++ CRLF) in
  let r := GurtRequest.Build GurtMethod.GET (lit "/") (lit "1.0.0")
             [(lit "a", lit "2")] [] in
  let s := GurtResponse.Build (lit "1.0.0") GurtStatusCode.OK (lit "OK")
             [(lit "a", lit "2")] [] in
  (GurtRequest.parse request_data = inr r /\
   GurtResponse.parse response_data = inr s) /\
  (NoDup (keys (GurtRequest.headers r)) /\ NoDup (keys (GurtResponse.headers s))).
Proof.
  intros request_data response_data r s.
  assert (H1 : GurtRequest.parse request_data = inr r) by (vm_compute; reflexivity).
  assert (H2 : GurtResponse.parse response_data = inr s) by (vm_compute; reflexivity).
  split; [now split|].
  exact (parsed_names_distinct request_data response_data r s H1 H2).
Defined.

Lemma header_lines_stop_at_blank_witness :
  null (strip (lit "  ")) = true /\
  parse_header_lines ([lit "a: 1"] ++ lit "  " :: [lit "b: 2"]) []
  = parse_header_lines [lit "a: 1"] [].
Proof.
  assert (H : null (strip (lit "  ")) = true) by reflexivity.
  split; [exact H|].
  exact (header_lines_stop_at_blank [lit "a: 1"] [lit "b: 2"] (lit "  ") [] H).
Defined.

Lemma last_header_line_wins_witness :
  (Forall (fun l => null (strip l) = false) ([lit "a: 1"] ++ [lit "A : 2"]) /\
   split_once (lit "A : 2") (lit ":") = Some (lit "A ", lit " 2")) /\
  Py.get (parse_header_lines ([lit "a: 1"] ++ [lit "A : 2"]) [])
         (lower (strip (lit "A ")))
  = Some (strip (lit " 2")).
Proof.
  assert (H1 : Forall (fun l => null (strip l) = false)
                 ([lit "a: 1"] ++ [lit "A : 2"]))
    by (repeat constructor).
  assert (H2 : split_once (lit "A : 2") (lit ":") = Some (lit "A ", lit " 2"))
    by reflexivity.
  split; [now split|].
  exact (last_header_line_wins [lit "a: 1"] (lit "A : 2") (lit "A ") (lit " 2")
           [] H1 H2).
Defined.

Lemma body_is_opaque_witness :
  let head := lit "GET / GURT/1.0.0" in
  let body := lit "x" ++ CRLF ++ CRLF ++ lit "y" in
  split_once (head ++ BODY_SEPARATOR) BODY_SEPARATOR = Some (head, []) /\
  GurtRequest.parse (Bytes (head ++ BODY_SEPARATOR ++ body))
  = (r <- GurtRequest.parse (Bytes (head ++ BODY_SEPARATOR)) ;;
     ret (GurtRequest.Build (GurtRequest.method r) (GurtRequest.path r)
            (GurtRequest.version r) (GurtRequest.headers r) body)).
Proof.
  intros head body.
  assert (H : split_once (head ++ BODY_SEPARATOR) BODY_SEPARATOR = Some (head, []))
    by (vm_compute; reflexivity).
  split; [exact H|].
  exact (proj1 (body_is_opaque head body H)).
Defined.

Lemma no_blank_line_no_body_witness :
  let request_data := lit "GET / GURT/1.0.0" in
  let response_data := lit "GURT/1.0.0 200 OK" in
  let r := GurtRequest.Build GurtMethod.GET (lit "/") (lit "1.0.0") [] [] in
  let s := GurtResponse.Build (lit "1.0.0") GurtStatusCode.OK (lit "OK") [] [] in
  (contains request_data BODY_SEPARATOR = false /\
   contains response_data BODY_SEPARATOR = false /\
   GurtRequest.parse (Bytes request_data) = inr r /\
   GurtResponse.parse (Bytes response_data) = inr s) /\
  (GurtRequest.body r = [] /\ GurtResponse.body s = []).
Proof.
  intros request_data response_data r s.
  assert (H1 : contains request_data BODY_SEPARATOR = false) by (vm_compute; reflexivity).
  assert (H2 : contains response_data BODY_SEPARATOR = false) by (vm_compute; reflexivity).
  assert (H3 : GurtRequest.parse (Bytes request_data) = inr r) by (vm_compute; reflexivity).
  assert (H4 : GurtResponse.parse (Bytes response_data) = inr s) by (vm_compute; reflexivity).
  split; [now repeat split|].
  exact (no_blank_line_no_body request_data response_data r s H1 H2 H3 H4).
Defined.

Lemma reads_only_on_its_socket_witness :
  let w := sample_world [Net.Data sample_reply] in
  let w' := Net.Build None [] [] (inr (Some GURT_ALPN)) [Net.Recv Net.Plain 4096] in
  GurtClient._read_response_data Net.Plain w = (inr sample_reply, w') /\
  (continues (reads_on Net.Plain) w w' /\ same_answers w w').
Proof.
  intros w w'.
  assert (H : GurtClient._read_response_data Net.Plain w = (inr sample_reply, w'))
    by (vm_compute; reflexivity).
  split; [exact H|].
  exact (reads_only_on_its_socket Net.Plain w w' (inr sample_reply) H).
Defined.



Lemma closed_before_blank_line_witness :
  let chunks := [lit "GURT/1.0.0 200"; lit " OK" ++ CRLF] in
  let w := sample_world (map Net.Data chunks) in
  (Net.incoming w = map Net.Data chunks /\
   contains (concat chunks) GurtClient.header_end = false /\
   (len (concat chunks) <= MAX_MESSAGE_SIZE)%Z) /\
  fst (GurtClient._read_response_data Net.Plain w)
  = inl (Exn GurtConnectionError (lit "Connection closed while reading headers")).
Proof.
  intros chunks w.
  assert (H1 : Net.incoming w = map Net.Data chunks) by reflexivity.
  assert (H2 : contains (concat chunks) GurtClient.header_end = false)
    by (vm_compute; reflexivity).
  assert (H3 : (len (concat chunks) <= MAX_MESSAGE_SIZE)%Z)
    by (vm_compute; intros H; discriminate H).
  split; [now repeat split|].
  exact (closed_before_blank_line Net.Plain w chunks H1 H2 H3).
Defined.



Lemma handshake_accepted_witness :
  let self := sample_client in
  let host := lit "localhost" in
  let w := sample_world [Net.Data sample_handshake_reply] in
  let response :=
    GurtResponse.Build (lit "1.0.0") GurtStatusCode.SWITCHING_PROTOCOLS
      (lit "SWITCHING_PROTOCOLS") [] [] in
  let w1 := snd (GurtClient.handshake_exchange self Net.Plain host w) in
  (GurtClient.handshake_exchange self Net.Plain host w = (inr response, w1) /\
   GurtStatusCode.value (GurtResponse.status_code response) = 101%Z) /\
  GurtClient._perform_handshake self Net.Plain host w
  = (match Net.wrap_result w1 with
     | inl e => inl (GurtClient.handshake_except e)
     | inr selected =>
       if match selected with
          | Some p => Py.eqb p GURT_ALPN
          | None => false
          end
       then inr Net.Tls
       else inl (Exn GurtTLSError
                   (lit "ALPN negotiation failed. Expected b'" ++ GURT_ALPN
                    ++ lit "', got "
                    ++ match selected with
                       | Some p => p
                       | None => lit "None"
                       end))
     end,
     Net.log (Net.WrapSocket (GurtClient._ssl_context self) host) w1).
Proof.
  intros self host w response w1.
  assert (H1 : GurtClient.handshake_exchange self Net.Plain host w
               = (inr response, w1))
    by (vm_compute; reflexivity).
  assert (H2 : GurtStatusCode.value (GurtResponse.status_code response) = 101%Z)
    by reflexivity.
  split; [now split|].
  exact (handshake_accepted self Net.Plain host w w1 response H1 H2).
Defined.

Lemma connection_failure_witness :
  let self := sample_client in
  let host := lit "localhost" in
  let request := GurtRequest.init GurtMethod.GET (lit "/") GURT_VERSION in
  let e := Exn socket_timeout (lit "timed out") in
  let w := Net.Build (Some e) [] [] (inr None) [] in
  (Net.connect_error w = Some e /\ isinstance e OSError = true) /\
  GurtClient._send_request_internal self host 4878 request w
  = (inl (if isinstance e socket_timeout
          then Exn GurtTimeoutError
                 (lit "Connection timeout to " ++ host ++ lit ":"
                  ++ str_of_int 4878)
          else Exn GurtConnectionError
                 (lit "Failed to connect to " ++ host ++ lit ":"
                  ++ str_of_int 4878 ++ lit ": " ++ exn_str e)),
     Net.log (Net.Connect host 4878
                (GurtClientConfig.connection_timeout (GurtClient.config self))) w).
Proof.
  intros self host request e w.
  assert (H1 : Net.connect_error w = Some e) by reflexivity.
  assert (H2 : isinstance e OSError = true) by reflexivity.
  split; [now split|].
  exact (connection_failure self host 4878 request w e H1 H2).
Defined.

Lemma parsed_target_shape_witness :
  let url := lit "gurt://Example.COM:0/a?b" in
  GurtClient._parse_gurt_url url = inr (lit "example.com", 4878%Z, lit "/a?b") /\
  (startswith url (lit "gurt://") = true /\
   lit "example.com" <> [] /\
   (1 <= 4878 <= 65535)%Z /\
   startswith (lit "/a?b") (lit "/") = true).
Proof.
  intros url.
  assert (H : GurtClient._parse_gurt_url url
              = inr (lit "example.com", 4878%Z, lit "/a?b"))
    by (vm_compute; reflexivity).
  split; [exact H|].
  exact (parsed_target_shape url (lit "example.com") (lit "/a?b") 4878 H).
Defined.

Lemma rejected_url_costs_nothing_witness :
  let self := sample_client in
  let url := lit "http://example.com/" in
  let e := Exn GurtError (lit "URL must use gurt:// scheme: http://example.com/") in
  let w := sample_world [] in
  let call := GurtClient.post self url (lit "{}") (lit "application/json") in
  (GurtClient._parse_gurt_url url = inl e /\
   In call [GurtClient.get self url;
            GurtClient.post self url (lit "{}") (lit "application/json");
            GurtClient.put self url (lit "{}") (lit "application/json");
            GurtClient.delete self url;
            GurtClient.head self url;
            GurtClient.options self url]) /\
  call w = (inl e, w).
Proof.
  intros self url e w call.
  assert (H1 : GurtClient._parse_gurt_url url = inl e) by (vm_compute; reflexivity).
  assert (H2 : In call [GurtClient.get self url;
                        GurtClient.post self url (lit "{}") (lit "application/json");
                        GurtClient.put self url (lit "{}") (lit "application/json");
                        GurtClient.delete self url;
                        GurtClient.head self url;
                        GurtClient.options self url])
    by (right; left; reflexivity).
  split; [now split|].
  exact (rejected_url_costs_nothing self url (lit "{}") (lit "application/json")
           e w call H1 H2).
Defined.

